(** * migrate-i18n: the NLS to ResourceBundle converter and the JInto settings generator

    A shallow embedding of [convert_project.py] and [eclipse_jinto_setup.py].

    Python [str] values are modelled by [string]: a sequence of code points,
    here the code points below 256.  Files are read and written through a
    store that maps a path to the text of the file; exceptions and the
    records sent to [logging] are explicit in the result of every effectful
    function. *)

From Stdlib Require Import Ascii.
From Stdlib Require String.
From stdpp Require Import gmap strings list sorting.

Local Open Scope char_scope.

(** ** Characters the sources name *)

Definition nl : ascii := "010".
Definition cr : ascii := "013".
Definition dq : ascii := "034".
Definition bsl : ascii := "092".

Local Close Scope char_scope.

(** ** Python [str] operations *)

Module Str.

Definition len (s : string) : nat := String.length s.

(** [s[:n]] *)
Fixpoint take (n : nat) (s : string) : string :=
  match n, s with
  | S k, String c r => String c (take k r)
  | _, _ => EmptyString
  end.

(** [s[n:]] *)
Fixpoint drop (n : nat) (s : string) : string :=
  match n, s with
  | S k, String _ r => drop k r
  | _, _ => s
  end.

(** [s.startswith(p)] *)
Fixpoint startswith (p s : string) : bool :=
  match p, s with
  | EmptyString, _ => true
  | String a p', String b s' => if decide (a = b) then startswith p' s' else false
  | String _ _, EmptyString => false
  end.

(** [sub in s] *)
Fixpoint contains (sub s : string) : bool :=
  startswith sub s ||
  match s with
  | EmptyString => false
  | String _ r => contains sub r
  end.

(** [s.find(sub)], [None] standing for -1; [s.index(sub)] raises on it. *)
Fixpoint find (sub s : string) : option nat :=
  if startswith sub s then Some 0
  else match s with
       | EmptyString => None
       | String _ r => S <$> find sub r
       end.

(** [s.rfind(sub)] *)
Fixpoint rfind (sub s : string) : option nat :=
  match s with
  | EmptyString => if startswith sub s then Some 0 else None
  | String _ r =>
      match rfind sub r with
      | Some i => Some (S i)
      | None => if startswith sub s then Some 0 else None
      end
  end.

(** [s.replace(old, new)] for a non-empty [old]: the occurrences are taken
    from the left and do not overlap.  [skip] counts the characters of an
    occurrence that are still to be dropped. *)
Fixpoint replace_go (old new : string) (skip : nat) (s : string) : string :=
  match s with
  | EmptyString => EmptyString
  | String c r =>
      match skip with
      | S k => replace_go old new k r
      | O =>
          if startswith old s
          then new +:+ replace_go old new (len old - 1) r
          else String c (replace_go old new 0 r)
      end
  end.

(** With an empty [old], Python puts [new] before every character and at
    the end. *)
Fixpoint intersperse (new s : string) : string :=
  match s with
  | EmptyString => new
  | String c r => new +:+ String c (intersperse new r)
  end.

Definition replace (s old new : string) : string :=
  match old with
  | EmptyString => intersperse new s
  | String _ _ => replace_go old new 0 s
  end.

(** [str.isspace] on one code point below 256. *)
Definition is_space (c : ascii) : bool :=
  let n := nat_of_ascii c in
  ((9 <=? n) && (n <=? 13)) || ((28 <=? n) && (n <=? 32))
  || (n =? 133) || (n =? 160).

Fixpoint lstrip (s : string) : string :=
  match s with
  | String c r => if is_space c then lstrip r else s
  | EmptyString => EmptyString
  end.

Fixpoint rstrip (s : string) : string :=
  match s with
  | EmptyString => EmptyString
  | String c r =>
      match rstrip r with
      | EmptyString => if is_space c then EmptyString else String c EmptyString
      | r' => String c r'
      end
  end.

(** [s.strip()] *)
Definition strip (s : string) : string := rstrip (lstrip s).

(** [s.split()]: the maximal runs of characters that are not white space.
    [cur] is the run being read. *)
Fixpoint split_ws_go (cur : string) (s : string) : list string :=
  match s with
  | EmptyString => match cur with EmptyString => [] | _ => [cur] end
  | String c r =>
      if is_space c
      then match cur with
           | EmptyString => split_ws_go EmptyString r
           | _ => cur :: split_ws_go EmptyString r
           end
      else split_ws_go (cur +:+ String c EmptyString) r
  end.

Definition split_ws (s : string) : list string := split_ws_go EmptyString s.

(** [s.split(sep)] for a separator of one character: never empty. *)
Fixpoint split (sep : ascii) (s : string) : list string :=
  match s with
  | EmptyString => [EmptyString]
  | String c r =>
      if decide (c = sep) then EmptyString :: split sep r
      else match split sep r with
           | l :: ls => String c l :: ls
           | [] => [String c EmptyString]
           end
  end.

(** [sep.join(ls)] *)
Fixpoint join (sep : string) (ls : list string) : string :=
  match ls with
  | [] => EmptyString
  | [l] => l
  | l :: ls' => l +:+ sep +:+ join sep ls'
  end.

(** The order of Python's [<] on [str]: code point by code point. *)
Definition compare (a b : string) : comparison := String.compare a b.

End Str.

(** ** A file opened for iteration *)

(** A file opened with an empty [newline] argument: a line ends after a line feed, after a carriage
    return and line feed, or after a lone carriage return, and keeps its end. *)
Fixpoint lines_no_nl (s : string) : list string :=
  match s with
  | EmptyString => []
  | String c r =>
      if decide (c = nl) then String c EmptyString :: lines_no_nl r
      else if decide (c = cr) then
        match r with
        | String d r' =>
            if decide (d = nl)
            then String c (String d EmptyString) :: lines_no_nl r'
            else String c EmptyString :: lines_no_nl r
        | EmptyString => [String c EmptyString]
        end
      else match lines_no_nl r with
           | l :: ls => String c l :: ls
           | [] => [String c EmptyString]
           end
  end.

(** [open(path)]: universal newlines, every line end is read as a line feed. *)
Fixpoint translate_newlines (s : string) : string :=
  match s with
  | EmptyString => EmptyString
  | String c r =>
      if decide (c = cr) then
        match r with
        | String d r' =>
            if decide (d = nl) then String nl (translate_newlines r')
            else String nl (translate_newlines r)
        | EmptyString => String nl EmptyString
        end
      else String c (translate_newlines r)
  end.

Definition lines_text (s : string) : list string :=
  lines_no_nl (translate_newlines s).

(** ** Exceptions *)

(** An exception: its class, and for [ValueError] the arguments it was
    raised with.  [re_error] is the exception [re.error] of a pattern that
    does not compile.

    [Beyond] is no exception of Python.  It marks a run that this model
    does not follow to its end: a pattern with a construct of [re] that
    [re_compile] below does not parse, or a loop of
    [regex_replace_variable_safely] that is not done after the rounds the
    model gives it.  Nothing is stated about what Python does in such a
    run. *)
Inductive exn : Type :=
  | ValueError (args : list string)
  | IndexError
  | KeyError (key : string)
  | NameError (name : string)
  | FileNotFoundError (path : string)
  | re_error
  | Beyond.

Inductive result (A : Type) : Type :=
  | Ok (a : A)
  | Raise (e : exn).
Arguments Ok {A} a.
Arguments Raise {A} e.

Definition rbind {A B : Type} (x : result A) (f : A → result B) : result B :=
  match x with
  | Ok a => f a
  | Raise e => Raise e
  end.

(** ** Regular expressions

    A compiled pattern.  [Lit], [AnyStar] and [Seq] also write down the one
    pattern that the source gives as a constant, [public.*static.*String];
    the patterns that the source builds from names are compiled from their
    text by [re_compile].  The matcher tries the alternatives in the order
    of Python's [re]: leftmost start, [.*] longest first. *)

(** One member of a set [[...]]. *)
Inductive set_item : Type :=
  | SetChar (c : ascii)
  | SetRange (lo hi : ascii).

Inductive regex : Type :=
  | Lit (s : string)          (* the text itself *)
  | AnyChar                   (* . without DOTALL: one character, no line feed *)
  | OneOf (negate : bool) (set : list set_item)  (* [...] and [^...] *)
  | AnyStar                   (* .* without DOTALL: no line feed *)
  | Bol                       (* ^ without MULTILINE: the real start *)
  | Eol                       (* $ without MULTILINE: the end, or before a last line feed *)
  | Seq (r1 r2 : regex).

Record re_match : Type := MatchObj { m_start : nat; m_end : nat }.

Module Re.

Definition in_item (c : ascii) (i : set_item) : bool :=
  match i with
  | SetChar d => bool_decide (c = d)
  | SetRange lo hi =>
      (nat_of_ascii lo <=? nat_of_ascii c) && (nat_of_ascii c <=? nat_of_ascii hi)
  end.

Definition in_set (c : ascii) (set : list set_item) : bool :=
  existsb (in_item c) set.

(** [.*] followed by the continuation [k], at the absolute index [pos]. *)
Fixpoint any_star (pos : nat) (s : string)
    (k : nat → string → option nat) : option nat :=
  match s with
  | String c r =>
      if decide (c = nl) then k pos s
      else match any_star (S pos) r k with
           | Some e => Some e
           | None => k pos s
           end
  | EmptyString => k pos s
  end.

(** [$]: at the end of the text, or before a line feed that ends it. *)
Definition at_end (s : string) : bool :=
  match s with
  | EmptyString => true
  | String c EmptyString => bool_decide (c = nl)
  | _ => false
  end.

(** [accept r pos s k]: [r] matches a prefix of [s], which starts at the
    absolute index [pos], and [k] accepts the rest; the result is the index
    where the whole match ends. *)
Fixpoint accept (r : regex) (pos : nat) (s : string)
    (k : nat → string → option nat) : option nat :=
  match r with
  | Lit l =>
      if Str.startswith l s
      then k (pos + Str.len l) (Str.drop (Str.len l) s) else None
  | AnyChar =>
      match s with
      | String c r' => if bool_decide (c = nl) then None else k (S pos) r'
      | EmptyString => None
      end
  | OneOf negate set =>
      match s with
      | String c r' => if xorb negate (in_set c set) then k (S pos) r' else None
      | EmptyString => None
      end
  | AnyStar => any_star pos s k
  | Bol => if pos =? 0 then k pos s else None
  | Eol => if at_end s then k pos s else None
  | Seq a b => accept a pos s (λ p s', accept b p s' k)
  end.

Definition match_at (r : regex) (pos : nat) (s : string) : option nat :=
  accept r pos s (λ p _, Some p).

(** The scan of [pattern.search(content, pos)]: [s] is the text from the
    index [i] on. *)
Fixpoint search_go (r : regex) (pos i : nat) (s : string) : option re_match :=
  match (if pos <=? i then match_at r i s else None) with
  | Some e => Some (MatchObj i e)
  | None =>
      match s with
      | String _ s' => search_go r pos (S i) s'
      | EmptyString => None
      end
  end.

(** [pattern.search(content, pos)] *)
Definition search (r : regex) (content : string) (pos : nat) : option re_match :=
  search_go r pos 0 content.

(** *** [re.compile]

    The parser follows [sre_parse] on the part of the pattern language that
    is made of characters that stand for themselves, a backslash before a
    character that is neither an ASCII letter nor a digit, the dot, [^],
    [$] and sets in square brackets with ranges.  The repeats [* + ? {],
    groups and [|], and a backslash before a letter or a digit are not
    parsed: the result is [Beyond]. *)

Definition is_alnum (c : ascii) : bool :=
  let n := nat_of_ascii c in
  ((48 <=? n) && (n <=? 57)) || ((65 <=? n) && (n <=? 90)) || ((97 <=? n) && (n <=? 122)).

(** The characters [{ ( ) * + ? |] *)
Definition starts_unparsed (c : ascii) : bool :=
  bool_decide (c ∈ ["{"; "("; ")"; "*"; "+"; "?"; "|"]%char).

(** One character of a set, plain or after a backslash, and the text that
    follows it. *)
Definition set_char (s : string) : result (ascii * string) :=
  match s with
  | EmptyString => Raise re_error           (* unterminated character set *)
  | String c rest =>
      if bool_decide (c = bsl) then
        match rest with
        | EmptyString => Raise re_error     (* bad escape (end of pattern) *)
        | String e rest' => if is_alnum e then Raise Beyond else Ok (e, rest')
        end
      else Ok (c, rest)
  end.

(** The members of a set, after the opening bracket and the [^]; [set]
    holds the members read so far.  A closing bracket ends the set only
    after a first member. *)
Fixpoint parse_set (fuel : nat) (set : list set_item) (s : string)
    : result (list set_item * string) :=
  match fuel with
  | O => Raise Beyond
  | S fuel' =>
      match s with
      | EmptyString => Raise re_error       (* unterminated character set *)
      | String c rest =>
          if bool_decide (c = "]"%char) && negb (bool_decide (set = [])) then Ok (set, rest)
          else
            rbind (set_char s) (λ '(code1, rest1),
              match rest1 with
              | String d rest2 =>
                  if bool_decide (d = "-"%char) then
                    match rest2 with
                    | EmptyString => Raise re_error   (* unterminated character set *)
                    | String e rest3 =>
                        if bool_decide (e = "]"%char)
                        then Ok (set ++ [SetChar code1; SetChar "-"], rest3)
                        else
                          rbind (set_char rest2) (λ '(code2, rest4),
                            if nat_of_ascii code2 <? nat_of_ascii code1
                            then Raise re_error       (* bad character range *)
                            else parse_set fuel' (set ++ [SetRange code1 code2]) rest4)
                    end
                  else parse_set fuel' (set ++ [SetChar code1]) rest1
              | EmptyString => parse_set fuel' (set ++ [SetChar code1]) rest1
              end)
      end
  end.

(** The items of a pattern, from left to right. *)
Fixpoint parse (fuel : nat) (s : string) : result (list regex) :=
  match fuel with
  | O => match s with EmptyString => Ok [] | _ => Raise Beyond end
  | S fuel' =>
      match s with
      | EmptyString => Ok []
      | String c rest =>
          if bool_decide (c = bsl) then
            match rest with
            | EmptyString => Raise re_error   (* bad escape (end of pattern) *)
            | String e rest' =>
                if is_alnum e then Raise Beyond
                else rbind (parse fuel' rest') (λ items, Ok (Lit (String e "") :: items))
            end
          else if bool_decide (c = "."%char) then
            rbind (parse fuel' rest) (λ items, Ok (AnyChar :: items))
          else if bool_decide (c = "^"%char) then
            rbind (parse fuel' rest) (λ items, Ok (Bol :: items))
          else if bool_decide (c = "$"%char) then
            rbind (parse fuel' rest) (λ items, Ok (Eol :: items))
          else if bool_decide (c = "["%char) then
            let negate := Str.startswith "^" rest in
            let rest := if negate then Str.drop 1 rest else rest in
            rbind (parse_set (S (Str.len rest)) [] rest) (λ '(set, rest'),
            rbind (parse fuel' rest') (λ items, Ok (OneOf negate set :: items)))
          else if starts_unparsed c then Raise Beyond
          else rbind (parse fuel' rest) (λ items, Ok (Lit (String c "") :: items))
      end
  end.

(** [re.compile(pattern)] *)
Definition compile (pattern : string) : result regex :=
  rbind (parse (Str.len pattern) pattern) (λ items, Ok (foldr Seq (Lit "") items)).

End Re.

Definition re_compile : string → result regex := Re.compile.

(** ** convert_project.py: the rewrite engine *)

(** One element of [patterns]: the tuple
    [(FROM, TO, classname, variablename, package)]. *)
Record rule : Type := Rule {
  FROM : string;
  TO : string;
  classname : string;
  variablename : string;
  package : string
}.

Global Instance rule_eq_dec : EqDecision rule.
Proof. solve_decision. Defined.

(** The text of the pattern [variablewithoutdot]: a set that excludes the
    dot and the double quote, the variable name as it is, a set that
    excludes the double quote. *)
Definition variablewithoutdot_text (variablename : string) : string :=
  "[^\." +:+ String dq "]" +:+ variablename +:+ "[^" +:+ String dq "]".

(** The text of the pattern [variableatstart]. *)
Definition variableatstart_text (variablename : string) : string :=
  "^[^" +:+ String dq "]" +:+ variablename.

(** The first [while] of [regex_replace_variable_safely]; [m] is the pending
    result of [search].  The model follows the loop for [fuel] rounds. *)
Fixpoint while_withoutdot (fuel : nat) (variablewithoutdot : regex)
    (variablename TO content : string) (m : option re_match) : result string :=
  match m with
  | Some mt =>
      if m_start mt <? Str.len content then
        match fuel with
        | O => Raise Beyond
        | S fuel' =>
            let content' :=
              Str.take (m_start mt + 1) content +:+ TO
              +:+ Str.drop (m_end mt - 1) content in
            while_withoutdot fuel' variablewithoutdot variablename TO content'
              (Re.search variablewithoutdot content'
                 (m_end mt + Str.len TO - Str.len variablename - 1))
        end
      else Ok content
  | None => Ok content
  end.

(** The second [while]. *)
Fixpoint while_atstart (fuel : nat) (variableatstart : regex)
    (variablename TO content : string) (m : option re_match) : result string :=
  match m with
  | Some mt =>
      if m_start mt <? Str.len content then
        match fuel with
        | O => Raise Beyond
        | S fuel' =>
            let content' :=
              Str.take (m_start mt) content +:+ TO
              +:+ Str.drop (m_end mt) content in
            while_atstart fuel' variableatstart variablename TO content'
              (Re.search variableatstart content'
                 (m_end mt + Str.len TO - Str.len variablename))
        end
      else Ok content
  | None => Ok content
  end.

(** Both patterns are compiled before the first search.  For a name that
    stands for itself both loops are done within [len content] rounds (see
    [while_withoutdot_rounds] and [while_atstart_rounds] below). *)
Definition regex_replace_variable_safely (content variablename TO : string)
    : result string :=
  rbind (re_compile (variablewithoutdot_text variablename)) (λ variablewithoutdot,
  rbind (re_compile (variableatstart_text variablename)) (λ variableatstart,
  rbind (while_withoutdot (S (Str.len content)) variablewithoutdot variablename TO
           content (Re.search variablewithoutdot content 0)) (λ content,
  while_atstart (S (Str.len content)) variableatstart variablename TO
    content (Re.search variableatstart content 0)))).

Definition classimport (r : rule) : string :=
  "import " +:+ package r +:+ "." +:+ classname r.
Definition staticimport (r : rule) : string :=
  "import static " +:+ package r +:+ "." +:+ classname r.
Definition staticimportvariable (r : rule) : string :=
  "import static " +:+ package r +:+ "." +:+ FROM r.
Definition staticimportstar (r : rule) : string :=
  "import static " +:+ package r +:+ "." +:+ classname r +:+ ".*".

(** The text of [uses_static_variable_import_matcher]: the dots escaped. *)
Definition uses_static_variable_import_text (r : rule) : string :=
  Str.replace (staticimportvariable r) "." "\.".

(** The text of [uses_static_star_import_matcher]: the dots escaped, then
    the stars. *)
Definition uses_static_star_import_text (r : rule) : string :=
  Str.replace (Str.replace (staticimportstar r) "." "\.") "*" "\*".

(** [matcher.search(content) is not None] *)
Definition found (r : regex) (content : string) : bool :=
  match Re.search r content 0 with Some _ => true | None => false end.

(** [for x in l: st = body(st, x)], where the body can raise. *)
Fixpoint for_each {A S : Type} (body : S → A → result S) (st : S) (l : list A)
    : result S :=
  match l with
  | [] => Ok st
  | x :: l' => rbind (body st x) (λ st', for_each body st' l')
  end.

(** The body of the first [for] of [replace_NLS_usage]; the state is
    [content] and the set [replaced].  Both matchers are compiled before
    any test. *)
Definition usage_step (st : string * gset string) (r : rule)
    : result (string * gset string) :=
  let '(content, replaced) := st in
  rbind (re_compile (uses_static_variable_import_text r))
    (λ uses_static_variable_import_matcher,
  rbind (re_compile (uses_static_star_import_text r))
    (λ uses_static_star_import_matcher,
  rbind
    (if bool_decide (staticimportvariable r ∉ replaced)
          && found uses_static_variable_import_matcher content then
       let replaced := {[staticimportvariable r]} ∪ replaced in
       let content := Str.replace content (staticimportvariable r) (classimport r) in
       if bool_decide (variablename r ∉ replaced) then
         rbind (regex_replace_variable_safely content (variablename r) (TO r))
           (λ content, Ok (content, {[variablename r]} ∪ replaced))
       else Ok (content, replaced)
     else Ok (content, replaced)) (λ '(content, replaced),
  rbind
    (if found uses_static_star_import_matcher content
          && bool_decide (variablename r ∉ replaced) then
       rbind (regex_replace_variable_safely content (variablename r) (TO r))
         (λ content, Ok (content, {[variablename r]} ∪ replaced))
     else Ok (content, replaced)) (λ '(content, replaced),
  if bool_decide (FROM r ∉ replaced) && Str.contains (FROM r) content then
    Ok (Str.replace content (FROM r) (TO r), {[FROM r]} ∪ replaced)
  else Ok (content, replaced))))).

(** The body of the second [for]. *)
Definition star_step (st : string * gset string) (r : rule)
    : result (string * gset string) :=
  let '(content, replaced) := st in
  rbind (re_compile (uses_static_star_import_text r))
    (λ uses_static_star_import_matcher,
  if found uses_static_star_import_matcher content
       && bool_decide (staticimportstar r ∉ replaced) then
    Ok (Str.replace content (staticimportstar r) (classimport r),
        {[staticimportstar r]} ∪ replaced)
  else Ok (content, replaced)).

Definition replace_NLS_usage (content : string) (patterns : list rule)
    : result string :=
  rbind (for_each usage_step (content, ∅) patterns) (λ st,
  rbind (for_each star_step st patterns) (λ st, Ok (fst st))).

(** ** The file store and the log *)

Inductive level : Type := WARNING | ERROR.

(** What a run can observe and change: the text of every file, and the
    records handed to [logging] at the levels that pass the threshold set by
    [basicConfig] in [convert_project.py] (warning and above). *)
Record world : Type := World {
  files : gmap string string;
  records : list (level * string)
}.

Definition M (A : Type) : Type := world → result A * world.

Definition ret {A : Type} (a : A) : M A := λ w, (Ok a, w).
Definition raise {A : Type} (e : exn) : M A := λ w, (Raise e, w).
Definition bind {A B : Type} (x : M A) (f : A → M B) : M B :=
  λ w, match x w with
       | (Ok a, w') => f a w'
       | (Raise e, w') => (Raise e, w')
       end.
Definition lift {A : Type} (x : result A) : M A := λ w, (x, w).

Global Instance M_ret : MRet M := @ret.
Global Instance M_bind : MBind M := λ A B f x, bind x f.

(** [f.read()] after [open(filepath)] *)
Definition read_file (filepath : string) : M string :=
  λ w, match files w !! filepath with
       | Some content => (Ok content, w)
       | None => (Raise (FileNotFoundError filepath), w)
       end.

(** [f.write(content)] after [open(filepath, "w")] *)
Definition write_file (filepath content : string) : M unit :=
  λ w, (Ok tt, World (<[filepath := content]> (files w)) (records w)).

Definition logging_warning (msg : string) : M unit :=
  λ w, (Ok tt, World (files w) (records w ++ [(WARNING, msg)])).

Definition logging_error (msg : string) : M unit :=
  λ w, (Ok tt, World (files w) (records w ++ [(ERROR, msg)])).

(** ** convert_project.py: the pattern extractor *)

(** The pattern [public.*static.*String]. *)
Definition public_static_String : regex :=
  Seq (Lit "public") (Seq AnyStar (Seq (Lit "static") (Seq AnyStar (Lit "String")))).

(** The test of [NLS_variable_lines] on one line [i] of the file. *)
Definition is_variable_line (i : string) : bool :=
  found public_static_String i && negb (Str.contains "(" i).

Definition NLS_variable_lines (filepath : string) : M (list string) :=
  content ← read_file filepath;
  mret (filter (λ i, is_variable_line i = true) (lines_no_nl content)).

(** The [for] of [NLS_package] over the lines that are left. *)
Fixpoint NLS_package_lines (filepath : string) (ls : list string) : result string :=
  match ls with
  | [] => Raise (ValueError ["File %s has no package definition!"; filepath])
  | i :: ls' =>
      if Str.startswith "package " i
      then Ok (Str.strip (Str.replace (Str.drop (Str.len "package ") i) ";" ""))
      else NLS_package_lines filepath ls'
  end.

Definition NLS_package (filepath : string) : M string :=
  content ← read_file filepath;
  lift (NLS_package_lines filepath (lines_no_nl content)).

Definition remove_lines_from_file (filepath : string) (lines : list string) : M bool :=
  content ← read_file filepath;
  let linesset : gset string := list_to_set lines in
  let towrite := filter (λ i, i ∉ linesset) (lines_no_nl content) in
  let changed := bool_decide (Exists (λ i, i ∈ linesset) (lines_no_nl content)) in
  write_file filepath (Str.join "" towrite);;
  mret changed.

(** [os.path.basename] *)
Definition basename (p : string) : string :=
  match Str.rfind "/" p with
  | Some i => Str.drop (S i) p
  | None => p
  end.

(** The loop of [os.path.splitext] over the leading dots: is there a
    character other than a dot among the first [n] characters of [s]? *)
Fixpoint has_nondot_before (n : nat) (s : string) : bool :=
  match n, s with
  | S k, String c r => if decide (c = "."%char) then has_nondot_before k r else true
  | _, _ => false
  end.

(** [os.path.splitext(name)[0]] for a name without directory part. *)
Definition splitext_root (name : string) : string :=
  match Str.rfind "." name with
  | Some dotIndex =>
      if has_nondot_before dotIndex name then Str.take dotIndex name else name
  | None => name
  end.

Definition filepath_to_classname (filepath : string) : string :=
  splitext_root (basename filepath).

(** The [for ... else] of [line_to_variable] over the list [elements]. *)
Fixpoint element_after_String (elements : list string) : result string :=
  match elements with
  | [] => Raise (ValueError ["invalid line: did not contain String"])
  | elem :: rest =>
      if decide (elem = "String") then
        match rest with
        | variable :: _ => Ok variable
        | [] => Raise IndexError
        end
      else element_after_String rest
  end.

Definition line_to_variable (line : string) : result string :=
  rbind (element_after_String (Str.split_ws line))
        (λ variable, Ok (Str.replace variable ";" "")).

(** ** convert_project.py: the replacement-rule builder *)

(** [sorted(l, key=key)]: Python's sort is stable, and a stable sort has one
    result; straight insertion computes it.  [le] is [<=] on the keys. *)
Section Sorted.
Context {A K : Type} (key : A → K) (le : K → K → bool).

Fixpoint insert_sorted (x : A) (l : list A) : list A :=
  match l with
  | [] => [x]
  | y :: l' => if le (key x) (key y) then x :: l else y :: insert_sorted x l'
  end.

Fixpoint sorted (l : list A) : list A :=
  match l with
  | [] => []
  | x :: l' => insert_sorted x (sorted l')
  end.
End Sorted.

(** The key of the final sort:
    [(len(x[3]), x[3], len(x[2]), x[0])]. *)
Definition sort_key (x : rule) : nat * string * nat * string :=
  (Str.len (variablename x), variablename x, Str.len (classname x), FROM x).

(** Python's order on tuples: the first components decide unless they are
    equal. *)
Definition lex_compare {A B : Type} (cmpA : A → A → comparison)
    (cmpB : B → B → comparison) (x y : A * B) : comparison :=
  match cmpA x.1 y.1 with
  | Eq => cmpB x.2 y.2
  | c => c
  end.

(** [a <= b] for the order that [cmp] decides. *)
Definition cmp_le {A : Type} (cmp : A → A → comparison) (a b : A) : bool :=
  match cmp a b with Gt => false | _ => true end.

Definition key_compare : nat * string * nat * string → nat * string * nat * string → comparison :=
  lex_compare (lex_compare (lex_compare Nat.compare Str.compare) Nat.compare) Str.compare.

Definition key_le : nat * string * nat * string → nat * string * nat * string → bool :=
  cmp_le key_compare.

Definition str_le : string → string → bool := cmp_le Str.compare.

Definition TEMPLATE_MESSAGE_VARIABLE (classname variablename : string) : string :=
  classname +:+ "." +:+ variablename.

Definition TEMPLATE_MESSAGE_TOSTRING (classname variablename : string) : string :=
  classname +:+ ".getString(" +:+ String dq variablename +:+ String dq ")".

(** The inner [for] of [build_replacement_patterns]: the rules of one file,
    appended to [patterns]. *)
Fixpoint patterns_of_lines (filesandpackages : gmap string string)
    (filepath : string) (lines : list string) (patterns : list rule)
    : result (list rule) :=
  match lines with
  | [] => Ok patterns
  | line :: lines' =>
      let classname := filepath_to_classname filepath in
      rbind (line_to_variable line) (λ variablename,
        let fromstr := TEMPLATE_MESSAGE_VARIABLE classname variablename in
        let tostr := TEMPLATE_MESSAGE_TOSTRING classname variablename in
        match filesandpackages !! filepath with
        | None => Raise (KeyError filepath)
        | Some package =>
            patterns_of_lines filesandpackages filepath lines'
              (patterns ++ [Rule fromstr tostr classname variablename package])
        end)
  end.

(** The outer [for], over the sorted items of [filesandlines]. *)
Fixpoint patterns_of_items (filesandpackages : gmap string string)
    (items : list (string * list string)) (patterns : list rule)
    : result (list rule) :=
  match items with
  | [] => Ok patterns
  | (filepath, lines) :: items' =>
      rbind (patterns_of_lines filesandpackages filepath lines patterns)
            (patterns_of_items filesandpackages items')
  end.

(** [sorted(filesandlines.items())]: the paths of a dict are distinct, so
    the order of the pairs is the order of the paths. *)
Definition sorted_items (filesandlines : gmap string (list string))
    : list (string * list string) :=
  sorted fst str_le (map_to_list filesandlines).

Definition collect_patterns (filesandlines : gmap string (list string))
    (filesandpackages : gmap string string) : result (list rule) :=
  patterns_of_items filesandpackages (sorted_items filesandlines) [].

Definition build_replacement_patterns (filesandlines : gmap string (list string))
    (filesandpackages : gmap string string) : result (list rule) :=
  rbind (collect_patterns filesandlines filesandpackages)
        (λ patterns, Ok (reverse (sorted sort_key key_le patterns))).

(** ** convert_project.py: the file rewriter *)

Definition replace_patterns_in_file (filepath : string) (patterns : list rule) : M bool :=
  content ← read_file filepath;
  newcontent ← lift (replace_NLS_usage content patterns);
  let changed := bool_decide (newcontent ≠ content) in
  (if changed then write_file filepath newcontent else mret tt);;
  mret changed.

Definition replace_patterns_in_filelist (filepaths : list string)
    (patterns : list rule) : M (list bool) :=
  mapM (λ i, replace_patterns_in_file i patterns) filepaths.

(** ** convert_project.py: the message-holder transformer *)

(** The [except ValueError] branch builds its log call from the name
    [filepath], which is bound neither in the function nor in the module:
    evaluating it raises [NameError] before anything is logged. *)
Definition add_import_to_string (content existing_import : string) : result string :=
  match Str.find existing_import content with
  | None => Raise (NameError "filepath")
  | Some import_idx =>
      let additional_imports :=
        [ "import net.disy.commons.core.locale.IMessageResolver";
          "import net.disy.commons.core.locale.ResourceBundleMessageResolver";
          "import java.util.MissingResourceException" ] in
      let importstring :=
        Str.join (";" +:+ String nl "") additional_imports
        +:+ ";" +:+ String nl (String nl "") in
      Ok (Str.take import_idx content +:+ importstring +:+ Str.drop import_idx content)
  end.

(** [add_import_before]: the file is written only after
    [add_import_to_string] has returned. *)
Definition add_import_before (filepath : string) : M unit :=
  content ← read_file filepath;
  content ← lift (add_import_to_string content "import org.eclipse.osgi.util.NLS");
  write_file filepath content.

(** [content.index(sub)] *)
Definition index (sub content : string) : result nat :=
  match Str.find sub content with
  | Some i => Ok i
  | None => Raise (ValueError ["substring not found"])
  end.

(** [content.rindex(sub)] *)
Definition rindex (sub content : string) : result nat :=
  match Str.rfind sub content with
  | Some i => Ok i
  | None => Raise (ValueError ["substring not found"])
  end.

Definition replace_static_constructor_with_resolver (content : string) : result string :=
  let ResourceBundle :=
    "private static final IMessageResolver MSG = new ResourceBundleMessageResolver(BUNDLE_NAME);" in
  let static := "static {" in
  rbind (index static content) (λ startidx,
  rbind (index "}" (Str.drop (startidx + Str.len static) content)) (λ stopidx,
  Ok (Str.take startidx content +:+ ResourceBundle
      +:+ Str.drop (startidx + Str.len static + stopidx + 1) content))).

Definition TEMPLATE_GETSTRING : string :=
  String nl "  public static String getString(String key) {"
  +:+ String nl "    return MSG.getString(key);"
  +:+ String nl "  }".

Definition add_to_end_of_last_class (content block : string) : result string :=
  rbind (rindex (String nl "}") content) (λ endidx,
  Ok (Str.take endidx content +:+ block +:+ Str.drop endidx content)).

(** [all_empty]: every argument is a line and is blank; [None] stands for
    Python's [None]. *)
Definition all_empty (args : list (option string)) : bool :=
  forallb (λ l, match l with
                | Some l => bool_decide (Str.strip l = "")
                | None => false
                end) args.

(** The [for] of [cleanup_empty_lines] from the index [idx] on; the result is
    what the loop appends to [newlines]. *)
Fixpoint cleanup_loop (nlines idx : nat) (prevprev prev : option string)
    (lines : list string) : list string :=
  match lines with
  | [] => []
  | line :: lines' =>
      let keep :=
        negb (all_empty [prevprev; prev; Some line])
        && (negb (idx =? nlines - 1) || negb (all_empty [prev; Some line])) in
      (if keep then [line] else [])
      ++ cleanup_loop nlines (S idx) prev (Some line) lines'
  end.

(** [newlines] at the end of the loop over [lines]. *)
Definition cleanup_lines (lines : list string) : list string :=
  let nlines := length lines in
  cleanup_loop nlines 0 None None lines.

Definition cleanup_empty_lines (content : string) : string :=
  let lines := Str.split nl content in
  Str.join (String nl "") (cleanup_lines lines).

Definition rewrite_NLS_Messages_file (filepath : string)
    (variablelines : list string) : M bool :=
  changed ← remove_lines_from_file filepath variablelines;
  content ← read_file filepath;
  match replace_static_constructor_with_resolver content with
  | Raise (ValueError _) =>
      logging_warning ("No static block found in file " +:+ filepath);;
      mret false
  | Raise e => raise e
  | Ok rewritten =>
      rewritten ← lift (add_import_to_string rewritten "import org.eclipse.osgi.util.NLS");
      rewritten ← lift (add_to_end_of_last_class rewritten TEMPLATE_GETSTRING);
      let rewritten := cleanup_empty_lines rewritten in
      let rewritten := Str.replace rewritten " extends NLS" "" in
      let changed := changed || bool_decide (rewritten ≠ content) in
      (if changed then write_file filepath rewritten else mret tt);;
      mret changed
  end.

(** ** convert_project.py: the run *)

Section Main.
(** The search tools the script calls as subprocesses, and the number of
    processors: given from outside. *)
Variable get_paths_to_all_NLS_classes : string → list string.
Variable find_java_files : string → list string.
Variable cpu_count : nat.

Definition all_java_files_in (module_path : string) (exclude_paths : list string)
    : list string :=
  let exclude : gset string := list_to_set exclude_paths in
  filter (λ p, p ∉ exclude) (find_java_files module_path).

(** [for i in NLS_files: d[i] = f(i)] *)
Fixpoint fill_dict {V : Type} (f : string → M V) (NLS_files : list string)
    (d : gmap string V) : M (gmap string V) :=
  match NLS_files with
  | [] => mret d
  | i :: rest => v ← f i; fill_dict f rest (<[i := v]> d)
  end.

(** The files dealt round-robin into [listcount] sublists: sublist [k]
    holds the files whose index is [k] modulo [listcount]. *)
Definition deal (listcount : nat) (alljavafiles : list string) : list (list string) :=
  (λ k, (filter (λ ni, ni.1 `mod` listcount = k)
           (imap (λ n i, (n, i)) alljavafiles)).*2)
  <$> seq 0 listcount.

(** [rewrite_NLS_Messages_file(i, filesandlines[i])] *)
Definition rewrite_holder (filesandlines : gmap string (list string))
    (i : string) : M bool :=
  match filesandlines !! i with
  | Some lines => rewrite_NLS_Messages_file i lines
  | None => raise (KeyError i)
  end.

(** [[rewrite_NLS_Messages_file(i, filesandlines[i]) for i in NLS_files]] *)
Definition rewrite_holders (filesandlines : gmap string (list string))
    (NLS_files : list string) : M (list bool) :=
  mapM (rewrite_holder filesandlines) NLS_files.

(** [process_single_process] *)
Definition process_single_process (sublists : list (list string))
    (patterns : list rule) : M (list bool) :=
  changed ← mapM (λ sub, replace_patterns_in_filelist sub patterns) sublists;
  mret (concat changed).

(** [main] with [args.singleprocess] set; [module_paths] are the absolute
    paths. *)
Definition main (module_paths : list string) : M (list bool * list bool) :=
  let NLS_files := concat (get_paths_to_all_NLS_classes <$> module_paths) in
  filesandlines ← fill_dict NLS_variable_lines NLS_files ∅;
  filesandpackages ← fill_dict NLS_package NLS_files ∅;
  patterns ← lift (build_replacement_patterns filesandlines filesandpackages);
  let alljavafiles :=
    concat ((λ module_path, all_java_files_in module_path NLS_files) <$> module_paths) in
  let usecpus := 2 * cpu_count in
  let listcount := 3 * usecpus in
  let sublists := deal listcount alljavafiles in
  changedusage ← process_single_process sublists patterns;
  changedmessage ← rewrite_holders filesandlines NLS_files;
  mret (changedusage, changedmessage).
End Main.

(** ** The number of the test report

    [numtosxg] is the same function in both scripts; its argument is the
    number of doctests that were tried, an [int]. *)

Definition CHARACTERS : string :=
  "0123456789" +:+ "ABCDEFGHJKLMNPQRSTUVWXYZ" +:+ "_" +:+ "abcdefghijkmnopqrstuvwxyz".

(** [s[i]] for an index that is not negative. *)
Definition char_at (s : string) (i : nat) : result ascii :=
  match String.get i s with
  | Some c => Ok c
  | None => Raise IndexError
  end.

(** The [while] of [numtosxg]. *)
Fixpoint numtosxg_loop (fuel : nat) (n : Z) (s : string) : result string :=
  match fuel with
  | O => Ok s
  | S fuel' =>
      if (0 <? n)%Z then
        let '(n', i) := ((n `div` 60)%Z, (n `mod` 60)%Z) in
        rbind (char_at CHARACTERS (Z.to_nat i))
              (λ c, numtosxg_loop fuel' n' (String c s))
      else Ok s
  end.

(** Every round divides [n] by 60: the loop is over within the number of
    binary digits of [n] (see [numtosxg_loop_fuel] below). *)
Definition numtosxg (n : Z) : result string :=
  if (n =? 0)%Z then Ok "0"
  else numtosxg_loop (S (Z.to_nat (Z.log2 n))) n "".

(** ** eclipse_jinto_setup.py: the settings generator *)

Module Jinto.

Definition q : string := String dq "".

Definition BUNDLE_DECLARATION : string := "private static final String BUNDLE_NAME".
Definition CLASS_DECLARATION : string := "public class ".

(** [TEMPLATE.format(resource_bundle_reference=...)]: in the template the
    equals signs of the XML are written with a backslash before them and
    its line breaks as a backslash and the letter n, as a preferences file
    wants them; only the last two line ends are line feeds. *)
Definition TEMPLATE (resource_bundle_reference : string) : string :=
  "de.guhsoft.jinto.core.accessorConfiguration=<?xml version\=" +:+ q +:+ "1.0"
  +:+ q +:+ " encoding\=" +:+ q +:+ "UTF-8" +:+ q +:+ "?>\n<root>\n"
  +:+ resource_bundle_reference +:+ "\n</root>" +:+ String nl ""
  +:+ "eclipse.preferences.version=1" +:+ String nl "".

(** [TEMPLATE_RESOURCE_BUNDLE_REFERENCE_TAG.format(accessor=..., properties=...)] *)
Definition TEMPLATE_RESOURCE_BUNDLE_REFERENCE_TAG (accessor properties : string) : string :=
  "<resourceBundleReference resourceBundleName\=" +:+ q +:+ properties +:+ q
  +:+ ">\n<accessor typeName\=" +:+ q +:+ accessor +:+ q
  +:+ ">\n<methodReference methodName\=" +:+ q +:+ "getString" +:+ q
  +:+ ">\n<parameter index\=" +:+ q +:+ "0" +:+ q
  +:+ " isSelected\=" +:+ q +:+ "true" +:+ q
  +:+ " parameterName\=" +:+ q +:+ "key" +:+ q
  +:+ " parameterType\=" +:+ q +:+ "java.lang.String" +:+ q
  +:+ "/>\n</methodReference>\n</accessor>\n</resourceBundleReference>".

Definition process_bundle_template (accessor properties : string) : string :=
  TEMPLATE_RESOURCE_BUNDLE_REFERENCE_TAG accessor properties.

Definition generate_settings_data (accessors_and_properties : list (string * string))
    : string :=
  TEMPLATE (Str.join "\n"
    ((λ ap, process_bundle_template ap.1 ap.2) <$> accessors_and_properties)).

(** The three variables of the scan: [None] until found. *)
Record scan : Type := Scan {
  s_package : option string;
  s_properties : option string;
  s_classname : option string
}.

(** The body of the [for] of [extract_accessor_and_properties], up to the
    test that ends the loop. *)
Definition scan_line (st : scan) (line : string) : scan :=
  let package :=
    match s_package st with
    | None =>
        if Str.startswith "package" (Str.strip line)
        then Some (Str.strip (Str.replace (Str.replace line ";" "") "package" ""))
        else None
    | p => p
    end in
  let properties :=
    match s_properties st with
    | None =>
        if Str.contains BUNDLE_DECLARATION line then
          let properties :=
            Str.strip (Str.replace (Str.replace (Str.replace
              (Str.replace line BUNDLE_DECLARATION "") q "") "=" "") ";" "") in
          match Str.find "/" properties with
          | Some i => Some (Str.strip (Str.take i properties))
          | None => Some properties
          end
        else None
    | p => p
    end in
  let classname :=
    match s_classname st with
    | None =>
        if Str.contains CLASS_DECLARATION line
        then Some (Str.strip (Str.replace (Str.replace line CLASS_DECLARATION "") "{" ""))
        else None
    | c => c
    end in
  Scan package properties classname.

Fixpoint scan_lines (st : scan) (lines : list string) : scan :=
  match lines with
  | [] => st
  | line :: lines' =>
      let st' := scan_line st line in
      match s_package st', s_properties st', s_classname st' with
      | Some _, Some _, Some _ => st'
      | _, _, _ => scan_lines st' lines'
      end
  end.

(** [extract_accessor_and_properties]: returns [(accessor, properties)]. *)
Definition extract_accessor_and_properties (filepath : string) : M (string * string) :=
  content ← read_file filepath;
  let st := scan_lines (Scan None None None) (lines_text content) in
  match s_package st, s_properties st, s_classname st with
  | None, _, _ =>
      raise (ValueError ["File %s misses package identifier: %s."; filepath])
  | Some _, None, _ =>
      raise (ValueError ["File %s misses properties identifier: %s."; filepath])
  | Some _, Some _, None =>
      raise (ValueError ["File %s misses class identifier: %s."; filepath])
  | Some package, Some properties, Some classname =>
      mret (package +:+ "." +:+ classname, properties)
  end.

End Jinto.
(** ** The rewrite engine, every name read as plain text

    The functions of the rewrite engine once more, with the matchers that
    [re_compile] gives for names without an operator of [re] written down
    directly: the name stands for itself, [Lit].  For such names the
    functions above return what these compute ([regex_replace_variable_safely_plain]
    and [replace_NLS_usage_plain] below); the facts about the engine are
    proved here and carried over. *)
Module Literal.

(** The pattern [variablewithoutdot]: one character that is neither a dot
    nor a double quote, the variable name, one character that is not a
    double quote. *)
Definition variablewithoutdot (variablename : string) : regex :=
  Seq (OneOf true [SetChar "."; SetChar dq]) (Seq (Lit variablename) (OneOf true [SetChar dq])).

(** The pattern [variableatstart]: at the start of the text, one character
    that is not a double quote, then the variable name. *)
Definition variableatstart (variablename : string) : regex :=
  Seq Bol (Seq (OneOf true [SetChar dq]) (Lit variablename)).

(** The first [while] of [regex_replace_variable_safely]; [m] is the pending
    result of [search]. *)
Fixpoint while_withoutdot (fuel : nat) (variablename TO content : string)
    (m : option re_match) : string :=
  match fuel with
  | O => content
  | S fuel' =>
      match m with
      | Some mt =>
          if m_start mt <? Str.len content then
            let content' :=
              Str.take (m_start mt + 1) content +:+ TO
              +:+ Str.drop (m_end mt - 1) content in
            while_withoutdot fuel' variablename TO content'
              (Re.search (variablewithoutdot variablename) content'
                 (m_end mt + Str.len TO - Str.len variablename - 1))
          else content
      | None => content
      end
  end.

(** The second [while]. *)
Fixpoint while_atstart (fuel : nat) (variablename TO content : string)
    (m : option re_match) : string :=
  match fuel with
  | O => content
  | S fuel' =>
      match m with
      | Some mt =>
          if m_start mt <? Str.len content then
            let content' :=
              Str.take (m_start mt) content +:+ TO
              +:+ Str.drop (m_end mt) content in
            while_atstart fuel' variablename TO content'
              (Re.search (variableatstart variablename) content'
                 (m_end mt + Str.len TO - Str.len variablename))
          else content
      | None => content
      end
  end.

(** Both loops stop within [len content] rounds (see
    [while_withoutdot_fuel] and [while_atstart_fuel] below). *)
Definition regex_replace_variable_safely (content variablename TO : string) : string :=
  let content1 :=
    while_withoutdot (S (Str.len content)) variablename TO content
      (Re.search (variablewithoutdot variablename) content 0) in
  while_atstart (S (Str.len content1)) variablename TO content1
    (Re.search (variableatstart variablename) content1 0).

(** The body of the first [for] of [replace_NLS_usage]; the state is
    [content] and the set [replaced]. *)
Definition usage_step (st : string * gset string) (r : rule) : string * gset string :=
  let '(content, replaced) := st in
  let uses_static_variable_import_matcher := Lit (staticimportvariable r) in
  let uses_static_star_import_matcher := Lit (staticimportstar r) in
  let '(content, replaced) :=
    if bool_decide (staticimportvariable r ∉ replaced)
         && found uses_static_variable_import_matcher content then
      let replaced := {[staticimportvariable r]} ∪ replaced in
      let content := Str.replace content (staticimportvariable r) (classimport r) in
      if bool_decide (variablename r ∉ replaced) then
        (regex_replace_variable_safely content (variablename r) (TO r),
         {[variablename r]} ∪ replaced)
      else (content, replaced)
    else (content, replaced) in
  let '(content, replaced) :=
    if found uses_static_star_import_matcher content
         && bool_decide (variablename r ∉ replaced) then
      (regex_replace_variable_safely content (variablename r) (TO r),
       {[variablename r]} ∪ replaced)
    else (content, replaced) in
  if bool_decide (FROM r ∉ replaced) && Str.contains (FROM r) content then
    (Str.replace content (FROM r) (TO r), {[FROM r]} ∪ replaced)
  else (content, replaced).

(** The body of the second [for]. *)
Definition star_step (st : string * gset string) (r : rule) : string * gset string :=
  let '(content, replaced) := st in
  let uses_static_star_import_matcher := Lit (staticimportstar r) in
  if found uses_static_star_import_matcher content
       && bool_decide (staticimportstar r ∉ replaced) then
    (Str.replace content (staticimportstar r) (classimport r),
     {[staticimportstar r]} ∪ replaced)
  else (content, replaced).

Definition replace_NLS_usage (content : string) (patterns : list rule) : string :=
  let st := foldl usage_step (content, ∅) patterns in
  fst (foldl star_step st patterns).

End Literal.

(** ** Names without an operator of [re] *)

(** The characters that [sre_parse] does not read as themselves:
    [. \ [ { ( ) * + ? ^ $ |]. *)
Definition operators : list ascii :=
  ["."; bsl; "["; "{"; "("; ")"; "*"; "+"; "?"; "^"; "$"; "|"]%char.

Definition is_operator (c : ascii) : bool := existsb (Ascii.eqb c) operators.

(** No character of [s] is an operator. *)
Fixpoint no_operator (s : string) : bool :=
  match s with
  | EmptyString => true
  | String c r => negb (is_operator c) && no_operator r
  end.

(** No character of [s] is an operator other than the dot, which the
    source escapes in the import matchers. *)
Fixpoint no_operator_but_dot (s : string) : bool :=
  match s with
  | EmptyString => true
  | String c r => (bool_decide (c = "."%char) || negb (is_operator c)) && no_operator_but_dot r
  end.

(** A rule whose names stand for themselves in the patterns: the variable
    name holds no operator, the package, the class name and the fromPattern
    none but dots. *)
Definition plain_rule (r : rule) : Prop :=
  no_operator (variablename r) = true
  ∧ no_operator_but_dot (package r) = true
  ∧ no_operator_but_dot (classname r) = true
  ∧ no_operator_but_dot (FROM r) = true.

(** Two patterns that match alike, whatever follows them. *)
Definition same_matcher (r1 r2 : regex) : Prop :=
  ∀ pos s k1 k2, (∀ p t, k1 p t = k2 p t) →
    Re.accept r1 pos s k1 = Re.accept r2 pos s k2.

(** The items that [sre_parse] makes of a text without operator: one
    literal for each character. *)
Fixpoint lits (s : string) : list regex :=
  match s with
  | EmptyString => []
  | String c r => Lit (String c "") :: lits r
  end.

(** [s.replace(".", "\\.")] *)
Definition escape_dots (s : string) : string := Str.replace s "." "\.".


(** * Notions used in the statements *)

(** [sub] occurs in [s]. *)
Definition occurs (sub s : string) : Prop := ∃ a b, s = a +:+ sub +:+ b.

(** None of the three texts that make a rule fire occurs in [content]. *)
Definition silent (content : string) (r : rule) : Prop :=
  ¬ occurs (staticimportvariable r) content
  ∧ ¬ occurs (staticimportstar r) content
  ∧ ¬ occurs (FROM r) content.

(** ** Scenarios *)

(** A text given line by line; the lines are joined by line feeds. *)
Definition text (ls : list string) : string := Str.join (String nl "") ls.

(** A declaration line as the holder files have them. *)
Definition declaration (variable : string) : string :=
  "  public static String " +:+ variable +:+ ";" +:+ String nl "".

Definition Bah_package : gmap string string := {[ "src/foo/Bah.java" := "foo" ]}.

Definition getString_rule : rule :=
  Rule "Bah.getString" (TEMPLATE_MESSAGE_TOSTRING "Bah" "getString")
       "Bah" "getString" "foo".

(** The holder class [Bah] of package [foo] declares the field [FOO_a]. *)
Definition FOO_a_lines : gmap string (list string) :=
  {[ "src/foo/Bah.java" := [declaration "FOO_a"] ]}.

Definition FOO_a_rule : rule :=
  Rule "Bah.FOO_a" (TEMPLATE_MESSAGE_TOSTRING "Bah" "FOO_a") "Bah" "FOO_a" "foo".

Definition usage_before : string :=
  text [ "package bar;";
         "";
         "import static foo.Bah.*;";
         "";
         "public class Use {";
         "  String label() {";
         "    String x;";
         "    x = FOO_a;";
         "    return x;";
         "  }";
         "}";
         "" ].

Definition usage_after : string :=
  text [ "package bar;";
         "";
         "import foo.Bah;";
         "";
         "public class Use {";
         "  String label() {";
         "    String x;";
         "    x = Bah.getString(" +:+ String dq "FOO_a" +:+ String dq ");";
         "    return x;";
         "  }";
         "}";
         "" ].


(** The number of occurrences of [sub] in [s], taken from the left without
    overlap, as [s.count(sub)] counts them; [sub] is not empty. *)
Fixpoint count_go (sub : string) (skip : nat) (s : string) : nat :=
  match s with
  | EmptyString => 0
  | String _ r =>
      match skip with
      | S k => count_go sub k r
      | O =>
          if Str.startswith sub s
          then S (count_go sub (Str.len sub - 1) r)
          else count_go sub 0 r
      end
  end.

Definition count (sub s : string) : nat := count_go sub 0 s.

(** An accessor class as the converter leaves it: package [net.disy.x],
    class [Messages], bundle [net.disy.x.messages]. *)
Definition accessor_file : string :=
  text [ "package net.disy.x;";
         "";
         "import net.disy.commons.core.locale.IMessageResolver;";
         "import net.disy.commons.core.locale.ResourceBundleMessageResolver;";
         "import java.util.MissingResourceException;";
         "";
         "public class Messages {";
         "  private static final String BUNDLE_NAME = " +:+ String dq "net.disy.x.messages"
           +:+ String dq "; //$NON-NLS-1$";
         "  private static final IMessageResolver MSG = new ResourceBundleMessageResolver(BUNDLE_NAME);";
         "";
         "  private Messages() {";
         "  }";
         "";
         "  public static String getString(String key) {";
         "    return MSG.getString(key);";
         "  }";
         "}";
         "" ].

Definition accessor_world : world :=
  World {[ "/ws/x/src/net/disy/x/Messages.java" := accessor_file ]} [].

(** The opening tag as the claim writes it, and as the template writes it,
    with a backslash before the equals sign. *)
Definition reference_tag_plain : string :=
  "<resourceBundleReference resourceBundleName=" +:+ String dq "net.disy.x.messages"
  +:+ String dq ">".
Definition reference_tag_escaped : string :=
  "<resourceBundleReference resourceBundleName\=" +:+ String dq "net.disy.x.messages"
  +:+ String dq ">".
Definition accessor_tag_escaped : string :=
  "<accessor typeName\=" +:+ String dq "net.disy.x.Messages" +:+ String dq ">".

(** What [remove_lines_from_file] writes back. *)
Definition kept_lines (variablelines : list string) (content : string) : string :=
  Str.join "" (filter (λ i, i ∉ (list_to_set variablelines : gset string))
                      (lines_no_nl content)).

(** A holder file of package [foo]; [with_package] says whether the package
    line is there. *)
Definition holder_file (with_package : bool) (class : string) : string :=
  text ((if with_package then ["package foo;"; ""] else [])
        ++ [ "import org.eclipse.osgi.util.NLS;";
             "";
             "public class " +:+ class +:+ " extends NLS {";
             "  private static final String BUNDLE_NAME = " +:+ String dq "foo.messages"
               +:+ String dq "; //$NON-NLS-1$";
             "  public static String FOO_a;";
             "  static {";
             "    NLS.initializeMessages(BUNDLE_NAME, " +:+ class +:+ ".class);";
             "  }";
             "}";
             "" ]).

(** A project with the holder classes [Bah] and [Baz] and one class that
    uses [Bah]; the file of [Bah] is the first that the search reports. *)
Definition project (Bah_has_package : bool) : world :=
  World {[ "/p/src/foo/Bah.java" := holder_file Bah_has_package "Bah";
           "/p/src/foo/Baz.java" := holder_file true "Baz";
           "/p/src/bar/Use.java" := usage_before ]} [].

Definition project_holders (module_path : string) : list string :=
  ["/p/src/foo/Bah.java"; "/p/src/foo/Baz.java"].
Definition project_sources (module_path : string) : list string :=
  ["/p/src/bar/Use.java"; "/p/src/foo/Bah.java"; "/p/src/foo/Baz.java"].

(** The file has a line that begins with the keyword [package]. *)
Definition has_package_line (content : string) : Prop :=
  Exists (λ i, Str.startswith "package " i = true) (lines_no_nl content).

Global Instance has_package_line_dec (content : string) :
  Decision (has_package_line content).
Proof. unfold has_package_line. apply _. Defined.

Definition no_package_args (filepath : string) : list string :=
  ["File %s has no package definition!"; filepath].

Definition no_static_block_record (filepath : string) : level * string :=
  (WARNING, "No static block found in file " +:+ filepath).

(** A holder file that declares [FOO_a] and has lost its static block. *)
Definition holder_without_static : string :=
  text [ "package foo;";
         "";
         "import org.eclipse.osgi.util.NLS;";
         "";
         "public class Bah extends NLS {";
         "  public static String FOO_a;";
         "}";
         "" ].

Definition holder_without_static_kept : string :=
  text [ "package foo;";
         "";
         "import org.eclipse.osgi.util.NLS;";
         "";
         "public class Bah extends NLS {";
         "}";
         "" ].

Definition no_static_world : world :=
  World {[ "/p/src/foo/Bah.java" := holder_without_static ]} [].

(** A comparison function that decides a total order. *)
Class CompareOrder {A : Type} (cmp : A → A → comparison) : Prop := {
  cmp_eq (a b : A) : cmp a b = Eq ↔ a = b;
  cmp_antisym (a b : A) : cmp a b = CompOpp (cmp b a);
  cmp_lt_trans (a b c : A) : cmp a b = Lt → cmp b c = Lt → cmp a c = Lt
}.

(** The rule [a] may stand before the rule [b] in the list of rules: the
    longer variable name first; for equal lengths the greater variable name;
    for equal names the longer class name; for equal lengths of those the
    greater fromPattern. *)
Definition may_precede (a b : rule) : Prop :=
  Str.len (variablename b) < Str.len (variablename a)
  ∨ (Str.len (variablename b) = Str.len (variablename a)
     ∧ (Str.compare (variablename b) (variablename a) = Lt
        ∨ (variablename b = variablename a
           ∧ (Str.len (classname b) < Str.len (classname a)
              ∨ (Str.len (classname b) = Str.len (classname a)
                 ∧ Str.compare (FROM b) (FROM a) ≠ Gt))))).

(** The class [Bah] of package [foo] declares [FOO_a] and then [FOO_aa]. *)
Definition FOO_a_aa_lines : gmap string (list string) :=
  {[ "src/foo/Bah.java" := [declaration "FOO_a"; declaration "FOO_aa"] ]}.

Definition FOO_aa_rule : rule :=
  Rule "Bah.FOO_aa" (TEMPLATE_MESSAGE_TOSTRING "Bah" "FOO_aa") "Bah" "FOO_aa" "foo".

(** No line feed in [s]. *)
Fixpoint no_line_feed (s : string) : Prop :=
  match s with
  | EmptyString => True
  | String c r => c ≠ nl ∧ no_line_feed r
  end.

(** The texts [public], [static] and [String] occur in [i] one after the
    other, in this order. *)
Definition public_static_String_in_order (i : string) : Prop :=
  ∃ a b c d, i = a +:+ "public" +:+ b +:+ "static" +:+ c +:+ "String" +:+ d.

(** The words of a line: the maximal runs of letters, digits and
    underscores. *)
Definition is_word_char (c : ascii) : bool :=
  let n := nat_of_ascii c in
  ((48 <=? n) && (n <=? 57)) || ((65 <=? n) && (n <=? 90))
  || ((97 <=? n) && (n <=? 122)) || (n =? 95).

Fixpoint words_go (cur : string) (s : string) : list string :=
  match s with
  | EmptyString => match cur with EmptyString => [] | _ => [cur] end
  | String c r =>
      if is_word_char c then words_go (cur +:+ String c EmptyString) r
      else match cur with
           | EmptyString => words_go EmptyString r
           | _ => cur :: words_go EmptyString r
           end
  end.

Definition words (s : string) : list string := words_go EmptyString s.

(** The elements of [pat] are found in [l], in this order. *)
Fixpoint in_this_order (pat l : list string) : bool :=
  match pat, l with
  | [], _ => true
  | _ :: _, [] => false
  | p :: pat', x :: l' =>
      if decide (p = x) then in_this_order pat' l' else in_this_order pat l'
  end.

(** A line that contains [public], [static] and [String] as whole words in
    this order, and no opening parenthesis. *)
Definition declared_by_whole_words (i : string) : bool :=
  in_this_order ["public"; "static"; "String"] (words i)
  && negb (Str.contains "(" i).

(** A class with a field of a type whose name only starts with [String]. *)
Definition builder_file : string :=
  text [ "package foo;";
         "";
         "public class Texts {";
         "  public static StringBuilder buffer;";
         "  public static String FOO_a;";
         "}";
         "" ].

Definition builder_world : world :=
  World {[ "/p/src/foo/Texts.java" := builder_file ]} [].

(** A blank line, as [cleanup_empty_lines] tests it: nothing is left when
    the white space is stripped. *)
Definition blank (l : string) : Prop := Str.strip l = "".

(** The test on [prev] and [prevprev], which are [None] before the first
    lines. *)
Definition blank_before (o : option string) : bool :=
  match o with
  | Some l => bool_decide (blank l)
  | None => false
  end.

(** No three blank lines follow one another in [ls]. *)
Definition no_three_blank (ls : list string) : Prop :=
  ∀ l1 a b c l2, ls = l1 ++ a :: b :: c :: l2 → ¬ (blank a ∧ blank b ∧ blank c).

(** The same, counted: [c] blank lines stand right before [ls]. *)
Fixpoint blank_runs_ok (c : nat) (ls : list string) : Prop :=
  match ls with
  | [] => True
  | l :: ls' =>
      if bool_decide (blank l) then c < 2 ∧ blank_runs_ok (S c) ls'
      else blank_runs_ok 0 ls'
  end.

(** The number of blank lines that [prevprev] and [prev] stand for. *)
Definition blanks_before (prevprev prev : option string) : nat :=
  if blank_before prev then (if blank_before prevprev then 2 else 1) else 0.

(** A line read from a file has at most one line feed, its last character. *)
Definition line_shape (i : string) : Prop :=
  ∃ body, no_line_feed body ∧ (i = body ∨ i = body +:+ String nl "").

(** [a] stands before [b] in ascending order of the keys. *)
Definition ascending {A K : Type} (key : A → K) (cmp : K → K → comparison)
    (a b : A) : Prop :=
  cmp_le cmp (key a) (key b) = true.

(** The character [c] is one of the characters of [s]. *)
Fixpoint has_char (c : ascii) (s : string) : bool :=
  match s with
  | EmptyString => false
  | String x r => bool_decide (x = c) || has_char c r
  end.

(** The content begins with the variable name and a space. *)
Definition leading (V content : string) : Prop :=
  ∃ rest, content = V +:+ String " " rest.

(** [prevprev] and [prev] after the lines [ls]. *)
Definition advance (st : option string * option string) (ls : list string)
    : option string * option string :=
  foldl (λ st line, (st.2, Some line)) st ls.

(** A project with the holder class [Bah] alone and the class that uses it. *)
Definition small_project : world :=
  World {[ "/p/src/foo/Bah.java" := holder_file true "Bah";
           "/p/src/bar/Use.java" := usage_before ]} [].

Definition small_project_holders (module_path : string) : list string :=
  ["/p/src/foo/Bah.java"].
Definition small_project_sources (module_path : string) : list string :=
  ["/p/src/bar/Use.java"; "/p/src/foo/Bah.java"].

(** The pattern [variablewithoutdot] matches at the head of [s]. *)
Definition withoutdot_here (V s : string) : bool :=
  match s with
  | String c r =>
      negb (bool_decide (c ∈ ["."%char; dq])) && Str.startswith V r
      && match Str.drop (Str.len V) r with
         | String d _ => negb (bool_decide (d ∈ [dq]))
         | EmptyString => false
         end
  | EmptyString => false
  end.

(** The first loop of [regex_replace_variable_safely] as one pass from left
    to right over the text that is still to be searched: the character before
    a match is kept, the name is dropped ([skip] counts what is left of it)
    and the accessor string is put in its place; the search goes on at the
    character after the name. *)
Fixpoint pass_go (V T : string) (skip : nat) (s : string) : string :=
  match s with
  | EmptyString => EmptyString
  | String c r =>
      match skip with
      | S k => pass_go V T k r
      | O =>
          if withoutdot_here V s
          then String c (T +:+ pass_go V T (Str.len V) r)
          else String c (pass_go V T 0 r)
      end
  end.

(** The pattern [variableatstart] matches at the head of [s]. *)
Definition atstart_here (V s : string) : bool :=
  match s with
  | String c r => negb (bool_decide (c ∈ [dq])) && Str.startswith V r
  | EmptyString => false
  end.

(** The suffixes of [s] that are not empty. *)
Fixpoint tails (s : string) : list string :=
  match s with
  | EmptyString => []
  | String _ r => s :: tails r
  end.

(** One of the two texts begins with the other. *)
Definition related (u k : string) : bool :=
  Str.startswith u k || Str.startswith k u.

(** No occurrence of [old] that begins before [k] reaches into [k]... *)
Definition clear_before (old k : string) : bool :=
  forallb (λ u, negb (related u k)) (tails (Str.drop 1 old)).

(** ...and none begins inside [k]. *)
Definition clear_inside (old k : string) : bool :=
  forallb (λ k', negb (related old k')) (tails k).

(** The import line and the usage of the end-to-end scenario, before and
    after the rewrite. *)
Definition import_line : string := "import static foo.Bah.*;".
Definition import_line_after : string := "import foo.Bah;".
Definition usage_text : string := "x = FOO_a;".
Definition usage_text_after : string :=
  "x = " +:+ TEMPLATE_MESSAGE_TOSTRING "Bah" "FOO_a" +:+ ";".

(** No occurrence of [old] in a text around [k] touches [k]. *)
Definition untouched (old k : string) : bool :=
  clear_before old k && clear_inside old k.

(** A rule as [build_replacement_patterns] makes it: the fromPattern is
    the class name, a dot and the variable name, the toPattern the accessor
    call. *)
Definition well_formed (r : rule) : Prop :=
  FROM r = TEMPLATE_MESSAGE_VARIABLE (classname r) (variablename r)
  ∧ TO r = TEMPLATE_MESSAGE_TOSTRING (classname r) (variablename r).

(** * Notions used in the further statements *)

(** The declaration that takes the place of the static block, the import
    line of the NLS class, and the import lines that are put before it. *)
Definition resolver_declaration : string :=
  "private static final IMessageResolver MSG = new ResourceBundleMessageResolver(BUNDLE_NAME);".

Definition NLS_import : string := "import org.eclipse.osgi.util.NLS".

Definition resolver_imports : string :=
  "import net.disy.commons.core.locale.IMessageResolver;" +:+ String nl ""
  +:+ "import net.disy.commons.core.locale.ResourceBundleMessageResolver;" +:+ String nl ""
  +:+ "import java.util.MissingResourceException;" +:+ String nl (String nl "").

(** The closing brace of a class at the start of a line. *)
Definition closing_brace : string := String nl "}".

(** The file [filepath] holds [content], everything else is as in [w]. *)
Definition with_file (w : world) (filepath content : string) : world :=
  World (<[filepath := content]> (files w)) (records w).

(** Some character of [s] passes the test [P]; every character does. *)
Fixpoint any_char (P : ascii → bool) (s : string) : bool :=
  match s with
  | EmptyString => false
  | String c r => P c || any_char P r
  end.

Fixpoint all_char (P : ascii → bool) (s : string) : bool :=
  match s with
  | EmptyString => true
  | String c r => P c && all_char P r
  end.

Definition is_dot (c : ascii) : bool := bool_decide (c = "."%char).

(** The rule that [build_replacement_patterns] makes for the variable
    [variable] declared in the file [filepath] of the package [package]. *)
Definition rule_of (filepath package variable : string) : rule :=
  let classname := filepath_to_classname filepath in
  Rule (TEMPLATE_MESSAGE_VARIABLE classname variable)
       (TEMPLATE_MESSAGE_TOSTRING classname variable)
       classname variable package.

(** [k] line feeds. *)
Fixpoint line_feeds (k : nat) : string :=
  match k with
  | O => EmptyString
  | S k' => String nl (line_feeds k')
  end.

(** The last two lines of [ls] are blank. *)
Definition ends_two_blank (ls : list string) : Prop :=
  ∃ pre a b, ls = pre ++ [a; b] ∧ blank a ∧ blank b.

(** The last of the lines of [content], the text after its last line feed,
    is not blank. *)
Definition last_line_not_blank (content : string) : Prop :=
  ∀ a, last (Str.split nl content) = Some a → ¬ blank a.

(** From [w] to [w'] no file has been created and none deleted, only files
    of [S] have another content, and the log has only grown. *)
Definition changes_only (S : gset string) (w w' : world) : Prop :=
  dom (files w') = dom (files w)
  ∧ (∀ p, p ∉ S → files w' !! p = files w !! p)
  ∧ records w `prefix_of` records w'.

(** The value of a base-60 digit and of a number written with such digits,
    the most significant first. *)
Definition sxg_digit (c : ascii) : option Z :=
  Z.of_nat <$> Str.find (String c "") CHARACTERS.

Fixpoint sxg_value_from (acc : Z) (s : string) : option Z :=
  match s with
  | EmptyString => Some acc
  | String c r =>
      match sxg_digit c with
      | Some d => sxg_value_from (acc * 60 + d) r
      | None => None
      end
  end.

Definition sxg_value (s : string) : option Z := sxg_value_from 0 s.

(** The tests of [extract_accessor_and_properties] on one line. *)
Definition is_package_line (line : string) : bool :=
  Str.startswith "package" (Str.strip line).
Definition is_bundle_line (line : string) : bool :=
  Str.contains Jinto.BUNDLE_DECLARATION line.
Definition is_class_line (line : string) : bool :=
  Str.contains Jinto.CLASS_DECLARATION line.

(** ** Further scenarios *)

(** A file with a line that ends in carriage return and line feed. *)
Definition crlf_file : string :=
  "a" +:+ String cr (String nl ("b" +:+ String nl "")).
Definition crlf_world : world := World {[ "f.java" := crlf_file ]} [].

(** A holder file whose static block is not closed, one without the import
    of the NLS class, and one that is written on a single line. *)
Definition holder_unclosed : string :=
  text [ "package foo;";
         "";
         "import org.eclipse.osgi.util.NLS;";
         "";
         "public class Bah extends NLS {";
         "  public static String FOO_a;";
         "  static {";
         "    NLS.initializeMessages(BUNDLE_NAME, Bah.class);";
         "" ].

Definition holder_without_import : string :=
  text [ "package foo;";
         "";
         "public class Bah extends org.eclipse.osgi.util.NLS {";
         "  public static String FOO_a;";
         "  static {";
         "    initializeMessages(BUNDLE_NAME, Bah.class);";
         "  }";
         "}";
         "" ].

Definition holder_on_one_line : string :=
  "import org.eclipse.osgi.util.NLS; public class Bah extends NLS { static { } }".

Definition holder_world (content : string) : world :=
  World {[ "/p/src/foo/Bah.java" := content ]} [].

(** The import line of the scenario with a static import of the variable. *)
Definition variable_import_line : string := "import static foo.Bah.FOO_a;".

(** A decidable statement about given values is settled by evaluation. *)
Ltac by_evaluation :=
  lazymatch goal with
  | |- ?P =>
      let d := constr:(_ : Decision P) in
      apply (@bool_decide_unpack P d); vm_compute; exact I
  end.

(** The holder class [Bah] of package [foo] declares the array field
    [FOO[]], with the brackets after the name. *)
Definition FOO_array_lines : gmap string (list string) :=
  {[ "src/foo/Bah.java" := [declaration "FOO[]"] ]}.

Definition FOO_array_rule : rule :=
  Rule "Bah.FOO[]" (TEMPLATE_MESSAGE_TOSTRING "Bah" "FOO[]") "Bah" "FOO[]" "foo".

(** A rule whose class name holds a set: as a pattern, [Ba[h]] matches the
    text [Bah]. *)
Definition set_rule : rule :=
  Rule "Ba[h].FOO" (TEMPLATE_MESSAGE_TOSTRING "Ba[h]" "FOO") "Ba[h]" "FOO" "foo".

Definition star_usage : string := "import static foo.Bah.*; x = FOO;".

(** The message of [line_to_variable] for a line without the element
    [String]. *)
Definition no_String_args : list string := ["invalid line: did not contain String"].

(** The search that reports the one holder file of [builder_world]. *)
Definition builder_holders (module_path : string) : list string :=
  ["/p/src/foo/Texts.java"].


(** A rule whose variable is named like the start of the accessor method. *)
Definition get_rule : rule :=
  Rule "Bah.get" (TEMPLATE_MESSAGE_TOSTRING "Bah" "get") "Bah" "get" "foo".



(** * Properties *)

(** A character is none of the characters of a list that is written out. *)
Ltac not_in_list :=
  let H := fresh in
  intros H;
  repeat (apply elem_of_cons in H as [H|H]; [discriminate H|]);
  by apply elem_of_nil in H.

(** ** Facts about the string operations *)

#[local] Arguments String.append !_ _ / : simpl nomatch.


Lemma append_assoc (a b c : string) : (a +:+ b) +:+ c = a +:+ b +:+ c.
Proof. induction a as [|x a IH]; simpl; [done | by rewrite IH]. Qed.

Lemma append_empty_r (a : string) : a +:+ "" = a.
Proof. induction a as [|x a IH]; simpl; [done | by rewrite IH]. Qed.

Lemma len_append (a b : string) : Str.len (a +:+ b) = Str.len a + Str.len b.
Proof. induction a as [|x a IH]; simpl; [done | unfold Str.len in *; simpl; lia]. Qed.

Lemma startswith_spec (p s : string) :
  Str.startswith p s = true ↔ ∃ b, s = p +:+ b.
Proof.
  revert s. induction p as [|x p IH]; intros s; simpl.
  - split; [intros _; by exists s | done].
  - destruct s as [|y s].
    + split; [done | intros [b Hb]; discriminate].
    + destruct (decide (x = y)) as [->|Hne].
      * rewrite IH. split; intros [b Hb]; exists b; [by rewrite Hb | by injection Hb].
      * split; [done | intros [b Hb]; injection Hb; congruence].
Qed.

Lemma contains_spec (sub s : string) :
  Str.contains sub s = true ↔ occurs sub s.
Proof.
  induction s as [|c s IH]; simpl.
  - rewrite orb_false_r, startswith_spec. split.
    + intros [b Hb]. by exists "", b.
    + intros (a & b & Hab). destruct a; [by exists b | discriminate].
  - rewrite orb_true_iff, IH, startswith_spec. split.
    + intros [[b Hb] | (a & b & Hab)].
      * by exists "", b.
      * exists (String c a), b. by rewrite Hab.
    + intros (a & b & Hab). destruct a as [|x a]; simpl in Hab.
      * left. by exists b.
      * right. exists a, b. by injection Hab.
Qed.

Lemma contains_false (sub s : string) :
  Str.contains sub s = false ↔ ¬ occurs sub s.
Proof. rewrite <- contains_spec. by destruct (Str.contains sub s). Qed.

(** Searching for a literal is the substring test. *)
Lemma search_go_Lit (l : string) (i : nat) (s : string) :
  Re.search_go (Lit l) 0 i s = None ↔ Str.contains l s = false.
Proof.
  revert i. induction s as [|c s IH]; intros i; simpl;
    unfold Re.match_at; simpl; destruct (Str.startswith l _); simpl;
    try rewrite IH; done.
Qed.

Lemma found_Lit (l content : string) :
  found (Lit l) content = Str.contains l content.
Proof.
  unfold found, Re.search.
  destruct (Re.search_go (Lit l) 0 0 content) eqn:E;
    destruct (Str.contains l content) eqn:C; try done.
  - apply (search_go_Lit l 0) in C. congruence.
  - apply (search_go_Lit l 0) in E. congruence.
Qed.

Lemma replace_go_absent (old new s : string) :
  Str.contains old s = false → Str.replace_go old new 0 s = s.
Proof.
  induction s as [|c s IH]; [done|]. cbn [Str.contains Str.replace_go].
  intros [H1 H2]%orb_false_iff. rewrite H1. by rewrite IH.
Qed.

Lemma replace_absent (s old new : string) :
  Str.contains old s = false → Str.replace s old new = s.
Proof.
  destruct old; [destruct s; discriminate|]. apply replace_go_absent.
Qed.

(** ** The rewrite engine leaves a text without detection signal alone *)


Lemma usage_step_silent (content : string) (replaced : gset string) (r : rule) :
  silent content r → Literal.usage_step (content, replaced) r = (content, replaced).
Proof.
  intros (Hv & Hs & Hf). apply contains_false in Hv, Hs, Hf.
  unfold Literal.usage_step. rewrite found_Lit, Hv, andb_false_r. cbv beta iota zeta.
  rewrite found_Lit, Hs. cbn [andb]. cbv beta iota zeta.
  by rewrite Hf, andb_false_r.
Qed.

Lemma star_step_silent (content : string) (replaced : gset string) (r : rule) :
  silent content r → Literal.star_step (content, replaced) r = (content, replaced).
Proof.
  intros (_ & Hs & _). apply contains_false in Hs.
  unfold Literal.star_step. by rewrite found_Lit, Hs.
Qed.

Lemma foldl_silent (step : string * gset string → rule → string * gset string)
    (content : string) (patterns : list rule) :
  (∀ replaced r, silent content r → step (content, replaced) r = (content, replaced)) →
  Forall (silent content) patterns →
  ∀ replaced, foldl step (content, replaced) patterns = (content, replaced).
Proof.
  intros Hstep. induction 1 as [|r ps Hr _ IH]; intros replaced; simpl; [done|].
  by rewrite Hstep, IH.
Qed.

Lemma replace_NLS_usage_silent (content : string) (patterns : list rule) :
  Forall (silent content) patterns → Literal.replace_NLS_usage content patterns = content.
Proof.
  intros H. unfold Literal.replace_NLS_usage.
  rewrite (foldl_silent Literal.usage_step), (foldl_silent Literal.star_step);
    auto using usage_step_silent, star_step_silent.
Qed.

Lemma find_None (sub s : string) :
  Str.find sub s = None ↔ Str.contains sub s = false.
Proof.
  induction s as [|c s IH]; simpl.
  - destruct (Str.startswith sub ""); simpl; split; done.
  - destruct (Str.startswith sub (String c s)); simpl; [split; done|].
    rewrite <- IH. destruct (Str.find sub s); simpl; split; done.
Qed.

(** ** The message-holder transformer without a static block *)

Lemma replace_static_constructor_absent (content : string) :
  ¬ occurs "static {" content →
  replace_static_constructor_with_resolver content
  = Raise (ValueError ["substring not found"]).
Proof.
  intros H%contains_false%find_None.
  unfold replace_static_constructor_with_resolver, index. by rewrite H.
Qed.

Lemma rewrite_without_static_block (w : world) (filepath : string)
    (variablelines : list string) (content : string) :
  files w !! filepath = Some content →
  ¬ occurs "static {" (kept_lines variablelines content) →
  rewrite_NLS_Messages_file filepath variablelines w
  = (Ok false,
     World (<[filepath := kept_lines variablelines content]> (files w))
           (records w ++ [no_static_block_record filepath])).
Proof.
  intros Hfile Hstatic.
  unfold rewrite_NLS_Messages_file, remove_lines_from_file.
  unfold mbind, M_bind, bind, mret, M_ret, ret, read_file, write_file.
  rewrite Hfile. cbn [files records]. rewrite lookup_insert_eq.
  fold (kept_lines variablelines content).
  by rewrite (replace_static_constructor_absent _ Hstatic).
Qed.

(** ** What a missing element does to the run *)

Lemma NLS_package_lines_cases (filepath : string) (ls : list string) :
  (∃ p, NLS_package_lines filepath ls = Ok p
        ∧ Exists (λ i, Str.startswith "package " i = true) ls)
  ∨ (NLS_package_lines filepath ls = Raise (ValueError (no_package_args filepath))
     ∧ Forall (λ i, Str.startswith "package " i ≠ true) ls).
Proof.
  induction ls as [|i ls IH]; cbn [NLS_package_lines].
  - right. split; [done | constructor].
  - destruct (Str.startswith "package " i) eqn:E.
    + left. eexists. split; [done | by left].
    + destruct IH as [(p & Hp & Hex) | (Hr & Hall)].
      * left. exists p. split; [done | by right].
      * right. split; [done | constructor; [congruence | done]].
Qed.

Lemma NLS_package_missing (w : world) (filepath content : string) :
  files w !! filepath = Some content →
  ¬ has_package_line content →
  NLS_package filepath w = (Raise (ValueError (no_package_args filepath)), w).
Proof.
  intros Hfile Hno. unfold NLS_package, mbind, M_bind, bind, read_file, lift.
  rewrite Hfile.
  destruct (NLS_package_lines_cases filepath (lines_no_nl content))
    as [(p & _ & Hex) | (-> & _)]; [by destruct Hno | done].
Qed.

Lemma NLS_package_present (w : world) (filepath content : string) :
  files w !! filepath = Some content →
  has_package_line content →
  ∃ p, NLS_package filepath w = (Ok p, w).
Proof.
  intros Hfile Hyes. unfold NLS_package, mbind, M_bind, bind, read_file, lift.
  rewrite Hfile.
  destruct (NLS_package_lines_cases filepath (lines_no_nl content))
    as [(p & -> & _) | (_ & Hall)]; [by exists p|].
  apply Exists_exists in Hyes as (i & Hi & Hp).
  rewrite Forall_forall in Hall. by destruct (Hall i Hi).
Qed.

Lemma element_after_String_missing (elements : list string) :
  "String" ∉ elements →
  element_after_String elements
  = Raise (ValueError ["invalid line: did not contain String"]).
Proof.
  induction elements as [|e es IH]; intros Hnot; cbn [element_after_String]; [done|].
  apply not_elem_of_cons in Hnot as [Hne Hes].
  destruct (decide (e = "String")) as [->|_]; [done | by apply IH].
Qed.

Lemma patterns_of_lines_bad_line (filesandpackages : gmap string string)
    (filepath line : string) (lines : list string) (patterns : list rule) :
  "String" ∉ Str.split_ws line →
  patterns_of_lines filesandpackages filepath (line :: lines) patterns
  = Raise (ValueError ["invalid line: did not contain String"]).
Proof.
  intros H. cbn [patterns_of_lines]. unfold line_to_variable.
  by rewrite (element_after_String_missing _ H).
Qed.

Lemma remove_lines_from_file_run (w : world) (filepath : string)
    (lines : list string) (content : string) :
  files w !! filepath = Some content →
  remove_lines_from_file filepath lines w
  = (Ok (bool_decide (Exists (λ i, i ∈ (list_to_set lines : gset string))
                             (lines_no_nl content))),
     World (<[filepath := kept_lines lines content]> (files w)) (records w)).
Proof.
  intros Hfile. unfold remove_lines_from_file.
  unfold mbind, M_bind, bind, mret, M_ret, ret, read_file, write_file.
  by rewrite Hfile.
Qed.

Section MainFacts.
Context (get_paths_to_all_NLS_classes find_java_files : string → list string)
        (cpu_count : nat).

Lemma fill_dict_variable_lines (w : world) (l : list string) :
  (∀ i, i ∈ l → is_Some (files w !! i)) →
  ∀ d, ∃ d', fill_dict NLS_variable_lines l d w = (Ok d', w).
Proof.
  induction l as [|i l IH]; intros Hall d; cbn [fill_dict].
  - by exists d.
  - destruct (Hall i) as [content Hc]; [by left|].
    unfold mbind, M_bind, bind at 1. unfold NLS_variable_lines at 1.
    unfold mbind, M_bind, bind at 1. unfold read_file. rewrite Hc.
    unfold mret, M_ret, ret. apply IH. intros j Hj. apply Hall. by right.
Qed.

Lemma fill_dict_package_raises (w : world) (l : list string) :
  (∀ i, i ∈ l → is_Some (files w !! i)) →
  (∃ i content, i ∈ l ∧ files w !! i = Some content ∧ ¬ has_package_line content) →
  ∀ d, ∃ i, i ∈ l
    ∧ fill_dict NLS_package l d w = (Raise (ValueError (no_package_args i)), w).
Proof.
  induction l as [|i l IH]; intros Hall (j & cj & Hj & Hcj & Hno) d.
  - by apply elem_of_nil in Hj.
  - cbn [fill_dict]. unfold mbind, M_bind, bind at 1.
    destruct (Hall i) as [content Hc]; [by left|].
    destruct (decide (has_package_line content)) as [Hyes | Hmiss].
    + destruct (NLS_package_present w i content Hc Hyes) as [p ->].
      destruct (IH (λ k Hk, Hall k (list_elem_of_further _ _ _ Hk))) with (d := <[i := p]> d)
        as (k & Hk & ->).
      * apply elem_of_cons in Hj as [->|Hj]; [congruence|]. by exists j, cj.
      * exists k. split; [by right | done].
    + rewrite (NLS_package_missing w i content Hc Hmiss).
      exists i. split; [by left | done].
Qed.

Lemma main_raises_without_package (module_paths : list string) (w : world) :
  let NLS_files := concat (get_paths_to_all_NLS_classes <$> module_paths) in
  (∀ i, i ∈ NLS_files → is_Some (files w !! i)) →
  (∃ i content, i ∈ NLS_files ∧ files w !! i = Some content
                ∧ ¬ has_package_line content) →
  ∃ i, i ∈ NLS_files
    ∧ main get_paths_to_all_NLS_classes find_java_files cpu_count module_paths w
      = (Raise (ValueError (no_package_args i)), w).
Proof.
  intros NLS_files Hall Hmiss. unfold main. fold NLS_files.
  destruct (fill_dict_variable_lines w NLS_files Hall ∅) as [fal Hfal].
  destruct (fill_dict_package_raises w NLS_files Hall Hmiss ∅) as (i & Hi & Hpk).
  exists i. split; [done|].
  unfold mbind, M_bind, bind at 1. rewrite Hfal.
  unfold bind at 1. by rewrite Hpk.
Qed.

Lemma rewrite_holders_skips (fal : gmap string (list string))
    (i : string) (rest lines : list string) (content : string) (w : world) :
  fal !! i = Some lines →
  files w !! i = Some content →
  ¬ occurs "static {" (kept_lines lines content) →
  rewrite_holders fal (i :: rest) w
  = match rewrite_holders fal rest
            (World (<[i := kept_lines lines content]> (files w))
                   (records w ++ [no_static_block_record i])) with
    | (Ok changed, w') => (Ok (false :: changed), w')
    | (Raise e, w') => (Raise e, w')
    end.
Proof.
  intros Hfal Hfile Hstatic. unfold rewrite_holders. cbn [mapM].
  unfold mbind, M_bind, bind at 1. unfold rewrite_holder at 1. rewrite Hfal.
  rewrite (rewrite_without_static_block w i lines content Hfile Hstatic).
  unfold bind. cbn [mret M_ret ret].
  by destruct (mapM (M := M) (rewrite_holder fal) rest _) as [[changed|e] w'].
Qed.
End MainFacts.

(** ** Facts about the scenarios *)

Lemma holder_without_package : ¬ has_package_line (holder_file false "Bah").
Proof.
  intros H. apply Exists_exists in H as (i & Hi & Hp).
  revert Hi Hp. vm_compute. intros Hi.
  repeat (apply elem_of_cons in Hi as [->|Hi]; [done|]).
  by apply elem_of_nil in Hi.
Qed.

Lemma project_holders_exist (b : bool) (i : string) :
  i ∈ concat (project_holders <$> ["/p"]) → is_Some (files (project b) !! i).
Proof.
  cbn. intros Hi.
  repeat (apply elem_of_cons in Hi as [->|Hi];
          [destruct b; eexists; vm_compute; reflexivity|]).
  by apply elem_of_nil in Hi.
Qed.

(** ** Orders and the sort *)

Global Instance nat_compare_order : CompareOrder Nat.compare.
Proof.
  split.
  - apply Nat.compare_eq_iff.
  - intros a b. apply Nat.compare_antisym.
  - intros a b c. rewrite !Nat.compare_lt_iff. lia.
Qed.

Lemma string_compare_refl (s : string) : String.compare s s = Eq.
Proof.
  induction s as [|c s IH]; simpl; [done|].
  unfold Ascii.compare. by rewrite N.compare_refl.
Qed.

Global Instance string_compare_order : CompareOrder Str.compare.
Proof.
  unfold Str.compare. split.
  - intros a b. split; [apply String.compare_eq_iff | intros ->; apply string_compare_refl].
  - apply String.compare_antisym.
  - intros a b c Hab Hbc.
    assert (Hle : String.le a c).
    { trans b; unfold String.le, String.leb; [by rewrite Hab | by rewrite Hbc]. }
    unfold String.le, String.leb in Hle.
    destruct (String.compare a c) eqn:Hac; [|done|done].
    apply String.compare_eq_iff in Hac as ->.
    rewrite String.compare_antisym, Hab in Hbc. discriminate.
Qed.

Global Instance lex_compare_order {A B : Type} (cmpA : A → A → comparison)
    (cmpB : B → B → comparison) `{!CompareOrder cmpA, !CompareOrder cmpB} :
  CompareOrder (lex_compare cmpA cmpB).
Proof.
  split.
  - intros [a1 b1] [a2 b2]. unfold lex_compare. cbn [fst snd].
    destruct (cmpA a1 a2) eqn:Ha.
    + apply cmp_eq in Ha as ->. rewrite cmp_eq. split; [by intros -> | by intros [= ->]].
    + split; [done | intros [= -> ->]]. rewrite (proj2 (cmp_eq a2 a2) eq_refl) in Ha. done.
    + split; [done | intros [= -> ->]]. rewrite (proj2 (cmp_eq a2 a2) eq_refl) in Ha. done.
  - intros [a1 b1] [a2 b2]. unfold lex_compare. cbn [fst snd].
    rewrite (cmp_antisym a1 a2). destruct (cmpA a2 a1); cbn [CompOpp]; [|done|done].
    apply cmp_antisym.
  - intros [a1 b1] [a2 b2] [a3 b3]. unfold lex_compare. cbn [fst snd].
    destruct (cmpA a1 a2) eqn:H12; [|  |done].
    + apply cmp_eq in H12 as ->. destruct (cmpA a2 a3); [|done|done].
      apply cmp_lt_trans.
    + intros _. destruct (cmpA a2 a3) eqn:H23; [| |done].
      * apply cmp_eq in H23 as ->. by rewrite H12.
      * by rewrite (cmp_lt_trans _ _ _ H12 H23).
Qed.

Section CompareFacts.
Context {A : Type} (cmp : A → A → comparison) `{!CompareOrder cmp}.

Lemma cmp_le_total (a b : A) : cmp_le cmp a b = true ∨ cmp_le cmp b a = true.
Proof.
  unfold cmp_le. rewrite (cmp_antisym b a). destruct (cmp a b); cbn; auto.
Qed.

Lemma cmp_le_trans (a b c : A) :
  cmp_le cmp a b = true → cmp_le cmp b c = true → cmp_le cmp a c = true.
Proof.
  unfold cmp_le. destruct (cmp a b) eqn:Hab; [| |done].
  - apply cmp_eq in Hab as ->. done.
  - destruct (cmp b c) eqn:Hbc; [| |done]; intros _ _.
    + apply cmp_eq in Hbc as ->. by rewrite Hab.
    + by rewrite (cmp_lt_trans _ _ _ Hab Hbc).
Qed.
End CompareFacts.

Section SortedFacts.
Context {A K : Type} (key : A → K) (cmp : K → K → comparison) `{!CompareOrder cmp}.

Lemma insert_sorted_perm (x : A) (l : list A) :
  insert_sorted key (cmp_le cmp) x l ≡ₚ x :: l.
Proof.
  induction l as [|y l IH]; cbn [insert_sorted]; [done|].
  destruct (cmp_le cmp (key x) (key y)); [done|].
  rewrite IH. apply Permutation_swap.
Qed.

Lemma sorted_perm (l : list A) : sorted key (cmp_le cmp) l ≡ₚ l.
Proof.
  induction l as [|x l IH]; cbn [sorted]; [done|].
  by rewrite insert_sorted_perm, IH.
Qed.

Lemma insert_sorted_ascending (x : A) (l : list A) :
  StronglySorted (ascending key cmp) l →
  StronglySorted (ascending key cmp) (insert_sorted key (cmp_le cmp) x l).
Proof.
  induction 1 as [|y l Hl IH Hy]; cbn [insert_sorted].
  - repeat constructor.
  - destruct (cmp_le cmp (key x) (key y)) eqn:Hxy.
    + constructor; [by constructor|]. constructor; [done|].
      eapply Forall_impl; [exact Hy|]. intros z Hz.
      unfold ascending in *. by eapply cmp_le_trans.
    + constructor; [done|].
      rewrite insert_sorted_perm. constructor; [|done].
      unfold ascending. destruct (cmp_le_total cmp (key x) (key y)); congruence.
Qed.

Lemma sorted_ascending (l : list A) :
  StronglySorted (ascending key cmp) (sorted key (cmp_le cmp) l).
Proof.
  induction l as [|x l IH]; cbn [sorted]; [constructor|].
  by apply insert_sorted_ascending.
Qed.

Lemma reverse_descending (l : list A) :
  StronglySorted (ascending key cmp) l → StronglySorted (flip (ascending key cmp)) (reverse l).
Proof.
  induction 1 as [|x l Hl IH Hx]; [constructor|].
  rewrite reverse_cons. apply StronglySorted_app_2; [|done | repeat constructor].
  intros a b Ha ->%list_elem_of_singleton.
  rewrite Forall_forall in Hx. apply Hx. by apply elem_of_reverse.
Qed.
End SortedFacts.

(** The order of the rules, in the words of the claim. *)
Lemma may_precede_spec (a b : rule) :
  may_precede a b ↔ key_le (sort_key b) (sort_key a) = true.
Proof.
  unfold may_precede, key_le, cmp_le, key_compare, lex_compare, sort_key.
  cbn [fst snd].
  destruct (Nat.compare_spec (Str.len (variablename b)) (Str.len (variablename a)))
    as [Hl|Hl|Hl].
  - destruct (Str.compare (variablename b) (variablename a)) eqn:Hv.
    + apply cmp_eq in Hv.
      destruct (Nat.compare_spec (Str.len (classname b)) (Str.len (classname a)))
        as [Hc|Hc|Hc].
      * destruct (Str.compare (FROM b) (FROM a)) eqn:Hf; split; try done.
        -- intros _. right. split; [done|]. right. split; [done|]. right. done.
        -- intros _. right. split; [done|]. right. split; [done|]. right. done.
        -- intros [?|[_ [?|[_ [?|[_ ?]]]]]]; try lia; done.
      * split; [done|]. intros _. right. split; [done|]. right. split; [done|]. by left.
      * split; [|done]. intros [?|[_ [?|[_ [?|[? _]]]]]]; try lia; done.
    + split; [done|]. intros _. right. split; [done|]. by left.
    + split; [|done]. intros [?|[_ [?|[Heq _]]]]; [lia|done|].
      apply (cmp_eq (cmp := Str.compare)) in Heq. congruence.
  - split; [done|]. intros _. by left.
  - split; [|done]. intros [?|[? _]]; lia.
Qed.

Lemma strongly_sorted_before {A : Type} (R : relation A) (l : list A) (a b : A) :
  StronglySorted R l → a ∈ l → b ∈ l → a ≠ b → ¬ R b a →
  ∃ l1 l2 l3, l = l1 ++ a :: l2 ++ b :: l3.
Proof.
  intros Hsorted Ha Hb Hne Hnot.
  apply list_elem_of_split in Ha as (l1 & l2 & ->).
  apply elem_of_app in Hb as [Hb|Hb].
  - destruct Hnot. eapply StronglySorted_app_1_elem_of; [done.. | by left].
  - apply elem_of_cons in Hb as [->|Hb]; [done|].
    apply list_elem_of_split in Hb as (l2' & l3 & ->). by exists l1, l2', l3.
Qed.

Lemma build_replacement_patterns_Ok (fal : gmap string (list string))
    (fap : gmap string string) (rules : list rule) :
  build_replacement_patterns fal fap = Ok rules →
  ∃ patterns, collect_patterns fal fap = Ok patterns
    ∧ rules = reverse (sorted sort_key key_le patterns).
Proof.
  unfold build_replacement_patterns.
  destruct (collect_patterns fal fap) as [patterns|e]; cbn [rbind]; [|done].
  intros [= <-]. by exists patterns.
Qed.

Lemma strongly_sorted_impl {A : Type} (R1 R2 : relation A) (l : list A) :
  (∀ a b, R1 a b → R2 a b) → StronglySorted R1 l → StronglySorted R2 l.
Proof.
  intros Himpl. induction 1 as [|x l Hl IH Hx]; constructor; [done|].
  eapply Forall_impl; [exact Hx | apply Himpl].
Qed.

Lemma patterns_of_lines_well_formed (fap : gmap string string) (filepath : string)
    (lines : list string) (patterns ps : list rule) :
  Forall well_formed patterns →
  patterns_of_lines fap filepath lines patterns = Ok ps →
  Forall well_formed ps.
Proof.
  revert patterns. induction lines as [|line lines IH]; intros patterns Hwf;
    cbn [patterns_of_lines]; [by intros [= <-]|].
  destruct (line_to_variable line) as [variable|e]; cbn [rbind]; [|done].
  destruct (fap !! filepath) as [package|]; [|done].
  apply IH. apply Forall_app. split; [done|]. by repeat constructor.
Qed.

Lemma patterns_of_items_well_formed (fap : gmap string string)
    (items : list (string * list string)) (patterns ps : list rule) :
  Forall well_formed patterns →
  patterns_of_items fap items patterns = Ok ps →
  Forall well_formed ps.
Proof.
  revert patterns. induction items as [|[filepath lines] items IH]; intros patterns Hwf;
    cbn [patterns_of_items]; [by intros [= <-]|].
  destruct (patterns_of_lines fap filepath lines patterns) as [ps'|e] eqn:E;
    cbn [rbind]; [|done].
  apply IH. by eapply patterns_of_lines_well_formed.
Qed.

(** For the rules of [build_replacement_patterns] the static import of the
    variable reads [import static <package>.<class>.<variable>]. *)
Lemma built_rules_well_formed (fal : gmap string (list string))
    (fap : gmap string string) (rules : list rule) :
  build_replacement_patterns fal fap = Ok rules →
  Forall (λ r, well_formed r
               ∧ staticimportvariable r
                 = "import static " +:+ package r +:+ "." +:+ classname r
                   +:+ "." +:+ variablename r) rules.
Proof.
  intros (patterns & Hcollect & ->)%build_replacement_patterns_Ok.
  assert (Hwf : Forall well_formed patterns).
  { by eapply (patterns_of_items_well_formed fap _ []). }
  apply Forall_forall. intros r Hr.
  rewrite elem_of_reverse, (sorted_perm sort_key key_compare) in Hr.
  rewrite Forall_forall in Hwf. destruct (Hwf r Hr) as [HF HT].
  split; [done|]. unfold staticimportvariable. by rewrite HF.
Qed.

Lemma rules_descending (patterns : list rule) :
  StronglySorted may_precede (reverse (sorted sort_key key_le patterns)).
Proof.
  eapply strongly_sorted_impl;
    [|apply (reverse_descending sort_key key_compare), sorted_ascending; apply _].
  intros a b H. by apply may_precede_spec.
Qed.

(** ** The pattern of the declaration lines *)

Lemma drop_append (a b : string) : Str.drop (Str.len a) (a +:+ b) = b.
Proof. induction a as [|x a IH]; simpl; [by destruct b | done]. Qed.

Lemma take_append (a b : string) : Str.take (Str.len a) (a +:+ b) = a.
Proof. induction a as [|x a IH]; simpl; [by destruct b | by rewrite IH]. Qed.

Lemma startswith_append (a b : string) : Str.startswith a (a +:+ b) = true.
Proof. apply startswith_spec. by exists b. Qed.

Lemma accept_Lit (l : string) (pos : nat) (s : string) (k : nat → string → option nat) :
  is_Some (Re.accept (Lit l) pos s k)
  ↔ ∃ t, s = l +:+ t ∧ is_Some (k (pos + Str.len l) t).
Proof.
  cbn [Re.accept]. destruct (Str.startswith l s) eqn:E.
  - apply startswith_spec in E as [t ->]. rewrite drop_append. split.
    + intros H. by exists t.
    + intros (t' & Ht & H). by apply (inj _) in Ht as <-.
  - split; [by intros [? ?]|]. intros (t & -> & _).
    by rewrite startswith_append in E.
Qed.

Lemma any_star_Some (pos : nat) (s : string) (k : nat → string → option nat) :
  is_Some (Re.any_star pos s k)
  ↔ ∃ b t, s = b +:+ t ∧ no_line_feed b ∧ is_Some (k (pos + Str.len b) t).
Proof.
  revert pos. induction s as [|c s IH]; intros pos; cbn [Re.any_star].
  - split.
    + intros H. exists "", "". by rewrite Nat.add_0_r.
    + intros (b & t & Hs & _ & H). destruct b; [|done]. destruct t; [|done].
      by rewrite Nat.add_0_r in H.
  - destruct (decide (c = nl)) as [->|Hc].
    + split.
      * intros H. exists "", (String nl s). by rewrite Nat.add_0_r.
      * intros (b & t & Hs & Hb & H). destruct b as [|x b]; simpl in Hs.
        -- subst t. by rewrite Nat.add_0_r in H.
        -- injection Hs as <- _. by destruct Hb.
    + destruct (Re.any_star (S pos) s k) eqn:E.
      * split; [intros _ | by eauto].
        destruct (proj1 (IH (S pos))) as (b & t & -> & Hb & H); [by rewrite E|].
        exists (String c b), t. split_and!; [done | done |].
        by replace (pos + Str.len (String c b)) with (S pos + Str.len b)
          by (unfold Str.len; simpl; lia).
      * split.
        -- intros H. exists "", (String c s). by rewrite Nat.add_0_r.
        -- intros (b & t & Hs & Hb & H). destruct b as [|x b]; simpl in Hs.
           ++ subst t. by rewrite Nat.add_0_r in H.
           ++ injection Hs as <- ->. destruct Hb as [_ Hb].
              assert (is_Some (Re.any_star (S pos) (b +:+ t) k)) as [? ?]; [|congruence].
              apply IH. exists b, t. split_and!; [done..|].
              by replace (S pos + Str.len b) with (pos + Str.len (String c b))
                by (unfold Str.len; simpl; lia).
Qed.

Lemma search_go_Some (r : regex) (i : nat) (s : string) :
  is_Some (Re.search_go r 0 i s)
  ↔ ∃ a t, s = a +:+ t ∧ is_Some (Re.match_at r (i + Str.len a) t).
Proof.
  revert i. induction s as [|c s IH]; intros i; cbn [Re.search_go];
    replace (0 <=? i) with true by done.
  - destruct (Re.match_at r i "") eqn:E.
    + split; [intros _ | by eauto]. exists "", "". by rewrite Nat.add_0_r, E.
    + split; [by intros [? ?]|]. intros (a & t & Hs & H).
      destruct a; [|done]. destruct t; [|done].
      rewrite Nat.add_0_r, E in H. by destruct H.
  - destruct (Re.match_at r i (String c s)) eqn:E.
    + split; [intros _ | by eauto]. exists "", (String c s). by rewrite Nat.add_0_r, E.
    + rewrite IH. split.
      * intros (a & t & -> & H). exists (String c a), t. split; [done|].
        by replace (i + Str.len (String c a)) with (S i + Str.len a)
          by (unfold Str.len; simpl; lia).
      * intros (a & t & Hs & H). destruct a as [|x a]; simpl in Hs.
        -- subst t. rewrite Nat.add_0_r, E in H. by destruct H.
        -- injection Hs as <- ->. exists a, t. split; [done|].
           by replace (S i + Str.len a) with (i + Str.len (String c a))
             by (unfold Str.len; simpl; lia).
Qed.

Lemma found_Some (r : regex) (s : string) :
  found r s = true ↔ is_Some (Re.search r s 0).
Proof.
  unfold found. destruct (Re.search r s 0); split; try done; try by eauto.
Qed.

(** What the pattern [public.*static.*String] finds. *)
Lemma found_public_static_String (i : string) :
  found public_static_String i = true
  ↔ ∃ a b c d,
      i = a +:+ "public" +:+ b +:+ "static" +:+ c +:+ "String" +:+ d
      ∧ no_line_feed b ∧ no_line_feed c.
Proof.
  rewrite found_Some. unfold Re.search. rewrite search_go_Some.
  unfold Re.match_at, public_static_String. cbn [Re.accept].
  split.
  - intros (a & t & -> & H).
    change (is_Some (Re.accept (Lit "public") (0 + Str.len a) t (λ p s',
      Re.any_star p s' (λ p s', Re.accept (Lit "static") p s' (λ p s',
        Re.any_star p s' (λ p s', Re.accept (Lit "String") p s' (λ p _, Some p))))))) in H.
    apply accept_Lit in H as (t1 & -> & H).
    apply any_star_Some in H as (b & t2 & -> & Hb & H).
    apply accept_Lit in H as (t3 & -> & H).
    apply any_star_Some in H as (c & t4 & -> & Hc & H).
    apply accept_Lit in H as (d & -> & _).
    by exists a, b, c, d.
  - intros (a & b & c & d & -> & Hb & Hc).
    exists a, ("public" +:+ b +:+ "static" +:+ c +:+ "String" +:+ d). split; [done|].
    change (is_Some (Re.accept (Lit "public") (0 + Str.len a)
      ("public" +:+ b +:+ "static" +:+ c +:+ "String" +:+ d) (λ p s',
      Re.any_star p s' (λ p s', Re.accept (Lit "static") p s' (λ p s',
        Re.any_star p s' (λ p s', Re.accept (Lit "String") p s' (λ p _, Some p))))))).
    apply accept_Lit. eexists. split; [done|].
    apply any_star_Some. exists b. eexists. split_and!; [done | done |].
    apply accept_Lit. eexists. split; [done|].
    apply any_star_Some. exists c. eexists. split_and!; [done | done |].
    apply accept_Lit. eexists. split; [done|]. done.
Qed.

Lemma no_line_feed_app (x y : string) :
  no_line_feed (x +:+ y) ↔ no_line_feed x ∧ no_line_feed y.
Proof. induction x as [|c x IH]; simpl; [tauto | rewrite IH; tauto]. Qed.

Lemma line_shape_cons (c : ascii) (i : string) :
  c ≠ nl → line_shape i → line_shape (String c i).
Proof.
  intros Hc (body & Hbody & Hi). exists (String c body). split; [done|].
  destruct Hi as [-> | ->]; [by left | by right].
Qed.

Lemma lines_no_nl_shape_bounded (n : nat) (s i : string) :
  Str.len s ≤ n → i ∈ lines_no_nl s → line_shape i.
Proof.
  revert s i. induction n as [|n IH]; intros s i Hlen Hi.
  - destruct s; [by apply elem_of_nil in Hi | unfold Str.len in Hlen; simpl in Hlen; lia].
  - destruct s as [|c r]; [by apply elem_of_nil in Hi|].
    assert (Hr : Str.len r ≤ n) by (unfold Str.len in *; simpl in Hlen; lia).
    cbn [lines_no_nl] in Hi. destruct (decide (c = nl)) as [->|Hn].
    { apply elem_of_cons in Hi as [->|Hi]; [|by eapply IH].
      exists "". split; [done | by right]. }
    destruct (decide (c = cr)) as [->|Hc].
    { destruct r as [|d r'].
      - apply list_elem_of_singleton in Hi as ->. exists (String cr ""). split; [done | by left].
      - destruct (decide (d = nl)) as [->|Hd].
        + apply elem_of_cons in Hi as [->|Hi].
          * exists (String cr ""). split; [done | by right].
          * eapply (IH r'); [|done]. unfold Str.len in *. simpl in Hr. lia.
        + apply elem_of_cons in Hi as [->|Hi]; [|by eapply IH].
          exists (String cr ""). split; [done | by left]. }
    destruct (lines_no_nl r) as [|l ls] eqn:E.
    + apply list_elem_of_singleton in Hi as ->. exists (String c ""). split; [done | by left].
    + apply elem_of_cons in Hi as [->|Hi].
      * apply line_shape_cons; [done|]. apply (IH r); [done|]. rewrite E. by left.
      * apply (IH r); [done|]. rewrite E. by right.
Qed.

Lemma lines_no_nl_shape (s i : string) : i ∈ lines_no_nl s → line_shape i.
Proof. by apply (lines_no_nl_shape_bounded (Str.len s)). Qed.

Lemma line_shape_prefix (i x y : string) :
  line_shape i → i = x +:+ y → y ≠ "" → no_line_feed x.
Proof.
  intros (body & Hbody & Hi) ->. revert body Hbody Hi.
  induction x as [|c x IH]; intros body Hbody Hi Hy; [done|].
  destruct body as [|c' body].
  - destruct Hi as [Hi|Hi]; [done|]. simpl in Hi. injection Hi as -> Hxy.
    destruct x; [by destruct y | done].
  - destruct Hbody as [Hc' Hbody]. simpl in Hi.
    assert (c = c' ∧ (x +:+ y = body ∨ x +:+ y = body +:+ String nl "")) as [-> Hi'].
    { destruct Hi as [Hi|Hi]; injection Hi as -> Hi; auto. }
    split; [done|]. by eapply IH.
Qed.

Lemma is_variable_line_spec (i : string) :
  line_shape i →
  is_variable_line i = true ↔ public_static_String_in_order i ∧ ¬ occurs "(" i.
Proof.
  intros Hshape. unfold is_variable_line.
  rewrite andb_true_iff, negb_true_iff, contains_false, found_public_static_String.
  split; intros [Horder Hparen]; (split; [|done]).
  - destruct Horder as (a & b & c & d & -> & _). by exists a, b, c, d.
  - destruct Horder as (a & b & c & d & ->). exists a, b, c, d. split_and!; [done | |].
    + assert (H : no_line_feed ((a +:+ "public") +:+ b)).
      { apply (line_shape_prefix _ _ ("static" +:+ c +:+ "String" +:+ d) Hshape);
          [by rewrite !append_assoc | done]. }
      by apply no_line_feed_app in H as [_ H].
    + assert (H : no_line_feed ((a +:+ "public" +:+ b +:+ "static") +:+ c)).
      { apply (line_shape_prefix _ _ ("String" +:+ d) Hshape);
          [by rewrite !append_assoc | done]. }
      by apply no_line_feed_app in H as [_ H].
Qed.

(** ** The doctests of the sources *)

Example doctest_line_to_variable :
  line_to_variable
    ("   public static String CheckSelectorResultMessageFactory_SqlExceptionMessage;"
     +:+ String nl (String cr ""))
  = Ok "CheckSelectorResultMessageFactory_SqlExceptionMessage"
  ∧ line_to_variable
      ("  public static String ResultTableEditor_CHANGES_SUCCESFUL_STORED;" +:+ String nl "")
    = Ok "ResultTableEditor_CHANGES_SUCCESFUL_STORED".
Proof. split; by vm_compute. Qed.

Example doctest_build_replacement_patterns :
  build_replacement_patterns
    {[ "foo/Bah.Java" := ["   public static String FOO_thing;" +:+ String nl ""] ]}
    {[ "foo/Bah.Java" := "foo" ]}
  = Ok [Rule "Bah.FOO_thing" (TEMPLATE_MESSAGE_TOSTRING "Bah" "FOO_thing")
             "Bah" "FOO_thing" "foo"]
  ∧ build_replacement_patterns
      {[ "foo/Bah.Java" := ["   public static String FOO_aing;" +:+ String nl ""];
         "foo/Baz.Java" := ["   public static String FOO_ging;" +:+ String nl "";
                            "   public static String FOO_ling;" +:+ String nl ""] ]}
      {[ "foo/Bah.Java" := "foo"; "foo/Baz.Java" := "foo" ]}
    = Ok [Rule "Baz.FOO_ling" (TEMPLATE_MESSAGE_TOSTRING "Baz" "FOO_ling")
               "Baz" "FOO_ling" "foo";
          Rule "Baz.FOO_ging" (TEMPLATE_MESSAGE_TOSTRING "Baz" "FOO_ging")
               "Baz" "FOO_ging" "foo";
          Rule "Bah.FOO_aing" (TEMPLATE_MESSAGE_TOSTRING "Bah" "FOO_aing")
               "Bah" "FOO_aing" "foo"]
  ∧ build_replacement_patterns
      {[ "foo/0Bah.Java" := ["   public static String FOO_aing;" +:+ String nl ""];
         "foo/Bah.Java" := ["   public static String FOO_aing;" +:+ String nl ""] ]}
      {[ "foo/0Bah.Java" := "foo"; "foo/Bah.Java" := "foo" ]}
    = Ok [Rule "0Bah.FOO_aing" (TEMPLATE_MESSAGE_TOSTRING "0Bah" "FOO_aing")
               "0Bah" "FOO_aing" "foo";
          Rule "Bah.FOO_aing" (TEMPLATE_MESSAGE_TOSTRING "Bah" "FOO_aing")
               "Bah" "FOO_aing" "foo"].
Proof. split_and!; by vm_compute. Qed.

Example doctest_regex_replace_variable_safely :
  regex_replace_variable_safely
    "messages.typeLabel = ObjectypeSelectionMessages_AttributeObjecttypeLabel;"
    "ObjectypeSelectionMessages_AttributeObjecttypeLabel"
    (TEMPLATE_MESSAGE_TOSTRING "Messages"
       "ObjectypeSelectionMessages_AttributeObjecttypeLabel")
  = Ok ("messages.typeLabel = "
        +:+ TEMPLATE_MESSAGE_TOSTRING "Messages"
              "ObjectypeSelectionMessages_AttributeObjecttypeLabel"
        +:+ ";").
Proof. by vm_compute. Qed.

Example doctest_replace_NLS_usage :
  replace_NLS_usage
    (text [ "package net.disy.gis.lais.dialog;";
            "";
            "import static net.disy.gis.lais.dialog.LaisMessages.*;";
            "";
            "      if (massnahmeWithError == null) {";
            "        massnahmeWithError = getErrorMassnahme(massnahmeWithUnusedArea);";
            "      }";
            "      errorMessage.append(LaisErrorAggregator_AreaInMassnamenUnused);";
            "    }" ])
    [Rule "LaisMessages.LaisErrorAggregator_AreaInMassnamenUnused"
          (TEMPLATE_MESSAGE_TOSTRING "LaisMessages"
             "LaisErrorAggregator_AreaInMassnamenUnused")
          "LaisMessages" "LaisErrorAggregator_AreaInMassnamenUnused"
          "net.disy.gis.lais.dialog"]
  = Ok (text [ "package net.disy.gis.lais.dialog;";
               "";
               "import net.disy.gis.lais.dialog.LaisMessages;";
               "";
               "      if (massnahmeWithError == null) {";
               "        massnahmeWithError = getErrorMassnahme(massnahmeWithUnusedArea);";
               "      }";
               "      errorMessage.append("
                 +:+ TEMPLATE_MESSAGE_TOSTRING "LaisMessages"
                       "LaisErrorAggregator_AreaInMassnamenUnused"
                 +:+ ");";
               "    }" ]).
Proof. by vm_compute. Qed.

Example doctest_add_import_to_string :
  add_import_to_string
    (text [ "// copyright"; "package some.package;"; ""; "import some.other;"; "";
            "import some.other;" ])
    "import some.other"
  = Ok (text [ "// copyright"; "package some.package;"; "";
               "import net.disy.commons.core.locale.IMessageResolver;";
               "import net.disy.commons.core.locale.ResourceBundleMessageResolver;";
               "import java.util.MissingResourceException;";
               "";
               "import some.other;"; ""; "import some.other;" ]).
Proof. by vm_compute. Qed.

Example doctest_replace_static_constructor_with_resolver :
  replace_static_constructor_with_resolver
    (text [ ""; "static {"; " moooooo"; ""; "     moo}"; "" ])
  = Ok (text [ "";
               "private static final IMessageResolver MSG = new ResourceBundleMessageResolver(BUNDLE_NAME);";
               "" ]).
Proof. by vm_compute. Qed.

Example doctest_add_to_end_of_last_class :
  add_to_end_of_last_class (text [ "moo {"; "  {"; ""; "  }"; "}" ]) "  abc"
  = Ok (text [ "moo {"; "  {"; ""; "  }  abc"; "}" ]).
Proof. by vm_compute. Qed.

Example doctest_cleanup_empty_lines :
  cleanup_empty_lines
    (text [ "abc"; ""; ""; ""; "bc"; ""; "c"; ""; ""; ""; "d"; ""; "" ])
  = text [ "abc"; ""; ""; "bc"; ""; "c"; ""; ""; "d"; "" ]
  ∧ cleanup_empty_lines
      (text [ "-  static {"; "    // initialize resource bundle";
              "    NLS.initializeMessages(BUNDLE_NAME, Messages.class);"; "  }"; "}" ])
    = text [ "-  static {"; "    // initialize resource bundle";
             "    NLS.initializeMessages(BUNDLE_NAME, Messages.class);"; "  }"; "}" ]
  ∧ cleanup_empty_lines
      (text [ "-  static {"; "    // initialize resource bundle";
              "    NLS.initializeMessages(BUNDLE_NAME, Messages.class);"; "  }"; "}"; "" ])
    = text [ "-  static {"; "    // initialize resource bundle";
             "    NLS.initializeMessages(BUNDLE_NAME, Messages.class);"; "  }"; "}"; "" ].
Proof. split_and!; by vm_compute. Qed.

Example doctest_remove_lines_from_file :
  remove_lines_from_file "testfile"
    ["a" +:+ String nl ""; "c" +:+ String nl ""]
    (World {[ "testfile" := text ["a"; "b"; "c"; ""] ]} [])
  = (Ok true, World {[ "testfile" := text ["b"; ""] ]} []).
Proof. by vm_compute. Qed.

Example doctest_generate_settings_data :
  Jinto.generate_settings_data [("Ac", "Ap"); ("Bc", "Bp")]
  = Jinto.TEMPLATE (Jinto.TEMPLATE_RESOURCE_BUNDLE_REFERENCE_TAG "Ac" "Ap" +:+ "\n"
                    +:+ Jinto.TEMPLATE_RESOURCE_BUNDLE_REFERENCE_TAG "Bc" "Bp").
Proof. by vm_compute. Qed.

(** ** The collapse of blank lines *)

Lemma cleanup_loop_cons (n idx : nat) (pp p : option string) (l : string)
    (ls : list string) :
  cleanup_loop n idx pp p (l :: ls)
  = (if negb (blank_before pp && blank_before p && bool_decide (blank l))
        && (negb (idx =? n - 1) || negb (blank_before p && bool_decide (blank l)))
     then [l] else [])
    ++ cleanup_loop n (S idx) p (Some l) ls.
Proof.
  cbn [cleanup_loop all_empty forallb]. unfold blank_before, blank.
  by rewrite !andb_true_r, !andb_assoc.
Qed.

Lemma cleanup_loop_nonblank (n idx : nat) (pp p : option string) (l : string)
    (ls : list string) :
  ¬ blank l →
  cleanup_loop n idx pp p (l :: ls) = l :: cleanup_loop n (S idx) p (Some l) ls.
Proof.
  intros H. rewrite cleanup_loop_cons, (bool_decide_eq_false_2 _ H).
  by rewrite !andb_false_r, orb_true_r.
Qed.



(** Before the last line, the number of lines plays no part. *)
Lemma cleanup_loop_inner (n n' idx : nat) (pp p : option string) (ls : list string) :
  idx + length ls ≤ n - 1 → idx + length ls ≤ n' - 1 →
  cleanup_loop n idx pp p ls = cleanup_loop n' idx pp p ls.
Proof.
  revert idx pp p. induction ls as [|l ls IH]; intros idx pp p H1 H2; [done|].
  cbn [length] in H1, H2. rewrite !cleanup_loop_cons.
  rewrite (IH (S idx)) by lia. f_equal.
  replace (idx =? n - 1) with false by (symmetry; apply Nat.eqb_neq; lia).
  replace (idx =? n' - 1) with false by (symmetry; apply Nat.eqb_neq; lia).
  done.
Qed.

Lemma cleanup_loop_app (n idx : nat) (pp p : option string) (l1 l2 : list string) :
  cleanup_loop n idx pp p (l1 ++ l2)
  = cleanup_loop n idx pp p l1
    ++ cleanup_loop n (idx + length l1) (advance (pp, p) l1).1 (advance (pp, p) l1).2 l2.
Proof.
  revert idx pp p. induction l1 as [|l l1 IH]; intros idx pp p.
  - cbn. by rewrite Nat.add_0_r.
  - cbn [app length]. rewrite !cleanup_loop_cons, IH, <- app_assoc.
    by replace (S idx + length l1) with (idx + S (length l1)) by lia.
Qed.

Lemma advance_snoc (st : option string * option string) (ls : list string) (a : string) :
  (advance st (ls ++ [a])).2 = Some a.
Proof. unfold advance. by rewrite foldl_app. Qed.

(** Blank lines after two blank lines are dropped. *)
Lemma cleanup_loop_drops (n idx : nat) (pp p : option string) (ls : list string) :
  blank_before pp = true → blank_before p = true → Forall blank ls →
  cleanup_loop n idx pp p ls = [].
Proof.
  intros Hpp Hp Hls. revert idx pp p Hpp Hp.
  induction Hls as [|l ls Hl _ IH]; intros idx pp p Hpp Hp; [done|].
  rewrite cleanup_loop_cons, Hpp, Hp, (bool_decide_eq_true_2 _ Hl). cbn.
  apply IH; [done|]. cbn. by apply bool_decide_eq_true_2.
Qed.

(** Of a run of blank lines after a line that is not blank, the first two are
    kept: when lines follow the run, when the run ends the text and has three
    lines or more, and when it is a single line. *)
Lemma cleanup_loop_run (n idx : nat) (pp p : option string) (blanks : list string) :
  blank_before p = false → Forall blank blanks →
  idx + length blanks ≤ n - 1
  ∨ (3 ≤ length blanks ∧ idx + length blanks ≤ n)
  ∨ length blanks ≤ 1 →
  cleanup_loop n idx pp p blanks = take 2 blanks.
Proof.
  intros Hp Hblanks Hn.
  destruct Hblanks as [|e1 blanks He1 Hblanks]; [done|].
  rewrite cleanup_loop_cons, Hp, (bool_decide_eq_true_2 _ He1).
  rewrite !andb_true_r, !andb_false_r, orb_true_r. cbn [negb andb app]. f_equal.
  destruct Hblanks as [|e2 blanks He2 Hblanks]; [done|].
  cbn [length] in Hn.
  rewrite cleanup_loop_cons, Hp, (bool_decide_eq_true_2 _ He2).
  replace (S idx =? n - 1) with false by (symmetry; apply Nat.eqb_neq; lia).
  cbn [negb andb orb app take]. rewrite take_0. do 2 f_equal.
  apply cleanup_loop_drops; [by apply bool_decide_eq_true_2.. | done].
Qed.

(** A text that ends with a line that is not blank is cleaned in the same
    way when more lines follow it. *)
Lemma cleanup_loop_before (n : nat) (pre : list string) :
  (∀ a, last pre = Some a → ¬ blank a) →
  length pre ≤ n →
  cleanup_loop n 0 None None pre = cleanup_lines pre.
Proof.
  intros Hlast Hn. unfold cleanup_lines.
  destruct (decide (pre = [])) as [->|Hne]; [done|].
  destruct (exists_last Hne) as (xs & a & ->).
  rewrite length_app in *. cbn [length] in *.
  rewrite !cleanup_loop_app. f_equal.
  - apply cleanup_loop_inner; lia.
  - rewrite !cleanup_loop_nonblank; [done | apply Hlast, last_snoc..].
Qed.

Lemma blank_before_advance (pre : list string) :
  (∀ a, last pre = Some a → ¬ blank a) →
  blank_before (advance (None, None) pre).2 = false.
Proof.
  intros Hlast. destruct (decide (pre = [])) as [->|Hne]; [done|].
  destruct (exists_last Hne) as (xs & a & ->).
  rewrite advance_snoc. cbn. apply bool_decide_eq_false_2, Hlast, last_snoc.
Qed.




(** A run of blank lines at the end of the text. *)
Lemma cleanup_lines_run_end (pre blanks : list string) :
  (∀ a, last pre = Some a → ¬ blank a) → Forall blank blanks →
  3 ≤ length blanks ∨ length blanks ≤ 1 →
  cleanup_lines (pre ++ blanks) = cleanup_lines pre ++ take 2 blanks.
Proof.
  intros Hpre Hblanks Hlen. unfold cleanup_lines at 1.
  rewrite !length_app, cleanup_loop_app. f_equal.
  - apply cleanup_loop_before; [done | lia].
  - apply cleanup_loop_run; [by apply blank_before_advance | done | lia].
Qed.

(** Two blank lines at the end of the text: the last one is dropped. *)
Lemma cleanup_lines_two_at_end (pre : list string) (e1 e2 : string) :
  (∀ a, last pre = Some a → ¬ blank a) → blank e1 → blank e2 →
  cleanup_lines (pre ++ [e1; e2]) = cleanup_lines pre ++ [e1].
Proof.
  intros Hpre He1 He2. unfold cleanup_lines at 1.
  rewrite !length_app, cleanup_loop_app. cbn [length]. f_equal.
  - apply cleanup_loop_before; [done | lia].
  - rewrite !cleanup_loop_cons, (blank_before_advance pre Hpre).
    cbn [blank_before].
    rewrite (bool_decide_eq_true_2 _ He1), (bool_decide_eq_true_2 _ He2).
    destruct (Nat.eqb_spec (0 + length pre) (length pre + 2 - 1)); [lia|].
    destruct (Nat.eqb_spec (S (0 + length pre)) (length pre + 2 - 1)); [|lia].
    by rewrite !andb_false_r.
Qed.

Lemma blank_runs_ok_mono (c c' : nat) (ls : list string) :
  c ≤ c' → blank_runs_ok c' ls → blank_runs_ok c ls.
Proof.
  revert c c'. induction ls as [|l ls IH]; intros c c' Hc; [done|].
  cbn [blank_runs_ok]. destruct (bool_decide (blank l)); [|done].
  intros [H1 H2]. split; [lia|]. apply (IH (S c) (S c')); [lia | done].
Qed.

(** No run of three blank lines is left. *)
Lemma cleanup_loop_runs_ok (n idx : nat) (pp p : option string) (ls : list string) :
  blank_runs_ok (blanks_before pp p) (cleanup_loop n idx pp p ls).
Proof.
  revert idx pp p. induction ls as [|l ls IH]; intros idx pp p; [done|].
  rewrite cleanup_loop_cons. specialize (IH (S idx) p (Some l)).
  unfold blanks_before in *. cbn [blank_before] in IH.
  destruct (bool_decide (blank l)) eqn:Hl;
    destruct (blank_before p) eqn:Hp;
    destruct (blank_before pp) eqn:Hpp;
    cbn [andb negb orb app];
    rewrite ?orb_true_r, ?orb_false_r; cbn [app blank_runs_ok];
    try destruct (negb (idx =? n - 1)); cbn [app blank_runs_ok];
    rewrite ?Hl; try done; try (split; [lia | done]).
  by apply (blank_runs_ok_mono 1 2); [lia|].
Qed.

Lemma blank_runs_ok_app (c : nat) (l1 l2 : list string) :
  blank_runs_ok c (l1 ++ l2) → ∃ c', blank_runs_ok c' l2.
Proof.
  revert c. induction l1 as [|l l1 IH]; intros c; [by exists c|].
  cbn [app blank_runs_ok]. destruct (bool_decide (blank l)).
  - intros [_ H]. by eapply IH.
  - by apply IH.
Qed.

Lemma blank_runs_ok_no_three (ls : list string) :
  blank_runs_ok 0 ls → no_three_blank ls.
Proof.
  intros Hok l1 a b c l2 -> (Ha & Hb & Hc).
  apply blank_runs_ok_app in Hok as [c' Hok]. cbn [blank_runs_ok] in Hok.
  rewrite !bool_decide_eq_true_2 in Hok by done. lia.
Qed.


Lemma cleanup_loop_sublist (n idx : nat) (pp p : option string) (ls : list string) :
  sublist (cleanup_loop n idx pp p ls) ls.
Proof.
  revert idx pp p. induction ls as [|l ls IH]; intros idx pp p; [done|].
  rewrite cleanup_loop_cons. destruct (_ && _); cbn [app].
  - by apply sublist_skip.
  - by apply sublist_cons.
Qed.

(** The first line is always kept. *)
Lemma cleanup_lines_first (l : string) (ls : list string) :
  ∃ out, cleanup_lines (l :: ls) = l :: out.
Proof.
  unfold cleanup_lines. rewrite cleanup_loop_cons. cbn [blank_before andb negb].
  rewrite orb_true_r. by eexists.
Qed.

(** Splitting at line feeds and joining with line feeds. *)
Lemma split_no_line_feed (s : string) : Forall no_line_feed (Str.split nl s).
Proof.
  induction s as [|c s IH]; cbn [Str.split]; [by repeat constructor|].
  destruct (decide (c = nl)) as [->|Hc]; [by constructor|].
  destruct (Str.split nl s) as [|l ls]; [by repeat constructor|].
  apply Forall_cons in IH as [Hl Hls]. by constructor.
Qed.

Lemma split_not_nil (s : string) : Str.split nl s ≠ [].
Proof.
  destruct s as [|c s]; cbn [Str.split]; [done|].
  destruct (decide (c = nl)); [done|]. by destruct (Str.split nl s).
Qed.

Lemma split_append (l s : string) :
  no_line_feed l →
  Str.split nl (l +:+ String nl s) = l :: Str.split nl s.
Proof.
  induction l as [|c l IH]; intros Hl.
  - cbn. by rewrite decide_True.
  - destruct Hl as [Hc Hl]. cbn [String.append Str.split].
    rewrite decide_False by done. by rewrite IH.
Qed.

Lemma split_line (l : string) : no_line_feed l → Str.split nl l = [l].
Proof.
  induction l as [|c l IH]; intros Hl; [done|].
  destruct Hl as [Hc Hl]. cbn [Str.split]. rewrite decide_False by done.
  by rewrite IH.
Qed.

Lemma split_join (ls : list string) :
  ls ≠ [] → Forall no_line_feed ls →
  Str.split nl (Str.join (String nl "") ls) = ls.
Proof.
  intros Hne Hls. induction Hls as [|l ls Hl Hls IH]; [done|].
  destruct ls as [|l' ls].
  - by apply split_line.
  - change (Str.join (String nl "") (l :: l' :: ls))
      with (l +:+ String nl (Str.join (String nl "") (l' :: ls))).
    rewrite split_append by done. by rewrite IH.
Qed.

Lemma split_cleanup_empty_lines (content : string) :
  Str.split nl (cleanup_empty_lines content) = cleanup_lines (Str.split nl content).
Proof.
  unfold cleanup_empty_lines. apply split_join.
  - destruct (Str.split nl content) as [|l ls] eqn:E; [by apply split_not_nil in E|].
    by destruct (cleanup_lines_first l ls) as [out ->].
  - apply Forall_forall. intros l Hl.
    eapply (proj1 (Forall_forall _ _) (split_no_line_feed content)).
    eapply sublist_subseteq; [apply cleanup_loop_sublist | exact Hl].
Qed.

(** A text that ends with a line that is not blank keeps it as its last
    line. *)
Lemma cleanup_lines_last_nonblank (xs : list string) (a : string) :
  ¬ blank a → ∃ out, cleanup_lines (xs ++ [a]) = out ++ [a].
Proof.
  intros Ha. unfold cleanup_lines. rewrite cleanup_loop_app.
  rewrite cleanup_loop_nonblank by done. by eexists.
Qed.

(** ** The safe variable substitution *)

Lemma len_cons (c : ascii) (s : string) : Str.len (String c s) = S (Str.len s).
Proof. done. Qed.

Lemma len_take (n : nat) (s : string) : Str.len (Str.take n s) = n `min` Str.len s.
Proof.
  revert n. induction s as [|c s IH]; intros [|n]; cbn [Str.take]; try done.
  rewrite !len_cons, IH. lia.
Qed.

Lemma len_drop (n : nat) (s : string) : Str.len (Str.drop n s) = Str.len s - n.
Proof.
  revert n. induction s as [|c s IH]; intros [|n]; cbn [Str.drop]; try done.
Qed.

Lemma take_app_ge (n : nat) (x y : string) :
  Str.len x ≤ n → Str.take n (x +:+ y) = x +:+ Str.take (n - Str.len x) y.
Proof.
  revert n. induction x as [|c x IH]; intros n Hn.
  - cbn [String.append]. by rewrite Nat.sub_0_r.
  - rewrite len_cons in Hn. destruct n as [|n]; [lia|].
    cbn [String.append Str.take]. rewrite IH by lia. by rewrite len_cons.
Qed.

(** What a successful search returns. *)
Lemma search_go_inv (r : regex) (pos i : nat) (s : string) (m : re_match) :
  Re.search_go r pos i s = Some m →
  ∃ a t, s = a +:+ t ∧ m_start m = i + Str.len a ∧ pos ≤ m_start m
         ∧ Re.match_at r (m_start m) t = Some (m_end m).
Proof.
  revert i. induction s as [|c s IH]; intros i; cbn [Re.search_go].
  - destruct (Nat.leb_spec pos i) as [Hpos|Hpos]; [|done].
    destruct (Re.match_at r i "") as [e|] eqn:E; [|done]. intros [= <-].
    exists "", "". cbn [m_start m_end]. unfold Str.len. cbn.
    rewrite Nat.add_0_r. by split_and!.
  - destruct (if pos <=? i then Re.match_at r i (String c s) else None) as [e|] eqn:E.
    + intros [= <-]. destruct (Nat.leb_spec pos i) as [Hpos|Hpos]; [|done].
      exists "", (String c s). cbn [m_start m_end]. unfold Str.len. cbn.
      rewrite Nat.add_0_r. by split_and!.
    + intros (a & t & -> & Hstart & Hpos & Hm)%IH.
      exists (String c a), t. rewrite len_cons. split_and!; [done | lia | done | done].
Qed.

Lemma search_inv (r : regex) (content : string) (pos : nat) (m : re_match) :
  Re.search r content pos = Some m →
  ∃ a t, content = a +:+ t ∧ m_start m = Str.len a ∧ pos ≤ m_start m
         ∧ Re.match_at r (m_start m) t = Some (m_end m).
Proof. intros (a & t & H)%search_go_inv. by exists a, t. Qed.

(** A set of single characters. *)
Lemma in_set_chars (c : ascii) (cs : list ascii) :
  Re.in_set c (SetChar <$> cs) = bool_decide (c ∈ cs).
Proof.
  unfold Re.in_set. induction cs as [|d cs IH].
  - symmetry. apply bool_decide_eq_false_2. apply not_elem_of_nil.
  - rewrite fmap_cons. cbn [existsb Re.in_item]. rewrite IH.
    destruct (decide (c = d)) as [->|Hd].
    + rewrite bool_decide_eq_true_2 by done. symmetry.
      apply bool_decide_eq_true_2. by left.
    + rewrite (bool_decide_eq_false_2 (c = d)) by done. cbn [orb].
      apply bool_decide_ext. rewrite elem_of_cons.
      split; [by right | by intros [?|?]].
Qed.

Lemma none_of (c : ascii) (cs : list ascii) :
  xorb true (Re.in_set c (SetChar <$> cs)) = negb (bool_decide (c ∈ cs)).
Proof. rewrite in_set_chars. by destruct (bool_decide (c ∈ cs)). Qed.

Lemma match_at_variablewithoutdot (V : string) (p : nat) (t : string) (e : nat) :
  Re.match_at (Literal.variablewithoutdot V) p t = Some e →
  ∃ c d b, t = String c (V +:+ String d b) ∧ e = p + Str.len V + 2
           ∧ c ≠ "."%char ∧ c ≠ dq ∧ d ≠ dq.
Proof.
  unfold Re.match_at, Literal.variablewithoutdot. cbn [Re.accept].
  destruct t as [|c t]; [done|].
  rewrite (none_of c ["."%char; dq]
             : xorb true (Re.in_set c [SetChar "."%char; SetChar dq]) = _).
  destruct (bool_decide (c ∈ ["."%char; dq])) eqn:Hc; [done|]. cbn [negb].
  apply bool_decide_eq_false in Hc.
  destruct (Str.startswith V t) eqn:HV; [|done].
  apply startswith_spec in HV as [t' ->]. rewrite drop_append.
  destruct t' as [|d b]; [done|].
  rewrite (none_of d [dq] : xorb true (Re.in_set d [SetChar dq]) = _).
  destruct (bool_decide (d ∈ [dq])) eqn:Hd; [done|]. cbn [negb].
  apply bool_decide_eq_false in Hd. intros [= <-].
  exists c, d, b. split_and!; [done | lia | ..].
  - intros ->. apply Hc. by left.
  - intros ->. apply Hc. right. by left.
  - intros ->. apply Hd. by left.
Qed.

Lemma match_at_variableatstart (V : string) (p : nat) (t : string) (e : nat) :
  Re.match_at (Literal.variableatstart V) p t = Some e →
  p = 0 ∧ ∃ c b, t = String c (V +:+ b) ∧ e = Str.len V + 1 ∧ c ≠ dq.
Proof.
  unfold Re.match_at, Literal.variableatstart. cbn [Re.accept].
  destruct (Nat.eqb_spec p 0) as [->|]; [|done].
  destruct t as [|c t]; [done|].
  rewrite (none_of c [dq] : xorb true (Re.in_set c [SetChar dq]) = _).
  destruct (bool_decide (c ∈ [dq])) eqn:Hc; [done|]. cbn [negb].
  apply bool_decide_eq_false in Hc.
  destruct (Str.startswith V t) eqn:HV; [|done].
  apply startswith_spec in HV as [b ->]. intros [= <-].
  split; [done|]. exists c, b. split_and!; [done | lia |].
  intros ->. apply Hc. by left.
Qed.

(** A pattern that begins with [^] is not found from a later index on. *)
Lemma search_go_Bol_later (r : regex) (pos i : nat) (s : string) :
  1 ≤ pos → Re.search_go (Seq Bol r) pos i s = None.
Proof.
  intros Hpos. revert i. induction s as [|c s IH]; intros i; cbn [Re.search_go].
  - destruct (Nat.leb_spec pos i); [|done].
    unfold Re.match_at. cbn [Re.accept]. by destruct (Nat.eqb_spec i 0); [lia|].
  - destruct (Nat.leb_spec pos i); [|by apply IH].
    unfold Re.match_at. cbn [Re.accept]. destruct (Nat.eqb_spec i 0); [lia|].
    by apply IH.
Qed.

(** *** Both loops end before their fuel does *)

Lemma while_withoutdot_fuel (V T : string) (fuel fuel' : nat) (content : string)
    (pos : nat) :
  Str.len content - pos < fuel → Str.len content - pos < fuel' →
  Literal.while_withoutdot fuel V T content (Re.search (Literal.variablewithoutdot V) content pos)
  = Literal.while_withoutdot fuel' V T content (Re.search (Literal.variablewithoutdot V) content pos).
Proof.
  revert fuel' content pos.
  induction fuel as [|fuel IH]; intros fuel' content pos Hfuel Hfuel'; [lia|].
  destruct fuel' as [|fuel']; [lia|]. cbn [Literal.while_withoutdot].
  destruct (Re.search (Literal.variablewithoutdot V) content pos) as [mt|] eqn:Hm; [|done].
  destruct (m_start mt <? Str.len content); [|done].
  apply search_inv in Hm as (a & t & -> & Hstart & Hpos & Hmatch).
  apply match_at_variablewithoutdot in Hmatch as (c & d & b & -> & Hend & _).
  rewrite Hstart, Hend in *. apply IH.
  all: rewrite !len_append, len_take, len_drop, !len_append, !len_cons,
         !len_append, !len_cons in *; lia.
Qed.

Lemma while_atstart_fuel (V T : string) (fuel fuel' : nat) (content : string) :
  Str.len content < fuel → Str.len content < fuel' →
  Literal.while_atstart fuel V T content (Re.search (Literal.variableatstart V) content 0)
  = Literal.while_atstart fuel' V T content (Re.search (Literal.variableatstart V) content 0).
Proof.
  intros Hfuel Hfuel'.
  destruct fuel as [|fuel]; [lia|]. destruct fuel' as [|fuel']; [lia|].
  cbn [Literal.while_atstart].
  destruct (Re.search (Literal.variableatstart V) content 0) as [mt|] eqn:Hm; [|done].
  destruct (m_start mt <? Str.len content); [|done].
  apply search_inv in Hm as (a & t & -> & Hstart & _ & Hmatch).
  apply match_at_variableatstart in Hmatch as (_ & c & b & -> & Hend & _).
  rewrite !len_append, !len_cons, !len_append in *.
  destruct fuel as [|fuel]; [lia|]. destruct fuel' as [|fuel']; [lia|].
  cbn [Literal.while_atstart]. unfold Re.search, Literal.variableatstart.
  by rewrite search_go_Bol_later by lia.
Qed.

(** *** An occurrence at the start of the content is never replaced *)

Lemma space_overlap (X r V t : string) :
  X +:+ String " " r = V +:+ t → Str.len X < Str.len V → has_char " " V = true.
Proof.
  revert V. induction X as [|x X IH]; intros [|v V]; rewrite ?len_cons;
    cbn [String.append has_char]; intros Heq Hlen; try (unfold Str.len in Hlen; cbn in Hlen; lia).
  - injection Heq as <- _. by rewrite bool_decide_eq_true_2.
  - injection Heq as _ Heq. rewrite (IH V Heq) by lia. by rewrite orb_true_r.
Qed.

Lemma prefix_split (x y a z : string) :
  x +:+ y = a +:+ z → Str.len a ≤ Str.len x → ∃ w, x = a +:+ w ∧ z = w +:+ y.
Proof.
  revert x. induction a as [|c a IH]; intros x Heq Hlen.
  - exists x. by cbn [String.append] in *.
  - destruct x as [|c' x]; [rewrite len_cons in Hlen; unfold Str.len in Hlen; cbn in Hlen; lia|].
    cbn [String.append] in Heq. injection Heq as -> Heq.
    rewrite !len_cons in Hlen.
    destruct (IH x Heq) as (w & -> & ->); [lia|]. by exists w.
Qed.

Lemma no_early_match (V rest a t : string) (c : ascii) :
  has_char " " V = false →
  V +:+ String " " rest = a +:+ String c (V +:+ t) →
  Str.len V ≤ Str.len a.
Proof.
  intros Hspace Heq.
  destruct (Nat.le_gt_cases (Str.len V) (Str.len a)) as [|Hlt]; [done|].
  destruct (prefix_split V (String " " rest) a (String c (V +:+ t)) Heq)
    as (w & HV & Hw); [lia|].
  destruct w as [|x w].
  { rewrite HV, append_empty_r in Hlt. lia. }
  cbn [String.append] in Hw. injection Hw as _ Hw.
  assert (Str.len w < Str.len V).
  { rewrite HV, len_append, len_cons. lia. }
  rewrite (space_overlap w rest V t) in Hspace; [done | by rewrite Hw | done].
Qed.

Lemma while_withoutdot_leading (V T : string) (fuel : nat) (content : string)
    (pos : nat) :
  has_char " " V = false → leading V content →
  leading V (Literal.while_withoutdot fuel V T content
               (Re.search (Literal.variablewithoutdot V) content pos)).
Proof.
  intros Hspace. revert content pos.
  induction fuel as [|fuel IH]; intros content pos Hlead; [done|].
  cbn [Literal.while_withoutdot].
  destruct (Re.search (Literal.variablewithoutdot V) content pos) as [mt|] eqn:Hm; [|done].
  destruct (m_start mt <? Str.len content); [|done].
  apply IH. destruct Hlead as [rest Hrest].
  apply search_inv in Hm as (a & t & Hcontent & Hstart & _ & Hmatch).
  apply match_at_variablewithoutdot in Hmatch as (c & d & b & -> & _).
  assert (Hlen : Str.len V ≤ Str.len a).
  { apply (no_early_match V rest a (String d b) c Hspace). congruence. }
  rewrite Hstart.
  replace (Str.take (Str.len a + 1) content)
    with ((V +:+ String " " "") +:+ Str.take (Str.len a + 1 - (Str.len V + 1)) rest).
  { rewrite !append_assoc. cbn [String.append]. by eexists. }
  rewrite Hrest. change (V +:+ String " " rest) with (V +:+ (String " " "" +:+ rest)).
  rewrite <- append_assoc, take_app_ge; rewrite len_append, len_cons;
    unfold Str.len at 2; cbn [String.length]; [done | lia].
Qed.

Lemma while_atstart_leading (V T : string) (fuel : nat) (content : string) :
  V ≠ "" → has_char " " V = false → leading V content →
  Literal.while_atstart fuel V T content (Re.search (Literal.variableatstart V) content 0) = content.
Proof.
  intros Hne Hspace [rest Hrest]. destruct fuel as [|fuel]; [done|].
  cbn [Literal.while_atstart].
  destruct (Re.search (Literal.variableatstart V) content 0) as [mt|] eqn:Hm; [|done].
  apply search_inv in Hm as (a & t & Hcontent & Hstart & _ & Hmatch).
  apply match_at_variableatstart in Hmatch as (Hzero & c & b & -> & _).
  rewrite Hzero in Hstart. destruct a; [|done].
  assert (Hlen : Str.len V ≤ Str.len "").
  { apply (no_early_match V rest "" b c Hspace). congruence. }
  destruct V; [done | rewrite len_cons in Hlen; unfold Str.len in Hlen; cbn in Hlen; lia].
Qed.

Lemma regex_replace_variable_safely_leading (V T : string) (content : string) :
  V ≠ "" → has_char " " V = false → leading V content →
  leading V (Literal.regex_replace_variable_safely content V T).
Proof.
  intros Hne Hspace Hlead. unfold Literal.regex_replace_variable_safely.
  rewrite while_atstart_leading; [|done|done|];
    by apply while_withoutdot_leading.
Qed.

(** The fuel that [Literal.regex_replace_variable_safely] hands to its loops is
    enough: more fuel gives the same result. *)
Lemma regex_replace_variable_safely_fuel (content V T : string) (fuel1 fuel2 : nat) :
  Str.len content < fuel1 →
  Str.len (Literal.while_withoutdot fuel1 V T content
             (Re.search (Literal.variablewithoutdot V) content 0)) < fuel2 →
  Literal.regex_replace_variable_safely content V T
  = let content1 :=
      Literal.while_withoutdot fuel1 V T content
        (Re.search (Literal.variablewithoutdot V) content 0) in
    Literal.while_atstart fuel2 V T content1 (Re.search (Literal.variableatstart V) content1 0).
Proof.
  intros H1 H2. unfold Literal.regex_replace_variable_safely. cbv zeta.
  rewrite (while_withoutdot_fuel V T (S (Str.len content)) fuel1 content 0) by lia.
  by apply while_atstart_fuel; [lia|].
Qed.

(** ** The first loop is one pass from left to right *)

Lemma match_at_withoutdot_here (V : string) (i : nat) (s : string) :
  Re.match_at (Literal.variablewithoutdot V) i s
  = if withoutdot_here V s then Some (i + Str.len V + 2) else None.
Proof.
  unfold Re.match_at, Literal.variablewithoutdot, withoutdot_here. cbn [Re.accept].
  destruct s as [|c r]; [done|].
  rewrite (none_of c ["."%char; dq]
             : xorb true (Re.in_set c [SetChar "."%char; SetChar dq]) = _).
  destruct (bool_decide (c ∈ ["."%char; dq])); cbn [negb andb]; [done|].
  destruct (Str.startswith V r); cbn [andb]; [|done].
  destruct (Str.drop (Str.len V) r) as [|d b]; [done|].
  rewrite (none_of d [dq] : xorb true (Re.in_set d [SetChar dq]) = _).
  destruct (bool_decide (d ∈ [dq])); cbn [negb]; [done|]. f_equal. lia.
Qed.

(** The search does not look at the text before [pos]. *)
Lemma search_go_skip (r : regex) (i : nat) (D t : string) :
  Re.search_go r (i + Str.len D) i (D +:+ t)
  = Re.search_go r (i + Str.len D) (i + Str.len D) t.
Proof.
  revert i. induction D as [|c D IH]; intros i.
  - cbn [String.append]. unfold Str.len. cbn. by rewrite Nat.add_0_r.
  - cbn [String.append Re.search_go]. rewrite len_cons.
    destruct (Nat.leb_spec (i + S (Str.len D)) i); [lia|].
    replace (i + S (Str.len D)) with (S i + Str.len D) by lia. apply IH.
Qed.

Lemma search_go_pos (r : regex) (pos pos' i : nat) (s : string) :
  pos ≤ i → pos' ≤ i → Re.search_go r pos i s = Re.search_go r pos' i s.
Proof.
  revert i. induction s as [|c s IH]; intros i H H'; cbn [Re.search_go];
    destruct (Nat.leb_spec pos i), (Nat.leb_spec pos' i); try lia; [done|].
  destruct (Re.match_at r i (String c s)); [done|]. apply IH; lia.
Qed.

Lemma pass_go_skip (V T : string) (n : nat) (s : string) :
  pass_go V T n s = pass_go V T 0 (Str.drop n s).
Proof.
  revert n. induction s as [|c s IH]; intros [|n]; try done.
  cbn [pass_go Str.drop]. apply IH.
Qed.

Lemma take_snoc (D : string) (c : ascii) (r : string) :
  Str.take (Str.len D + 1) (D +:+ String c r) = D +:+ String c "".
Proof.
  induction D as [|x D IH]; [done|]. rewrite len_cons. cbn [String.append Nat.add Str.take].
  by rewrite IH.
Qed.

Lemma drop_app_ge (n : nat) (x y : string) :
  Str.len x ≤ n → Str.drop n (x +:+ y) = Str.drop (n - Str.len x) y.
Proof.
  revert n. induction x as [|c x IH]; intros n Hn.
  - cbn [String.append]. by rewrite Nat.sub_0_r.
  - rewrite len_cons in Hn. destruct n as [|n]; [lia|].
    cbn [String.append Str.drop]. rewrite IH by lia. by rewrite len_cons.
Qed.

Lemma withoutdot_here_len (V : string) (c : ascii) (r : string) :
  withoutdot_here V (String c r) = true → Str.len V < Str.len r.
Proof.
  unfold withoutdot_here.
  intros [[_ HV]%andb_true_iff Hd]%andb_true_iff.
  apply startswith_spec in HV as [b ->]. rewrite drop_append in Hd.
  destruct b; [done|]. rewrite len_append, len_cons. lia.
Qed.

Lemma while_withoutdot_pass (V T : string) (fuel : nat) (D todo : string) :
  Str.len todo < fuel →
  Literal.while_withoutdot fuel V T (D +:+ todo)
    (Re.search_go (Literal.variablewithoutdot V) (Str.len D) (Str.len D) todo)
  = D +:+ pass_go V T 0 todo.
Proof.
  revert D todo. induction fuel as [|fuel IHfuel]; intros D todo Hfuel; [lia|].
  revert D Hfuel. induction todo as [|c r IHtodo]; intros D Hfuel.
  - cbn [Re.search_go]. rewrite match_at_withoutdot_here. cbn [withoutdot_here].
    by destruct (Str.len D <=? Str.len D).
  - cbn [Re.search_go pass_go]. rewrite Nat.leb_refl, match_at_withoutdot_here.
    destruct (withoutdot_here V (String c r)) eqn:Hhere.
    + cbn [Literal.while_withoutdot m_start m_end].
      assert (Hlen := withoutdot_here_len V c r Hhere).
      rewrite len_cons in Hfuel.
      destruct (Nat.ltb_spec (Str.len D) (Str.len (D +:+ String c r))) as [_|Hge];
        [|rewrite len_append, len_cons in Hge; lia].
      rewrite take_snoc.
      replace (Str.len D + Str.len V + 2 - 1) with (Str.len D + S (Str.len V)) by lia.
      rewrite drop_app_ge by lia.
      replace (Str.len D + S (Str.len V) - Str.len D) with (S (Str.len V)) by lia.
      cbn [Str.drop].
      replace (Str.len D + Str.len V + 2 + Str.len T - Str.len V - 1)
        with (Str.len ((D +:+ String c "") +:+ T))
        by (rewrite !len_append, len_cons; change (Str.len "") with 0; lia).
      rewrite <- (append_assoc (D +:+ String c "") T).
      unfold Re.search.
      rewrite (search_go_skip _ 0 ((D +:+ String c "") +:+ T)). cbn [Nat.add].
      rewrite IHfuel by (rewrite len_drop; lia).
      rewrite !append_assoc. cbn [String.append]. by rewrite <- pass_go_skip.
    + rewrite (search_go_pos _ _ (S (Str.len D)) (S (Str.len D))) by lia.
      specialize (IHtodo (D +:+ String c "")).
      rewrite len_append, len_cons in IHtodo. change (Str.len "") with 0 in IHtodo.
      rewrite Nat.add_1_r in IHtodo.
      rewrite !append_assoc in IHtodo. cbn [String.append] in IHtodo.
      apply IHtodo. rewrite len_cons in Hfuel. lia.
Qed.

Lemma while_withoutdot_is_pass (V T content : string) :
  Literal.while_withoutdot (S (Str.len content)) V T content
    (Re.search (Literal.variablewithoutdot V) content 0)
  = pass_go V T 0 content.
Proof. apply (while_withoutdot_pass V T (S (Str.len content)) "" content). lia. Qed.

(** ** The second loop runs at most once *)

Lemma search_go_Bol_index (r : regex) (pos i : nat) (s : string) :
  1 ≤ i → Re.search_go (Seq Bol r) pos i s = None.
Proof.
  revert i. induction s as [|c s IH]; intros i Hi; cbn [Re.search_go];
    unfold Re.match_at; cbn [Re.accept];
    destruct (Nat.eqb_spec i 0); try lia; destruct (pos <=? i); try done;
    apply IH; lia.
Qed.

Lemma search_variableatstart (V content : string) :
  Re.search (Literal.variableatstart V) content 0
  = if atstart_here V content then Some (MatchObj 0 (Str.len V + 1)) else None.
Proof.
  unfold Re.search, Literal.variableatstart, atstart_here.
  destruct content as [|c r]; cbn [Re.search_go]; unfold Re.match_at; cbn [Re.accept];
    [done|].
  rewrite (none_of c [dq] : xorb true (Re.in_set c [SetChar dq]) = _).
  destruct (bool_decide (c ∈ [dq])); cbn [negb andb];
    [by apply search_go_Bol_index|].
  destruct (Str.startswith V r); [|by apply search_go_Bol_index].
  do 2 f_equal. lia.
Qed.

Lemma while_atstart_once (V T content : string) :
  Literal.while_atstart (S (Str.len content)) V T content
    (Re.search (Literal.variableatstart V) content 0)
  = if atstart_here V content then T +:+ Str.drop (Str.len V + 1) content else content.
Proof.
  rewrite search_variableatstart.
  destruct (atstart_here V content) eqn:Hhere; [|done].
  destruct content as [|c r]; [done|].
  cbn [Literal.while_atstart m_start m_end]. rewrite len_cons. cbn [Nat.ltb Nat.leb Str.take].
  cbn [String.append]. unfold Re.search, Literal.variableatstart.
  rewrite search_go_Bol_later by lia.
  destruct (Str.len r); done.
Qed.

(** [Literal.regex_replace_variable_safely] in one piece. *)
Lemma regex_replace_variable_safely_eq (content V T : string) :
  Literal.regex_replace_variable_safely content V T
  = let content1 := pass_go V T 0 content in
    if atstart_here V content1
    then T +:+ Str.drop (Str.len V + 1) content1 else content1.
Proof.
  unfold Literal.regex_replace_variable_safely. cbv zeta.
  rewrite while_withoutdot_is_pass. apply while_atstart_once.
Qed.

(** ** Pieces of text that a substitution cannot touch *)

Lemma startswith_app_cases (x k r : string) :
  Str.startswith x (k +:+ r) = true → related x k = true.
Proof.
  unfold related. revert k. induction x as [|a x IH]; intros k; [done|].
  destruct k as [|b k]; [by intros _|].
  cbn [String.append Str.startswith]. destruct (decide (a = b)) as [->|]; [|done].
  intros H%IH. by rewrite decide_True.
Qed.

Lemma not_related_startswith (x k r : string) :
  related x k = false → Str.startswith x (k +:+ r) = false.
Proof.
  intros H. destruct (Str.startswith x (k +:+ r)) eqn:E; [|done].
  apply startswith_app_cases in E. congruence.
Qed.

(** An occurrence that begins in [A] and cannot reach into [K] ends in [A]. *)
Lemma startswith_within (old A K R : string) :
  forallb (λ u, negb (related u K)) (tails old) = true →
  Str.startswith old (A +:+ K +:+ R) = true →
  Str.len old ≤ Str.len A.
Proof.
  revert old. induction A as [|a A IH]; intros old Hclear Hstart.
  - destruct old as [|o old]; [done|]. cbn [tails forallb] in Hclear.
    apply andb_true_iff in Hclear as [Hrel _]. apply negb_true_iff in Hrel.
    cbn [String.append] in Hstart.
    by rewrite (not_related_startswith _ _ _ Hrel) in Hstart.
  - destruct old as [|o old]; [unfold Str.len; cbn; lia|].
    cbn [tails forallb] in Hclear. apply andb_true_iff in Hclear as [_ Hclear].
    cbn [String.append Str.startswith] in Hstart.
    destruct (decide (o = a)); [|done]. rewrite !len_cons.
    apply le_n_S. by apply IH.
Qed.

Lemma replace_go_before (old new K R A : string) (skip : nat) :
  clear_before old K = true → skip ≤ Str.len A →
  ∃ A', Str.replace_go old new skip (A +:+ K +:+ R)
        = A' +:+ Str.replace_go old new 0 (K +:+ R).
Proof.
  intros Hclear. revert skip. induction A as [|a A IH]; intros skip Hskip.
  - change (Str.len "") with 0 in Hskip. replace skip with 0 by lia. by exists "".
  - rewrite len_cons in Hskip. cbn [String.append Str.replace_go].
    destruct skip as [|k].
    + destruct (Str.startswith old (String a (A +:+ K +:+ R))) eqn:Hstart.
      * assert (Hle : Str.len old - 1 ≤ Str.len A).
        { destruct old as [|o old]; [change (Str.len "") with 0; lia|].
          cbn [Str.startswith] in Hstart. destruct (decide (o = a)); [|done].
          rewrite len_cons. cbn [Nat.sub]. rewrite Nat.sub_0_r.
          by eapply startswith_within. }
        destruct (IH (Str.len old - 1) Hle) as [A' ->].
        exists (new +:+ A'). by rewrite append_assoc.
      * destruct (IH 0) as [A' ->]; [lia|]. by exists (String a A').
    + destruct (IH k) as [A' ->]; [lia|]. by exists A'.
Qed.

Lemma replace_go_inside (old new K R : string) :
  clear_inside old K = true →
  Str.replace_go old new 0 (K +:+ R) = K +:+ Str.replace_go old new 0 R.
Proof.
  unfold clear_inside. induction K as [|k K IH]; intros Hclear; [done|].
  cbn [tails forallb] in Hclear. apply andb_true_iff in Hclear as [Hrel Hclear].
  apply negb_true_iff in Hrel.
  cbn [String.append Str.replace_go].
  change (String k (K +:+ R)) with (String k K +:+ R).
  rewrite (not_related_startswith _ _ _ Hrel). cbn [String.append].
  by rewrite IH.
Qed.

Lemma replace_go_drop (old new X R : string) :
  Str.replace_go old new (Str.len X) (X +:+ R) = Str.replace_go old new 0 R.
Proof. induction X as [|x X IH]; [done|]. by rewrite len_cons. Qed.

Lemma replace_go_hit (old new R : string) :
  old ≠ "" →
  Str.replace_go old new 0 (old +:+ R) = new +:+ Str.replace_go old new 0 R.
Proof.
  intros Hne. destruct old as [|o old]; [done|].
  cbn [String.append Str.replace_go].
  change (String o (old +:+ R)) with (String o old +:+ R).
  rewrite startswith_append, len_cons. cbn [Nat.sub]. rewrite Nat.sub_0_r.
  by rewrite replace_go_drop.
Qed.

Lemma pass_go_before (V T K R A : string) (skip : nat) :
  forallb (λ u, negb (related u K)) (tails V) = true → skip ≤ Str.len A →
  ∃ A', pass_go V T skip (A +:+ K +:+ R) = A' +:+ pass_go V T 0 (K +:+ R).
Proof.
  intros Hclear. revert skip. induction A as [|a A IH]; intros skip Hskip.
  - change (Str.len "") with 0 in Hskip. replace skip with 0 by lia. by exists "".
  - rewrite len_cons in Hskip. cbn [String.append pass_go].
    destruct skip as [|k].
    + destruct (withoutdot_here V (String a (A +:+ K +:+ R))) eqn:Hhere.
      * assert (Str.len V ≤ Str.len A).
        { apply (startswith_within V A K R Hclear).
          unfold withoutdot_here in Hhere.
          by apply andb_true_iff in Hhere as [[_ ?]%andb_true_iff _]. }
        destruct (IH (Str.len V)) as [A' ->]; [lia|].
        exists (String a (T +:+ A')). cbn [String.append]. by rewrite append_assoc.
      * destruct (IH 0) as [A' ->]; [lia|]. by exists (String a A').
    + destruct (IH k) as [A' ->]; [lia|]. by exists A'.
Qed.

Lemma pass_go_cons (V T : string) (c : ascii) (r : string) :
  pass_go V T 0 (String c r)
  = if withoutdot_here V (String c r)
    then String c (T +:+ pass_go V T (Str.len V) r)
    else String c (pass_go V T 0 r).
Proof. done. Qed.

(** A piece in which the name does not begin is copied; what follows its
    last character may be a match. *)
Lemma pass_go_inside (V T K R : string) :
  K ≠ "" → clear_inside V (Str.drop 1 K) = true →
  ∃ X, pass_go V T 0 (K +:+ R) = K +:+ X
       ∧ (X = pass_go V T 0 R
          ∨ (Str.startswith V R = true ∧ X = T +:+ pass_go V T (Str.len V) R)).
Proof.
  unfold clear_inside. induction K as [|k K IH]; intros Hne Hclear; [done|].
  cbn [Str.drop] in Hclear. destruct K as [|k' K].
  - cbn [String.append pass_go].
    destruct (withoutdot_here V (String k R)) eqn:Hhere.
    + eexists. split; [done|]. right. split; [|done].
      unfold withoutdot_here in Hhere.
      by apply andb_true_iff in Hhere as [[_ ?]%andb_true_iff _].
    + eexists. split; [done|]. by left.
  - cbn [tails forallb] in Hclear. apply andb_true_iff in Hclear as [Hrel Hclear].
    apply negb_true_iff in Hrel.
    change (String k (String k' K) +:+ R) with (String k (String k' K +:+ R)).
    rewrite pass_go_cons.
    assert (Hhere : withoutdot_here V (String k (String k' K +:+ R)) = false).
    { unfold withoutdot_here.
      by rewrite (not_related_startswith _ _ _ Hrel), andb_false_r. }
    rewrite Hhere.
    destruct IH as (X & HX & Hcases); [done | done |].
    rewrite HX. by exists X.
Qed.

(** A match: the name between a character that may stand before it and one
    that may stand after it. *)
Lemma pass_go_match (V T : string) (c d : ascii) (R : string) :
  c ∉ ["."%char; dq] → d ∉ [dq] →
  ∃ X, pass_go V T 0 (String c (V +:+ String d R)) = String c (T +:+ String d X).
Proof.
  intros Hc Hd. cbn [pass_go].
  assert (Hhere : withoutdot_here V (String c (V +:+ String d R)) = true).
  { unfold withoutdot_here.
    rewrite startswith_append, drop_append.
    by rewrite !bool_decide_eq_false_2. }
  rewrite Hhere, pass_go_skip, drop_append. cbn [pass_go].
  destruct (withoutdot_here V (String d R)); by eexists.
Qed.

(** ** One rule and a content that imports the holder class statically *)

Lemma not_replaced_yet (x a : string) (replaced : gset string) :
  x ≠ a → x ∉ replaced → x ∉ {[a]} ∪ replaced.
Proof.
  intros Hne Hnot [->%elem_of_singleton | Hin]%elem_of_union; [done | by destruct Hnot].
Qed.

Lemma replaced_now (x : string) (replaced : gset string) :
  ¬ (x ∉ {[x]} ∪ replaced).
Proof. intros H. apply H, elem_of_union. left. by apply elem_of_singleton. Qed.

Lemma replace_NLS_usage_single (r : rule) (c : string) :
  variablename r ≠ staticimportvariable r →
  FROM r ≠ variablename r → FROM r ≠ staticimportvariable r →
  staticimportstar r ≠ FROM r → staticimportstar r ≠ variablename r →
  staticimportstar r ≠ staticimportvariable r →
  Str.contains (staticimportstar r) c = true →
  Literal.replace_NLS_usage c [r]
  = Str.replace
      (Str.replace
         (Literal.regex_replace_variable_safely
            (Str.replace c (staticimportvariable r) (classimport r))
            (variablename r) (TO r))
         (FROM r) (TO r))
      (staticimportstar r) (classimport r).
Proof.
  intros HVS HFV HFS HLF HLV HLS Hstar.
  unfold Literal.replace_NLS_usage. cbn [foldl]. unfold Literal.usage_step.
  rewrite !found_Lit.
  rewrite (bool_decide_eq_true_2 (staticimportvariable r ∉ (∅ : gset string)))
    by apply not_elem_of_empty.
  cbn [andb].
  destruct (Str.contains (staticimportvariable r) c) eqn:HS.
  - rewrite (bool_decide_eq_true_2
               (variablename r ∉ ({[staticimportvariable r]} ∪ ∅ : gset string)))
      by (apply not_replaced_yet; [done | apply not_elem_of_empty]).
    rewrite found_Lit.
    rewrite (bool_decide_eq_false_2
               (variablename r ∉ ({[variablename r]} ∪ ({[staticimportvariable r]} ∪ ∅)
                                  : gset string)))
      by apply replaced_now.
    rewrite andb_false_r.
    rewrite (bool_decide_eq_true_2
               (FROM r ∉ ({[variablename r]} ∪ ({[staticimportvariable r]} ∪ ∅)
                          : gset string)))
      by (repeat (apply not_replaced_yet; [done|]); apply not_elem_of_empty).
    cbn [andb].
    set (c3 := Literal.regex_replace_variable_safely _ _ _).
    assert (Hc4 : (if Str.contains (FROM r) c3
                   then (Str.replace c3 (FROM r) (TO r),
                         ({[FROM r]} ∪ ({[variablename r]}
                            ∪ ({[staticimportvariable r]} ∪ ∅)) : gset string))
                   else (c3, ({[variablename r]} ∪ ({[staticimportvariable r]} ∪ ∅)
                              : gset string))).1
                  = Str.replace c3 (FROM r) (TO r)).
    { destruct (Str.contains (FROM r) c3) eqn:HF; [done|].
      by rewrite (replace_absent _ _ _ HF). }
    destruct (if Str.contains (FROM r) c3 then _ else _) as [c4 R4] eqn:E4.
    assert (HR4 : staticimportstar r ∉ R4).
    { destruct (Str.contains (FROM r) c3); injection E4 as _ <-;
        repeat (apply not_replaced_yet; [done|]); apply not_elem_of_empty. }
    cbn [fst] in Hc4. subst c4. unfold Literal.star_step. rewrite found_Lit.
    rewrite (bool_decide_eq_true_2 _ HR4), andb_true_r.
    destruct (Str.contains (staticimportstar r) (Str.replace c3 (FROM r) (TO r)))
      eqn:HL; [done|].
    cbn [fst]. by rewrite (replace_absent _ _ _ HL).
  - rewrite found_Lit, Hstar.
    rewrite (bool_decide_eq_true_2 (variablename r ∉ (∅ : gset string)))
      by apply not_elem_of_empty.
    cbn [andb].
    rewrite (bool_decide_eq_true_2
               (FROM r ∉ ({[variablename r]} ∪ ∅ : gset string)))
      by (apply not_replaced_yet; [done | apply not_elem_of_empty]).
    cbn [andb]. rewrite (replace_absent c _ _ HS).
    set (c3 := Literal.regex_replace_variable_safely _ _ _).
    assert (Hc4 : (if Str.contains (FROM r) c3
                   then (Str.replace c3 (FROM r) (TO r),
                         ({[FROM r]} ∪ ({[variablename r]} ∪ ∅) : gset string))
                   else (c3, ({[variablename r]} ∪ ∅ : gset string))).1
                  = Str.replace c3 (FROM r) (TO r)).
    { destruct (Str.contains (FROM r) c3) eqn:HF; [done|].
      by rewrite (replace_absent _ _ _ HF). }
    destruct (if Str.contains (FROM r) c3 then _ else _) as [c4 R4] eqn:E4.
    assert (HR4 : staticimportstar r ∉ R4).
    { destruct (Str.contains (FROM r) c3); injection E4 as _ <-;
        repeat (apply not_replaced_yet; [done|]); apply not_elem_of_empty. }
    cbn [fst] in Hc4. subst c4. unfold Literal.star_step. rewrite found_Lit.
    rewrite (bool_decide_eq_true_2 _ HR4), andb_true_r.
    destruct (Str.contains (staticimportstar r) (Str.replace c3 (FROM r) (TO r)))
      eqn:HL; [done|].
    cbn [fst]. by rewrite (replace_absent _ _ _ HL).
Qed.

Lemma replace_go_two (old new K1 K2 A B C : string) :
  untouched old K1 = true → untouched old K2 = true →
  ∃ A' B' C',
    Str.replace_go old new 0 (A +:+ K1 +:+ B +:+ K2 +:+ C)
    = A' +:+ K1 +:+ B' +:+ K2 +:+ C'.
Proof.
  intros [Hb1 Hi1]%andb_true_iff [Hb2 Hi2]%andb_true_iff.
  destruct (replace_go_before old new K1 (B +:+ K2 +:+ C) A 0 Hb1) as [A' ->]; [lia|].
  rewrite (replace_go_inside old new K1 _ Hi1).
  destruct (replace_go_before old new K2 C B 0 Hb2) as [B' ->]; [lia|].
  rewrite (replace_go_inside old new K2 _ Hi2).
  by exists A', B', (Str.replace_go old new 0 C).
Qed.

Lemma drop_app_le (n : nat) (x y : string) :
  n ≤ Str.len x → Str.drop n (x +:+ y) = Str.drop n x +:+ y.
Proof.
  revert n. induction x as [|c x IH]; intros n Hn.
  - change (Str.len "") with 0 in Hn. by replace n with 0 by lia.
  - rewrite len_cons in Hn. destruct n as [|n]; [done|].
    cbn [String.append Str.drop]. apply IH. lia.
Qed.

(** The pass over a content with a protected piece [K1] and, later, a piece
    [P] followed by a stand-alone occurrence of the name. *)
Lemma pass_go_two (V T K1 P : string) (c d : ascii) (A B C : string) :
  forallb (λ u, negb (related u K1)) (tails V) = true →
  K1 ≠ "" → clear_inside V (Str.drop 1 K1) = true →
  forallb (λ u, negb (related u P)) (tails V) = true →
  P ≠ "" → clear_inside V (Str.drop 1 P) = true →
  related V (String c V) = false →
  c ∉ ["."%char; dq] → d ∉ [dq] →
  ∃ A' B' C',
    pass_go V T 0 (A +:+ K1 +:+ B +:+ P +:+ String c (V +:+ String d C))
    = A' +:+ K1 +:+ B' +:+ P +:+ String c (T +:+ String d C').
Proof.
  intros HK1 HK1ne HK1in HP HPne HPin Hrel Hc Hd.
  destruct (pass_go_before V T K1 (B +:+ P +:+ String c (V +:+ String d C)) A 0 HK1)
    as [A' ->]; [lia|].
  destruct (pass_go_inside V T K1 (B +:+ P +:+ String c (V +:+ String d C)) HK1ne HK1in)
    as (X & -> & HX).
  assert (∃ B', X = B' +:+ pass_go V T 0 (P +:+ String c (V +:+ String d C)))
    as [B' ->].
  { destruct HX as [-> | [Hstart ->]].
    - by apply pass_go_before; [|lia].
    - destruct (pass_go_before V T P (String c (V +:+ String d C)) B (Str.len V) HP)
        as [B' ->]; [by eapply startswith_within|].
      exists (T +:+ B'). by rewrite append_assoc. }
  destruct (pass_go_inside V T P (String c (V +:+ String d C)) HPne HPin)
    as (Y & -> & HY).
  assert (Y = pass_go V T 0 (String c (V +:+ String d C))) as ->.
  { destruct HY as [-> | [Hstart _]]; [done|].
    change (String c (V +:+ String d C)) with (String c V +:+ String d C) in Hstart.
    by rewrite (not_related_startswith _ _ _ Hrel) in Hstart. }
  destruct (pass_go_match V T c d C Hc Hd) as [C' ->].
  by exists A', B', C'.
Qed.

(** When the second loop replaces at the start of a content, a protected
    piece is not touched. *)
Lemma atstart_before (V T K1 A R : string) :
  forallb (λ u, negb (related u K1)) (tails V) = true →
  Str.drop 1 K1 ≠ "" → clear_inside V (Str.drop 1 K1) = true →
  atstart_here V (A +:+ K1 +:+ R) = true →
  ∃ A', T +:+ Str.drop (Str.len V + 1) (A +:+ K1 +:+ R) = A' +:+ K1 +:+ R.
Proof.
  intros HK1 HK1ne HK1in Hhere. destruct A as [|a A].
  - destruct K1 as [|k [|k' K1]]; [done | done |].
    cbn [String.append atstart_here] in Hhere.
    apply andb_true_iff in Hhere as [_ Hstart].
    cbn [Str.drop] in HK1in. unfold clear_inside in HK1in.
    cbn [tails forallb] in HK1in.
    apply andb_true_iff in HK1in as [Hrel _]. apply negb_true_iff in Hrel.
    change (String k' (K1 +:+ R)) with (String k' K1 +:+ R) in Hstart.
    by rewrite (not_related_startswith _ _ _ Hrel) in Hstart.
  - cbn [String.append atstart_here] in Hhere.
    apply andb_true_iff in Hhere as [_ Hstart].
    assert (Str.len V ≤ Str.len A) by by eapply startswith_within.
    replace (Str.len V + 1) with (S (Str.len V)) by lia.
    cbn [String.append Str.drop]. rewrite drop_app_le by done.
    exists (T +:+ Str.drop (Str.len V) A). by rewrite append_assoc.
Qed.

(** The scenario of the static-star import, with any text around the import
    line and the usage. *)
Lemma star_import_rewritten (A B C : string) :
  ∃ A' B' C',
    Literal.replace_NLS_usage (A +:+ import_line +:+ B +:+ usage_text +:+ C) [FOO_a_rule]
    = A' +:+ import_line_after +:+ B' +:+ usage_text_after +:+ C'.
Proof.
  rewrite replace_NLS_usage_single; try done.
  2: { apply contains_spec. by exists A, (";" +:+ B +:+ usage_text +:+ C). }
  change (staticimportvariable FOO_a_rule) with "import static foo.Bah.FOO_a".
  change (staticimportstar FOO_a_rule) with "import static foo.Bah.*".
  change (classimport FOO_a_rule) with "import foo.Bah".
  change (variablename FOO_a_rule) with "FOO_a".
  change (FROM FOO_a_rule) with "Bah.FOO_a".
  change (TO FOO_a_rule) with (TEMPLATE_MESSAGE_TOSTRING "Bah" "FOO_a").
  set (T := TEMPLATE_MESSAGE_TOSTRING "Bah" "FOO_a").
  (* the static import of the variable *)
  change (Str.replace ?s "import static foo.Bah.FOO_a" "import foo.Bah")
    with (Str.replace_go "import static foo.Bah.FOO_a" "import foo.Bah" 0 s).
  destruct (replace_go_two "import static foo.Bah.FOO_a" "import foo.Bah"
              import_line usage_text A B C) as (A1 & B1 & C1 & ->); [done..|].
  (* the variable *)
  rewrite regex_replace_variable_safely_eq. cbv zeta.
  change (usage_text +:+ C1) with ("x =" +:+ String " " ("FOO_a" +:+ String ";" C1)).
  destruct (pass_go_two "FOO_a" T import_line "x =" " " ";" A1 B1 C1)
    as (A2 & B2 & C2 & ->); [done.. | not_in_list | not_in_list |].
  assert (∃ A3,
    (if atstart_here "FOO_a"
          (A2 +:+ import_line +:+ B2 +:+ "x =" +:+ String " " (T +:+ String ";" C2))
     then T +:+ Str.drop (Str.len "FOO_a" + 1)
            (A2 +:+ import_line +:+ B2 +:+ "x =" +:+ String " " (T +:+ String ";" C2))
     else A2 +:+ import_line +:+ B2 +:+ "x =" +:+ String " " (T +:+ String ";" C2))
    = A3 +:+ import_line +:+ B2 +:+ usage_text_after +:+ C2) as [A3 ->].
  { destruct (atstart_here _ _) eqn:Hhere; [|by exists A2].
    by apply atstart_before. }
  (* the qualified references *)
  change (Str.replace ?s "Bah.FOO_a" T) with (Str.replace_go "Bah.FOO_a" T 0 s).
  destruct (replace_go_two "Bah.FOO_a" T import_line usage_text_after A3 B2 C2)
    as (A4 & B4 & C4 & ->); [done..|].
  (* the static-star import *)
  change (Str.replace ?s "import static foo.Bah.*" "import foo.Bah")
    with (Str.replace_go "import static foo.Bah.*" "import foo.Bah" 0 s).
  destruct (replace_go_before "import static foo.Bah.*" "import foo.Bah" import_line
              (B4 +:+ usage_text_after +:+ C4) A4 0) as [A5 ->]; [done | lia |].
  change (import_line +:+ B4 +:+ usage_text_after +:+ C4)
    with ("import static foo.Bah.*" +:+ ";" +:+ B4 +:+ usage_text_after +:+ C4).
  rewrite replace_go_hit by done.
  rewrite (replace_go_inside "import static foo.Bah.*" "import foo.Bah" ";") by done.
  destruct (replace_go_before "import static foo.Bah.*" "import foo.Bah"
              usage_text_after C4 B4 0) as [B5 ->]; [done | lia |].
  rewrite (replace_go_inside "import static foo.Bah.*" "import foo.Bah"
             usage_text_after) by done.
  by exists A5, B5, (Str.replace_go "import static foo.Bah.*" "import foo.Bah" 0 C4).
Qed.
(** ** Single characters in a text *)

Lemma contains_cons (sub : string) (c : ascii) (r : string) :
  Str.contains sub (String c r) = Str.startswith sub (String c r) || Str.contains sub r.
Proof. done. Qed.

Lemma has_char_app (c : ascii) (a b : string) :
  has_char c (a +:+ b) = has_char c a || has_char c b.
Proof.
  induction a as [|x a IH]; [done|]. cbn [String.append has_char].
  by rewrite IH, orb_assoc.
Qed.

Lemma startswith_char (c x : ascii) (r : string) :
  Str.startswith (String c "") (String x r) = bool_decide (c = x).
Proof.
  cbn [Str.startswith]. by destruct (decide (c = x)); [rewrite bool_decide_eq_true_2 | rewrite bool_decide_eq_false_2].
Qed.

Lemma contains_char (c : ascii) (s : string) :
  Str.contains (String c "") s = has_char c s.
Proof.
  induction s as [|x s IH]; [done|].
  rewrite contains_cons, startswith_char, IH. cbn [has_char].
  f_equal. apply bool_decide_ext. split; congruence.
Qed.

Lemma replace_char_unfold (c x : ascii) (new r : string) :
  Str.replace_go (String c "") new 0 (String x r)
  = if bool_decide (c = x) then new +:+ Str.replace_go (String c "") new 0 r
    else String x (Str.replace_go (String c "") new 0 r).
Proof.
  cbn [Str.replace_go]. rewrite startswith_char. done.
Qed.

Lemma replace_char_app (c : ascii) (new a b : string) :
  Str.replace (a +:+ b) (String c "") new
  = Str.replace a (String c "") new +:+ Str.replace b (String c "") new.
Proof.
  unfold Str.replace. induction a as [|x a IH]; [done|].
  cbn [String.append]. rewrite !replace_char_unfold, IH.
  destruct (bool_decide (c = x)); [by rewrite append_assoc | done].
Qed.

Lemma replace_char_absent (c : ascii) (new s : string) :
  has_char c s = false → Str.replace s (String c "") new = s.
Proof. intros H. apply replace_absent. by rewrite contains_char. Qed.

(** ** Patterns of names without an operator

    For such names [re_compile] gives a matcher that behaves like the one
    written down in [Literal], and the engine returns what [Literal]
    computes. *)

Lemma any_star_ext (pos : nat) (s : string) (k1 k2 : nat → string → option nat) :
  (∀ p t, k1 p t = k2 p t) → Re.any_star pos s k1 = Re.any_star pos s k2.
Proof.
  intros Hk. revert pos. induction s as [|c s IH]; intros pos; cbn [Re.any_star].
  - apply Hk.
  - destruct (decide (c = nl)); [apply Hk|]. by rewrite IH, Hk.
Qed.

Lemma accept_ext (r : regex) : same_matcher r r.
Proof.
  induction r as [l| |negate set| | | |a IHa b IHb]; intros pos s k1 k2 Hk;
    cbn [Re.accept].
  - by rewrite Hk.
  - destruct s as [|c s]; [done|]. by rewrite Hk.
  - destruct s as [|c s]; [done|]. by rewrite Hk.
  - by apply any_star_ext.
  - by rewrite Hk.
  - by rewrite Hk.
  - apply IHa. intros p t. by apply IHb.
Qed.

Lemma same_matcher_sym (r1 r2 : regex) : same_matcher r1 r2 → same_matcher r2 r1.
Proof. intros H pos s k1 k2 Hk. symmetry. apply H. intros p t. symmetry. apply Hk. Qed.

Lemma same_matcher_Seq (a1 a2 b1 b2 : regex) :
  same_matcher a1 a2 → same_matcher b1 b2 → same_matcher (Seq a1 b1) (Seq a2 b2).
Proof.
  intros Ha Hb pos s k1 k2 Hk. cbn [Re.accept]. apply Ha.
  intros p t. by apply Hb.
Qed.

Lemma same_matcher_search (r1 r2 : regex) (content : string) (pos : nat) :
  same_matcher r1 r2 → Re.search r1 content pos = Re.search r2 content pos.
Proof.
  intros H. unfold Re.search. generalize 0 as i.
  induction content as [|c s IH]; intros i; cbn [Re.search_go]; unfold Re.match_at;
    rewrite (H i _ _ (λ p _, Some p)) by done; [done|].
  by rewrite IH.
Qed.

Lemma same_matcher_found (r1 r2 : regex) (content : string) :
  same_matcher r1 r2 → found r1 content = found r2 content.
Proof. intros H. unfold found. by rewrite (same_matcher_search r1 r2). Qed.

Lemma drop_0 (s : string) : Str.drop 0 s = s.
Proof. by destruct s. Qed.

(** The empty literal that ends every compiled pattern matches nothing
    away. *)
Lemma same_matcher_end (r : regex) : same_matcher (Seq r (Lit "")) r.
Proof.
  intros pos s k1 k2 Hk. cbn [Re.accept]. apply accept_ext.
  intros p t. cbn [Str.startswith Str.len String.length].
  by rewrite Nat.add_0_r, drop_0.
Qed.

(** One literal for each character is the literal of the text. *)
Lemma same_matcher_lits (s : string) (rest : regex) :
  same_matcher (foldr Seq rest (lits s)) (Seq (Lit s) rest).
Proof.
  induction s as [|c s IH]; intros pos t k1 k2 Hk.
  - cbn [lits foldr Re.accept Str.startswith Str.len String.length].
    rewrite Nat.add_0_r, drop_0. by apply accept_ext.
  - cbn [lits foldr]. cbn [Re.accept]. destruct t as [|d t]; [done|].
    cbn [Str.startswith]. destruct (decide (c = d)) as [->|]; [|done].
    cbn [Str.len String.length Str.drop].
    rewrite (IH (pos + 1) t k1 k2 Hk). cbn [Re.accept].
    destruct (Str.startswith s t); [|done].
    replace (pos + 1 + Str.len s) with (pos + S (String.length s)); [|unfold Str.len; lia].
    by apply accept_ext.
Qed.

Lemma foldr_Seq_app (xs ys : list regex) (rest : regex) :
  foldr Seq rest (xs ++ ys) = foldr Seq (foldr Seq rest ys) xs.
Proof. by rewrite foldr_app. Qed.

(** *** The parser on text without operator *)

Lemma set_char_len (s : string) (c : ascii) (rest : string) :
  Re.set_char s = Ok (c, rest) → Str.len rest < Str.len s.
Proof.
  destruct s as [|x s]; [done|]. cbn [Re.set_char].
  destruct (bool_decide (x = bsl)).
  - destruct s as [|e s]; [done|]. destruct (Re.is_alnum e); [done|].
    intros [= <- <-]. rewrite !len_cons. lia.
  - intros [= <- <-]. rewrite len_cons. lia.
Qed.

Lemma parse_set_len (fuel : nat) (set : list set_item) (s : string)
    (set' : list set_item) (rest : string) :
  Re.parse_set fuel set s = Ok (set', rest) → Str.len rest < Str.len s.
Proof.
  revert set s. induction fuel as [|fuel IH]; intros set s; [done|].
  cbn [Re.parse_set]. destruct s as [|c s]; [done|].
  destruct (bool_decide (c = "]"%char) && negb (bool_decide (set = []))).
  { intros [= <- <-]. rewrite len_cons. lia. }
  destruct (Re.set_char (String c s)) as [[code1 rest1]|] eqn:E1; [|done].
  apply set_char_len in E1. cbn [rbind].
  destruct rest1 as [|d rest2].
  { intros H%IH. lia. }
  destruct (bool_decide (d = "-"%char)).
  - destruct rest2 as [|e rest3]; [done|].
    destruct (bool_decide (e = "]"%char)).
    + intros [= <- <-]. rewrite !len_cons in *. lia.
    + destruct (Re.set_char (String e rest3)) as [[code2 rest4]|] eqn:E2; [|done].
      apply set_char_len in E2. cbn [rbind].
      destruct (nat_of_ascii code2 <? nat_of_ascii code1); [done|].
      intros H%IH. rewrite !len_cons in *. lia.
  - intros H%IH. lia.
Qed.

(** The parser needs no more rounds than the pattern has characters. *)
Lemma parse_fuel (f1 f2 : nat) (s : string) :
  Str.len s ≤ f1 → Str.len s ≤ f2 → Re.parse f1 s = Re.parse f2 s.
Proof.
  revert f2 s. induction f1 as [|f1 IH]; intros f2 s H1 H2.
  - destruct s; [|rewrite len_cons in H1; lia]. by destruct f2.
  - destruct s as [|c s]; [by destruct f2|].
    destruct f2 as [|f2]; [rewrite len_cons in H2; lia|].
    rewrite len_cons in H1, H2. cbn [Re.parse].
    destruct (bool_decide (c = bsl)).
    { destruct s as [|e s]; [done|]. destruct (Re.is_alnum e); [done|].
      rewrite len_cons in H1, H2. by rewrite (IH f2) by lia. }
    destruct (bool_decide (c = "."%char)); [by rewrite (IH f2) by lia|].
    destruct (bool_decide (c = "^"%char)); [by rewrite (IH f2) by lia|].
    destruct (bool_decide (c = "$"%char)); [by rewrite (IH f2) by lia|].
    destruct (bool_decide (c = "["%char)).
    { cbv zeta.
      set (rest := if Str.startswith "^" s then Str.drop 1 s else s).
      assert (Str.len rest ≤ Str.len s) as Hrest.
      { subst rest. destruct (Str.startswith "^" s); [|done]. rewrite len_drop. lia. }
      destruct (Re.parse_set (S (Str.len rest)) [] rest) as [[set rest']|] eqn:E; [|done].
      apply parse_set_len in E. cbn [rbind]. by rewrite (IH f2) by lia. }
    destruct (Re.starts_unparsed c); [done|]. by rewrite (IH f2) by lia.
Qed.

Lemma no_operator_cons (c : ascii) (s : string) :
  no_operator (String c s) = true ↔ is_operator c = false ∧ no_operator s = true.
Proof. cbn [no_operator]. rewrite andb_true_iff, negb_true_iff. done. Qed.

Lemma no_operator_app (a b : string) :
  no_operator (a +:+ b) = no_operator a && no_operator b.
Proof.
  induction a as [|c a IH]; [done|]. cbn [String.append no_operator].
  by rewrite IH, andb_assoc.
Qed.

Lemma no_operator_but_dot_app (a b : string) :
  no_operator_but_dot (a +:+ b) = no_operator_but_dot a && no_operator_but_dot b.
Proof.
  induction a as [|c a IH]; [done|]. cbn [String.append no_operator_but_dot].
  by rewrite IH, andb_assoc.
Qed.

Lemma no_operator_weaken (s : string) :
  no_operator s = true → no_operator_but_dot s = true.
Proof.
  induction s as [|c s IH]; [done|]. cbn [no_operator no_operator_but_dot].
  intros [Hc Hs]%andb_true_iff. by rewrite Hc, orb_true_r, IH.
Qed.

(** A character that is no operator is read as itself. *)
Lemma parse_plain_char (fuel : nat) (c : ascii) (s : string) :
  is_operator c = false →
  Re.parse (S fuel) (String c s)
  = rbind (Re.parse fuel s) (λ items, Ok (Lit (String c "") :: items)).
Proof.
  intros Hc. cbn [Re.parse].
  assert (∀ d, d ∈ operators → c ≠ d) as Hne.
  { intros d Hd ->. apply not_true_iff_false in Hc. apply Hc.
    apply existsb_exists. exists d. split; [by apply list_elem_of_In|].
    apply Ascii.eqb_refl. }
  rewrite !bool_decide_eq_false_2; [| apply Hne; unfold operators; set_unfold; tauto ..].
  unfold Re.starts_unparsed. rewrite bool_decide_eq_false_2; [done|].
  intros Hd. set_unfold.
  destruct Hd as [->|[->|[->|[->|[->|[->|[->|[]]]]]]]]; by vm_compute in Hc.
Qed.

Lemma parse_escaped_char (fuel : nat) (e : ascii) (s : string) :
  Re.is_alnum e = false →
  Re.parse (S fuel) (String bsl (String e s))
  = rbind (Re.parse fuel s) (λ items, Ok (Lit (String e "") :: items)).
Proof.
  intros He. cbn [Re.parse]. rewrite bool_decide_eq_true_2 by done. by rewrite He.
Qed.

Lemma parse_lits (fuel : nat) (s t : string) :
  no_operator s = true → Str.len (s +:+ t) ≤ fuel →
  Re.parse fuel (s +:+ t)
  = rbind (Re.parse fuel t) (λ items, Ok (lits s ++ items)).
Proof.
  revert fuel. induction s as [|c s IH]; intros fuel Hs Hfuel.
  - cbn [String.append lits app]. by destruct (Re.parse fuel t).
  - apply no_operator_cons in Hs as [Hc Hs]. cbn [String.append] in *.
    rewrite len_cons in Hfuel. destruct fuel as [|fuel]; [lia|].
    rewrite parse_plain_char by done. rewrite IH by (done || lia).
    rewrite (parse_fuel (S fuel) fuel t) by (rewrite len_append in Hfuel; lia).
    by destruct (Re.parse fuel t).
Qed.

Lemma escape_dots_eq (s : string) : Str.replace s "." "\." = escape_dots s.
Proof. reflexivity. Qed.

Lemma escape_dots_cons (c : ascii) (s : string) :
  escape_dots (String c s)
  = if bool_decide (c = "."%char) then "\." +:+ escape_dots s
    else String c (escape_dots s).
Proof.
  unfold escape_dots, Str.replace. rewrite replace_char_unfold.
  destruct (decide (c = "."%char)) as [->|Hc].
  - by rewrite !bool_decide_eq_true_2.
  - rewrite (bool_decide_eq_false_2 ("."%char = c)) by congruence.
    by rewrite bool_decide_eq_false_2.
Qed.

Lemma escape_dots_app (a b : string) :
  escape_dots (a +:+ b) = escape_dots a +:+ escape_dots b.
Proof. apply replace_char_app. Qed.

Lemma len_escape_dots (s : string) : Str.len s ≤ Str.len (escape_dots s).
Proof.
  induction s as [|c s IH]; [done|]. rewrite escape_dots_cons.
  destruct (bool_decide (c = "."%char)); cbn [String.append]; rewrite !len_cons; lia.
Qed.

(** An escaped dot is read as a dot, the other characters as themselves. *)
Lemma parse_escaped (fuel : nat) (s t : string) :
  no_operator_but_dot s = true → Str.len (escape_dots s +:+ t) ≤ fuel →
  Re.parse fuel (escape_dots s +:+ t)
  = rbind (Re.parse fuel t) (λ items, Ok (lits s ++ items)).
Proof.
  revert fuel. induction s as [|c s IH]; intros fuel Hs Hfuel.
  - change (escape_dots "") with "". cbn [String.append lits app].
    by destruct (Re.parse fuel t).
  - cbn [no_operator_but_dot] in Hs. apply andb_true_iff in Hs as [Hc Hs].
    rewrite escape_dots_cons in *.
    destruct (decide (c = "."%char)) as [->|Hdot].
    + rewrite bool_decide_eq_true_2 in * by done.
      cbn [String.append] in *. rewrite !len_cons in Hfuel.
      destruct fuel as [|fuel]; [lia|].
      change (String "\" (String "." (escape_dots s +:+ t)))
        with (String bsl (String "." (escape_dots s +:+ t))).
      rewrite parse_escaped_char by done.
      rewrite IH by (done || lia).
      rewrite (parse_fuel (S fuel) fuel t) by (rewrite len_append in Hfuel; lia).
      by destruct (Re.parse fuel t).
    + rewrite bool_decide_eq_false_2 in * by done. cbn [orb] in Hc.
      apply negb_true_iff in Hc. cbn [String.append] in *.
      rewrite len_cons in Hfuel. destruct fuel as [|fuel]; [lia|].
      rewrite parse_plain_char by done. rewrite IH by (done || lia).
      rewrite (parse_fuel (S fuel) fuel t) by (rewrite len_append in Hfuel; lia).
      by destruct (Re.parse fuel t).
Qed.

Lemma same_matcher_trans (r1 r2 r3 : regex) :
  same_matcher r1 r2 → same_matcher r2 r3 → same_matcher r1 r3.
Proof.
  intros H12 H23 pos s k1 k2 Hk.
  rewrite (H12 pos s k1 k1) by done. by apply H23.
Qed.

(** The items of a text without operator, followed by one more item. *)
Lemma same_matcher_lits_then (s : string) (x : regex) :
  same_matcher (foldr Seq (Lit "") (lits s ++ [x])) (Seq (Lit s) x).
Proof.
  rewrite foldr_Seq_app. cbn [foldr].
  eapply same_matcher_trans; [apply same_matcher_lits|].
  apply same_matcher_Seq; [apply accept_ext | apply same_matcher_end].
Qed.

Lemma same_matcher_lits_only (s : string) :
  same_matcher (foldr Seq (Lit "") (lits s)) (Lit s).
Proof.
  eapply same_matcher_trans; [apply same_matcher_lits | apply same_matcher_end].
Qed.

(** *** The patterns of [regex_replace_variable_safely] *)

Lemma parse_set_dot_quote (fuel : nat) (rest : string) :
  Re.parse (S fuel) ("[^\." +:+ String dq "]" +:+ rest)
  = rbind (Re.parse fuel rest)
      (λ items, Ok (OneOf true [SetChar "."; SetChar dq] :: items)).
Proof. reflexivity. Qed.

Lemma parse_set_quote (fuel : nat) (rest : string) :
  Re.parse (S fuel) ("[^" +:+ String dq "]" +:+ rest)
  = rbind (Re.parse fuel rest) (λ items, Ok (OneOf true [SetChar dq] :: items)).
Proof. reflexivity. Qed.

Lemma parse_caret (fuel : nat) (rest : string) :
  Re.parse (S fuel) (String "^" rest)
  = rbind (Re.parse fuel rest) (λ items, Ok (Bol :: items)).
Proof. reflexivity. Qed.

Lemma compile_variablewithoutdot (V : string) :
  no_operator V = true →
  ∃ rx, re_compile (variablewithoutdot_text V) = Ok rx
        ∧ same_matcher rx (Literal.variablewithoutdot V).
Proof.
  intros HV. unfold re_compile, Re.compile, variablewithoutdot_text.
  set (tail := "[^" +:+ String dq "]").
  assert (Str.len ("[^\." +:+ String dq "]" +:+ V +:+ tail)
          = S (5 + Str.len (V +:+ tail))) as -> by done.
  rewrite parse_set_dot_quote, parse_lits by (done || lia).
  rewrite (parse_fuel _ 4 tail) by (rewrite ?len_append; cbn; lia).
  change (Re.parse 4 tail) with (Ok [OneOf true [SetChar dq]] : result (list regex)).
  cbn [rbind]. eexists. split; [done|]. cbn [foldr].
  apply same_matcher_Seq; [apply accept_ext | apply same_matcher_lits_then].
Qed.

Lemma compile_variableatstart (V : string) :
  no_operator V = true →
  ∃ rx, re_compile (variableatstart_text V) = Ok rx
        ∧ same_matcher rx (Literal.variableatstart V).
Proof.
  intros HV. unfold re_compile, Re.compile, variableatstart_text.
  assert ("^[^" +:+ String dq "]" +:+ V
          = String "^" ("[^" +:+ String dq "]" +:+ (V +:+ ""))) as ->
    by (by rewrite append_empty_r).
  change (Str.len (String "^" ("[^" +:+ String dq "]" +:+ (V +:+ ""))))
    with (S (S (3 + Str.len (V +:+ "")))).
  rewrite parse_caret, parse_set_quote, parse_lits by (done || lia).
  rewrite (parse_fuel _ 0 "") by (cbn; lia). cbn [Re.parse rbind].
  rewrite app_nil_r. eexists. split; [done|]. cbn [foldr].
  apply same_matcher_Seq; [apply accept_ext|].
  apply same_matcher_Seq; [apply accept_ext | apply same_matcher_lits_only].
Qed.

(** *** The import matchers *)

Lemma lits_app (a b : string) : lits (a +:+ b) = lits a ++ lits b.
Proof. induction a as [|c a IH]; [done|]. cbn [String.append lits app]. by rewrite IH. Qed.

Lemma compile_escaped (s : string) :
  no_operator_but_dot s = true →
  ∃ rx, re_compile (escape_dots s) = Ok rx ∧ same_matcher rx (Lit s).
Proof.
  intros Hs. unfold re_compile, Re.compile.
  assert (Re.parse (Str.len (escape_dots s)) (escape_dots s) = Ok (lits s)) as ->.
  { pose proof (parse_escaped (Str.len (escape_dots s)) s "" Hs) as H.
    rewrite append_empty_r in H. rewrite H by done.
    assert (Re.parse (Str.len (escape_dots s)) "" = Ok []) as ->
      by (by destruct (Str.len _)).
    cbn [rbind]. by rewrite app_nil_r. }
  cbn [rbind]. eexists. split; [done|].
  apply same_matcher_lits_only.
Qed.

Lemma no_star_escape_dots (s : string) :
  no_operator_but_dot s = true → has_char "*" (escape_dots s) = false.
Proof.
  induction s as [|c s IH]; [done|]. cbn [no_operator_but_dot].
  intros [Hc Hs]%andb_true_iff. rewrite escape_dots_cons.
  destruct (decide (c = "."%char)) as [->|Hdot].
  - rewrite bool_decide_eq_true_2 by done. cbn [String.append has_char].
    rewrite (IH Hs). done.
  - rewrite bool_decide_eq_false_2 in * by done. cbn [orb] in Hc.
    cbn [has_char]. rewrite (IH Hs), orb_false_r.
    apply bool_decide_eq_false. intros ->. by vm_compute in Hc.
Qed.

Lemma compile_variable_import (r : rule) :
  no_operator_but_dot (package r) = true → no_operator_but_dot (FROM r) = true →
  ∃ rx, re_compile (uses_static_variable_import_text r) = Ok rx
        ∧ same_matcher rx (Lit (staticimportvariable r)).
Proof.
  intros HP HF. unfold uses_static_variable_import_text, staticimportvariable.
  rewrite escape_dots_eq. apply compile_escaped. rewrite !no_operator_but_dot_app, HP, HF. reflexivity.
Qed.

Lemma star_text (pre : string) :
  no_operator_but_dot pre = true →
  Str.replace (escape_dots (pre +:+ ".*")) "*" "\*" = escape_dots pre +:+ "\.\*".
Proof.
  intros Hpre. rewrite escape_dots_app, (replace_char_app "*").
  rewrite (replace_char_absent "*") by by apply no_star_escape_dots.
  done.
Qed.

Lemma compile_star_text (pre : string) :
  no_operator_but_dot pre = true →
  ∃ rx, re_compile (escape_dots pre +:+ "\.\*") = Ok rx
        ∧ same_matcher rx (Lit (pre +:+ ".*")).
Proof.
  intros Hpre. unfold re_compile, Re.compile.
  rewrite parse_escaped by done.
  assert (Re.parse (Str.len (escape_dots pre +:+ "\.\*")) "\.\*" = Ok (lits ".*")) as ->.
  { rewrite (parse_fuel _ 4); [done | | done].
    rewrite len_append. change (Str.len "\.\*") with 4. lia. }
  cbn [rbind]. rewrite <- lits_app. eexists. split; [done|].
  apply same_matcher_lits_only.
Qed.

Lemma compile_star_import_text (pre : string) :
  no_operator_but_dot pre = true →
  ∃ rx, re_compile (Str.replace (Str.replace (pre +:+ ".*") "." "\.") "*" "\*") = Ok rx
        ∧ same_matcher rx (Lit (pre +:+ ".*")).
Proof.
  intros Hpre. rewrite escape_dots_eq, (star_text pre Hpre).
  by apply compile_star_text.
Qed.

Lemma compile_star_import (r : rule) :
  no_operator_but_dot (package r) = true → no_operator_but_dot (classname r) = true →
  ∃ rx, re_compile (uses_static_star_import_text r) = Ok rx
        ∧ same_matcher rx (Lit (staticimportstar r)).
Proof.
  intros HP HC. unfold uses_static_star_import_text, staticimportstar.
  rewrite <- !append_assoc. apply compile_star_import_text.
  rewrite !no_operator_but_dot_app, HP, HC. reflexivity.
Qed.

(** *** The loops *)

Lemma while_withoutdot_rounds (rx : regex) (V T : string) (fuel : nat)
    (content : string) (pos : nat) :
  same_matcher rx (Literal.variablewithoutdot V) →
  Str.len content - pos < fuel →
  while_withoutdot fuel rx V T content (Re.search rx content pos)
  = Ok (Literal.while_withoutdot fuel V T content
          (Re.search (Literal.variablewithoutdot V) content pos)).
Proof.
  intros Hrx. revert content pos.
  induction fuel as [|fuel IH]; intros content pos Hfuel; [lia|].
  rewrite (same_matcher_search rx _ content pos Hrx).
  destruct (Re.search (Literal.variablewithoutdot V) content pos) as [mt|] eqn:Hm;
    cbn [while_withoutdot Literal.while_withoutdot]; [|done].
  destruct (m_start mt <? Str.len content); [|done].
  apply search_inv in Hm as (a & t & -> & Hstart & Hpos & Hmatch).
  apply match_at_variablewithoutdot in Hmatch as (c & d & b & -> & Hend & _).
  apply IH.
  rewrite Hstart, Hend in *.
  rewrite !len_append, len_take, len_drop, !len_append, !len_cons,
    !len_append, !len_cons in *. lia.
Qed.

Lemma while_atstart_rounds (rx : regex) (V T : string) (fuel : nat) (content : string) :
  same_matcher rx (Literal.variableatstart V) →
  Str.len content < fuel →
  while_atstart fuel rx V T content (Re.search rx content 0)
  = Ok (Literal.while_atstart fuel V T content
          (Re.search (Literal.variableatstart V) content 0)).
Proof.
  intros Hrx Hfuel. destruct fuel as [|fuel]; [lia|].
  rewrite (same_matcher_search rx _ content 0 Hrx).
  destruct (Re.search (Literal.variableatstart V) content 0) as [mt|] eqn:Hm;
    cbn [while_atstart Literal.while_atstart]; [|done].
  destruct (m_start mt <? Str.len content); [|done].
  apply search_inv in Hm as (a & t & -> & Hstart & _ & Hmatch).
  apply match_at_variableatstart in Hmatch as (_ & c & b & -> & Hend & _).
  rewrite !len_append, !len_cons, !len_append in *.
  destruct fuel as [|fuel]; [lia|].
  rewrite (same_matcher_search rx _ _ _ Hrx).
  unfold Re.search at 1 2, Literal.variableatstart.
  rewrite search_go_Bol_later by lia. done.
Qed.

(** For a name without operator [regex_replace_variable_safely] returns
    what [Literal] computes. *)
Lemma regex_replace_variable_safely_plain (content V T : string) :
  no_operator V = true →
  regex_replace_variable_safely content V T
  = Ok (Literal.regex_replace_variable_safely content V T).
Proof.
  intros HV. unfold regex_replace_variable_safely, Literal.regex_replace_variable_safely.
  destruct (compile_variablewithoutdot V HV) as (rx1 & -> & H1).
  destruct (compile_variableatstart V HV) as (rx2 & -> & H2).
  cbn [rbind]. rewrite (while_withoutdot_rounds rx1) by (done || lia).
  cbn [rbind]. by rewrite (while_atstart_rounds rx2) by (done || lia).
Qed.

(** *** The engine *)

Lemma usage_step_plain (st : string * gset string) (r : rule) :
  plain_rule r → usage_step st r = Ok (Literal.usage_step st r).
Proof.
  intros (HV & HP & HC & HF). destruct st as [content replaced].
  unfold usage_step, Literal.usage_step.
  destruct (compile_variable_import r HP HF) as (rx1 & -> & H1).
  destruct (compile_star_import r HP HC) as (rx2 & -> & H2).
  cbn [rbind]. rewrite (same_matcher_found rx1 _ content H1).
  assert (∀ st1 : string * gset string,
    rbind
      (let '(content, replaced) := st1 in
       if found rx2 content && bool_decide (variablename r ∉ replaced)
       then rbind (regex_replace_variable_safely content (variablename r) (TO r))
              (λ content, Ok (content, {[variablename r]} ∪ replaced))
       else Ok (content, replaced))
      (λ '(content, replaced),
         if bool_decide (FROM r ∉ replaced) && Str.contains (FROM r) content
         then Ok (Str.replace content (FROM r) (TO r), {[FROM r]} ∪ replaced)
         else Ok (content, replaced))
    = Ok (let '(content, replaced) :=
            let '(content, replaced) := st1 in
            if found (Lit (staticimportstar r)) content
                 && bool_decide (variablename r ∉ replaced)
            then (Literal.regex_replace_variable_safely content (variablename r) (TO r),
                  {[variablename r]} ∪ replaced)
            else (content, replaced) in
          if bool_decide (FROM r ∉ replaced) && Str.contains (FROM r) content
          then (Str.replace content (FROM r) (TO r), {[FROM r]} ∪ replaced)
          else (content, replaced))) as Hrest.
  { intros [c1 R1]. rewrite (same_matcher_found rx2 _ c1 H2).
    destruct (found (Lit (staticimportstar r)) c1 && bool_decide (variablename r ∉ R1)).
    - rewrite regex_replace_variable_safely_plain by exact HV. cbn [rbind].
      by destruct (_ && _).
    - cbn [rbind]. by destruct (_ && _). }
  destruct (bool_decide (staticimportvariable r ∉ replaced)
            && found (Lit (staticimportvariable r)) content).
  - cbv zeta.
    destruct (bool_decide (variablename r ∉ {[staticimportvariable r]} ∪ replaced)).
    + rewrite regex_replace_variable_safely_plain by exact HV. cbn [rbind].
      apply (Hrest (_, _)).
    + apply (Hrest (_, _)).
  - apply (Hrest (_, _)).
Qed.

Lemma star_step_plain (st : string * gset string) (r : rule) :
  plain_rule r → star_step st r = Ok (Literal.star_step st r).
Proof.
  intros (HV & HP & HC & HF). destruct st as [content replaced].
  unfold star_step, Literal.star_step.
  destruct (compile_star_import r HP HC) as (rx2 & -> & H2).
  cbn [rbind]. rewrite (same_matcher_found rx2 _ _ H2). by destruct (_ && _).
Qed.

Lemma for_each_plain (step : string * gset string → rule → result (string * gset string))
    (step' : string * gset string → rule → string * gset string)
    (st : string * gset string) (patterns : list rule) :
  (∀ st r, plain_rule r → step st r = Ok (step' st r)) →
  Forall plain_rule patterns →
  for_each step st patterns = Ok (foldl step' st patterns).
Proof.
  intros Hstep H. revert st. induction H as [|r ps Hr _ IH]; intros st; [done|].
  cbn [for_each foldl]. rewrite Hstep by done. cbn [rbind]. apply IH.
Qed.

(** For rules without operator in their names [replace_NLS_usage] returns
    what [Literal] computes. *)
Lemma replace_NLS_usage_plain (content : string) (patterns : list rule) :
  Forall plain_rule patterns →
  replace_NLS_usage content patterns = Ok (Literal.replace_NLS_usage content patterns).
Proof.
  intros H. unfold replace_NLS_usage, Literal.replace_NLS_usage.
  rewrite (for_each_plain usage_step Literal.usage_step) by (done || apply usage_step_plain).
  cbn [rbind].
  by rewrite (for_each_plain star_step Literal.star_step) by (done || apply star_step_plain).
Qed.

(** * Further facts about the code *)

(** ** Lines read and written back *)

Lemma join_empty_cons (l : string) (ls : list string) :
  Str.join "" (l :: ls) = l +:+ Str.join "" ls.
Proof.
  destruct ls as [|l' ls]; cbn [Str.join]; [by rewrite append_empty_r | done].
Qed.

Lemma join_lines_no_nl_bounded (n : nat) (s : string) :
  Str.len s ≤ n → Str.join "" (lines_no_nl s) = s.
Proof.
  revert s. induction n as [|n IH]; intros s Hlen.
  - destruct s; [done | unfold Str.len in Hlen; simpl in Hlen; lia].
  - destruct s as [|c r]; [done|].
    assert (Hr : Str.len r ≤ n) by (unfold Str.len in *; simpl in Hlen; lia).
    cbn [lines_no_nl]. destruct (decide (c = nl)) as [->|Hn].
    { rewrite join_empty_cons, (IH r Hr). done. }
    destruct (decide (c = cr)) as [->|Hc].
    { destruct r as [|d r']; [done|].
      destruct (decide (d = nl)) as [->|Hd].
      - rewrite join_empty_cons, (IH r'); [done|].
        unfold Str.len in *. simpl in Hr. lia.
      - rewrite join_empty_cons, (IH _ Hr). done. }
    pose proof (IH r Hr) as Hjoin.
    destruct (lines_no_nl r) as [|l ls] eqn:E.
    + cbn [Str.join] in *. by rewrite <- Hjoin.
    + rewrite join_empty_cons in *. cbn [String.append]. by rewrite Hjoin.
Qed.

Lemma join_lines_no_nl (s : string) : Str.join "" (lines_no_nl s) = s.
Proof. by apply (join_lines_no_nl_bounded (Str.len s)). Qed.

Lemma filter_all {A : Type} (P : A → Prop) `{!∀ x, Decision (P x)} (l : list A) :
  Forall P l → filter P l = l.
Proof.
  induction 1 as [|x l Hx _ IH]; [done|].
  by rewrite filter_cons_True, IH.
Qed.

Lemma world_insert_id (w : world) (filepath content : string) :
  files w !! filepath = Some content →
  World (<[filepath := content]> (files w)) (records w) = w.
Proof. intros H. rewrite (insert_id _ _ _ H). by destruct w. Qed.

(** ** The first and the last occurrence *)

Lemma find_unfold (sub s : string) :
  Str.find sub s
  = if Str.startswith sub s then Some 0
    else match s with
         | EmptyString => None
         | String _ r => S <$> Str.find sub r
         end.
Proof. by destruct s. Qed.

Lemma find_first (sub A B : string) :
  (∀ a b, A +:+ sub +:+ B = a +:+ sub +:+ b → Str.len A ≤ Str.len a) →
  Str.find sub (A +:+ sub +:+ B) = Some (Str.len A).
Proof.
  induction A as [|c A IH]; intros Hfirst.
  - rewrite find_unfold. cbn [String.append]. by rewrite startswith_append.
  - rewrite find_unfold.
    destruct (Str.startswith sub (String c A +:+ sub +:+ B)) eqn:E.
    + apply startswith_spec in E as [b Hb].
      specialize (Hfirst "" b Hb). rewrite len_cons in Hfirst.
      unfold Str.len in Hfirst. simpl in Hfirst. lia.
    + cbn [String.append]. rewrite IH; [by rewrite len_cons|].
      intros a b Hab. specialize (Hfirst (String c a) b).
      cbn [String.append] in Hfirst. rewrite Hab in Hfirst.
      specialize (Hfirst eq_refl). rewrite !len_cons in Hfirst. lia.
Qed.

Lemma find_Some_occurs (sub s : string) (i : nat) :
  Str.find sub s = Some i →
  ∃ a b, s = a +:+ sub +:+ b ∧ Str.len a = i
         ∧ ∀ a' b', s = a' +:+ sub +:+ b' → i ≤ Str.len a'.
Proof.
  revert i. induction s as [|c r IH]; intros i Hfind; rewrite find_unfold in Hfind.
  - destruct (Str.startswith sub "") eqn:E; [|done]. injection Hfind as <-.
    apply startswith_spec in E as [b Hb]. exists "", b. split_and!; [done|done|].
    intros; lia.
  - destruct (Str.startswith sub (String c r)) eqn:E.
    + injection Hfind as <-. apply startswith_spec in E as [b Hb].
      exists "", b. split_and!; [done|done|]. intros; lia.
    + destruct (Str.find sub r) as [j|] eqn:Ej; [|done]. injection Hfind as <-.
      destruct (IH j eq_refl) as (a & b & -> & <- & Hmin).
      exists (String c a), b. split_and!; [done | by rewrite len_cons |].
      intros a' b' Heq. destruct a' as [|c' a'].
      * cbn [String.append] in Heq.
        assert (Str.startswith sub (String c (a +:+ sub +:+ b)) = true) as Hs
          by (apply startswith_spec; by exists b').
        congruence.
      * cbn [String.append] in Heq. injection Heq as -> Heq.
        rewrite !len_cons. apply le_n_S. by apply (Hmin a' b').
Qed.

Lemma startswith_short (sub A R : string) :
  Str.startswith sub (A +:+ R) = true → Str.len sub ≤ Str.len A →
  Str.startswith sub A = true.
Proof.
  revert A. induction sub as [|o sub IH]; intros A Hs Hlen; [done|].
  destruct A as [|a A]; [rewrite len_cons in Hlen; unfold Str.len in Hlen; simpl in Hlen; lia|].
  cbn [String.append Str.startswith] in *.
  destruct (decide (o = a)); [|done]. rewrite !len_cons in Hlen. apply IH; [done | lia].
Qed.

Lemma find_absent_before (sub A B : string) :
  sub ≠ "" → clear_before sub sub = true → Str.contains sub A = false →
  Str.find sub (A +:+ sub +:+ B) = Some (Str.len A).
Proof.
  intros Hne Hclear. induction A as [|c A IH]; intros Habs.
  - rewrite find_unfold. cbn [String.append]. by rewrite startswith_append.
  - rewrite contains_cons in Habs. apply orb_false_iff in Habs as [Hhere Habs].
    rewrite find_unfold.
    destruct (Str.startswith sub (String c A +:+ sub +:+ B)) eqn:E.
    + exfalso. assert (Str.len sub ≤ Str.len (String c A)) as Hlen.
      { destruct sub as [|o sub]; [done|].
        cbn [String.append Str.startswith] in E.
        destruct (decide (o = c)); [|done]. rewrite !len_cons. apply le_n_S.
        by apply (startswith_within sub A (String o sub) B). }
      rewrite (startswith_short _ _ _ E Hlen) in Hhere. done.
    + cbn [String.append]. by rewrite IH, len_cons.
Qed.

Lemma related_sym (u k : string) : related u k = related k u.
Proof. unfold related. apply orb_comm. Qed.

Lemma contains_after_clear (sub u B : string) :
  forallb (λ u', negb (related u' sub)) (tails u) = true →
  Str.contains sub B = false →
  Str.contains sub (u +:+ B) = false.
Proof.
  intros Hclear HB. induction u as [|c u IH]; [done|].
  cbn [tails forallb] in Hclear. apply andb_true_iff in Hclear as [Hrel Hclear].
  apply negb_true_iff in Hrel. rewrite related_sym in Hrel.
  cbn [String.append]. rewrite contains_cons. apply orb_false_iff. split.
  - by apply (not_related_startswith sub (String c u) B).
  - by apply IH.
Qed.

Lemma rfind_None (sub s : string) :
  Str.contains sub s = false → Str.rfind sub s = None.
Proof.
  induction s as [|c r IH]; intros H.
  - cbn in *. by rewrite orb_false_r in H; rewrite H.
  - rewrite contains_cons in H. apply orb_false_iff in H as [H1 H2].
    cbn [Str.rfind]. by rewrite (IH H2), H1.
Qed.

Lemma rfind_absent_after (sub A B : string) :
  sub ≠ "" → clear_before sub sub = true → Str.contains sub B = false →
  Str.rfind sub (A +:+ sub +:+ B) = Some (Str.len A).
Proof.
  intros Hne Hclear Habs. induction A as [|c A IH].
  - cbn [String.append]. destruct sub as [|o sub]; [done|].
    cbn [String.append Str.rfind].
    rewrite rfind_None; [|by apply contains_after_clear].
    change (String o (sub +:+ B)) with (String o sub +:+ B).
    by rewrite startswith_append.
  - cbn [String.append Str.rfind]. by rewrite IH, len_cons.
Qed.

(** ** The steps of the message-holder transformer *)

Lemma drop_app_len (a b : string) (n : nat) :
  Str.drop (Str.len a + n) (a +:+ b) = Str.drop n b.
Proof. induction a as [|c a IH]; [done|]. by rewrite len_cons. Qed.

Lemma index_absent_before (sub A B : string) :
  sub ≠ "" → clear_before sub sub = true → ¬ occurs sub A →
  index sub (A +:+ sub +:+ B) = Ok (Str.len A).
Proof.
  intros Hne Hclear Habs%contains_false. unfold index.
  by rewrite find_absent_before.
Qed.

Lemma replace_static_constructor_block (A B C : string) :
  ¬ occurs "static {" A → ¬ occurs "}" B →
  replace_static_constructor_with_resolver (A +:+ "static {" +:+ B +:+ "}" +:+ C)
  = Ok (A +:+ resolver_declaration +:+ C).
Proof.
  intros HA HB. unfold replace_static_constructor_with_resolver.
  rewrite index_absent_before; [|done|done|done]. cbn [rbind].
  rewrite drop_app_len, (drop_append "static {").
  rewrite index_absent_before; [|done|done|done]. cbn [rbind].
  rewrite take_append. do 2 f_equal.
  rewrite <- !Nat.add_assoc, drop_app_len.
  rewrite (drop_app_len "static {"), (drop_app_len B).
  done.
Qed.

Lemma replace_static_constructor_unclosed (A B : string) :
  ¬ occurs "static {" A → ¬ occurs "}" B →
  replace_static_constructor_with_resolver (A +:+ "static {" +:+ B)
  = Raise (ValueError ["substring not found"]).
Proof.
  intros HA HB. unfold replace_static_constructor_with_resolver.
  rewrite index_absent_before; [|done|done|done]. cbn [rbind].
  rewrite drop_app_len, (drop_append "static {").
  unfold index. apply contains_false in HB. apply find_None in HB. by rewrite HB.
Qed.

Lemma add_import_to_string_first (A B existing_import : string) :
  (∀ a b, A +:+ existing_import +:+ B = a +:+ existing_import +:+ b →
          Str.len A ≤ Str.len a) →
  add_import_to_string (A +:+ existing_import +:+ B) existing_import
  = Ok (A +:+ resolver_imports +:+ existing_import +:+ B).
Proof.
  intros Hfirst. unfold add_import_to_string. rewrite (find_first _ _ _ Hfirst).
  by rewrite take_append, drop_append.
Qed.

Lemma add_import_to_string_absent (content existing_import : string) :
  ¬ occurs existing_import content →
  add_import_to_string content existing_import = Raise (NameError "filepath").
Proof.
  intros H%contains_false%find_None. unfold add_import_to_string. by rewrite H.
Qed.

Lemma add_to_end_of_last_class_last (A B block : string) :
  ¬ occurs closing_brace B →
  add_to_end_of_last_class (A +:+ closing_brace +:+ B) block
  = Ok (A +:+ block +:+ closing_brace +:+ B).
Proof.
  intros HB%contains_false. unfold add_to_end_of_last_class, rindex.
  fold closing_brace. rewrite rfind_absent_after; [|done|done|done]. cbn [rbind].
  by rewrite take_append, drop_append.
Qed.

Lemma add_to_end_of_last_class_absent (content block : string) :
  ¬ occurs closing_brace content →
  add_to_end_of_last_class content block = Raise (ValueError ["substring not found"]).
Proof.
  intros H%contains_false%rfind_None. unfold add_to_end_of_last_class, rindex.
  fold closing_brace. by rewrite H.
Qed.

Lemma rewrite_NLS_Messages_file_steps (w : world) (filepath : string)
    (variablelines : list string) (content : string) :
  files w !! filepath = Some content →
  rewrite_NLS_Messages_file filepath variablelines w
  = let kept := kept_lines variablelines content in
    let w1 := with_file w filepath kept in
    match replace_static_constructor_with_resolver kept with
    | Raise (ValueError _) =>
        (Ok false,
         World (files w1)
               (records w1 ++ [(WARNING, "No static block found in file " +:+ filepath)]))
    | Raise e => (Raise e, w1)
    | Ok r1 =>
        match add_import_to_string r1 NLS_import with
        | Raise e => (Raise e, w1)
        | Ok r2 =>
            match add_to_end_of_last_class r2 TEMPLATE_GETSTRING with
            | Raise e => (Raise e, w1)
            | Ok r3 =>
                let rewritten := Str.replace (cleanup_empty_lines r3) " extends NLS" "" in
                let changed :=
                  bool_decide (Exists (λ i, i ∈ (list_to_set variablelines : gset string))
                                      (lines_no_nl content))
                  || bool_decide (rewritten ≠ kept) in
                (Ok changed, if changed then with_file w1 filepath rewritten else w1)
            end
        end
    end.
Proof.
  intros Hfile. unfold rewrite_NLS_Messages_file.
  unfold mbind, M_bind, bind at 1.
  rewrite (remove_lines_from_file_run _ _ _ _ Hfile).
  unfold bind at 1. unfold read_file. cbn [files records]. rewrite lookup_insert_eq.
  cbn zeta. fold (with_file w filepath (kept_lines variablelines content)).
  destruct (replace_static_constructor_with_resolver _) as [r1|e]; [|by destruct e].
  unfold mbind, M_bind, bind, lift, mret, M_ret, ret, write_file. fold NLS_import.
  destruct (add_import_to_string r1 NLS_import) as [r2|e]; [|done].
  destruct (add_to_end_of_last_class r2 TEMPLATE_GETSTRING) as [r3|e]; [|done].
  by destruct (_ || _).
Qed.

(** ** Characters of a text *)

Lemma any_char_app (P : ascii → bool) (a b : string) :
  any_char P (a +:+ b) = any_char P a || any_char P b.
Proof.
  induction a as [|x a IH]; [done|]. cbn [String.append any_char].
  by rewrite IH, orb_assoc.
Qed.

Lemma rfind_char_last (c : ascii) (A B : string) :
  has_char c B = false →
  Str.rfind (String c "") (A +:+ String c B) = Some (Str.len A).
Proof.
  intros H. change (String c B) with (String c "" +:+ B).
  apply rfind_absent_after; [done | done | by rewrite contains_char].
Qed.

Lemma rfind_char_None (c : ascii) (s : string) :
  has_char c s = false → Str.rfind (String c "") s = None.
Proof. intros H. apply rfind_None. by rewrite contains_char. Qed.

(** ** The class name of a file *)

Lemma basename_of_path (dir name : string) :
  has_char "/" name = false → basename (dir +:+ "/" +:+ name) = name.
Proof.
  intros H. unfold basename.
  change ("/" +:+ name) with (String "/" name). rewrite (rfind_char_last _ _ _ H).
  rewrite <- Nat.add_1_r, drop_app_len. done.
Qed.

Lemma basename_of_name (name : string) :
  has_char "/" name = false → basename name = name.
Proof. intros H. unfold basename. by rewrite (rfind_char_None _ _ H). Qed.

Lemma has_nondot_before_name (name rest : string) :
  has_nondot_before (Str.len name) (name +:+ rest) = negb (all_char is_dot name).
Proof.
  induction name as [|c name IH]; [done|].
  rewrite len_cons. cbn [String.append has_nondot_before all_char]. unfold is_dot at 1.
  destruct (decide (c = "."%char)) as [->|Hc].
  - by rewrite bool_decide_eq_true_2.
  - by rewrite bool_decide_eq_false_2.
Qed.

Lemma splitext_root_ext (name ext : string) :
  has_char "." ext = false → all_char is_dot name = false →
  splitext_root (name +:+ "." +:+ ext) = name.
Proof.
  intros Hext Hname. unfold splitext_root.
  change ("." +:+ ext) with (String "." ext). rewrite (rfind_char_last _ _ _ Hext).
  by rewrite has_nondot_before_name, Hname, take_append.
Qed.

Lemma splitext_root_no_dot (name : string) :
  has_char "." name = false → splitext_root name = name.
Proof. intros H. unfold splitext_root. by rewrite (rfind_char_None _ _ H). Qed.

Lemma splitext_root_hidden (name : string) :
  has_char "." name = false → splitext_root ("." +:+ name) = "." +:+ name.
Proof.
  intros H. unfold splitext_root.
  change ("." +:+ name) with ("" +:+ String "." name). by rewrite (rfind_char_last _ _ _ H).
Qed.

(** ** The variable of a declaration line *)

Lemma split_ws_go_tokens (cur s t : string) :
  any_char Str.is_space cur = false → t ∈ Str.split_ws_go cur s →
  any_char Str.is_space t = false ∧ t ≠ "".
Proof.
  revert cur. induction s as [|c r IH]; intros cur Hcur Ht; cbn [Str.split_ws_go] in Ht.
  - destruct cur; [by apply elem_of_nil in Ht|].
    by apply list_elem_of_singleton in Ht as ->.
  - destruct (Str.is_space c) eqn:Hc.
    + destruct cur as [|x cur]; [by apply (IH "")|].
      apply elem_of_cons in Ht as [->|Ht]; [done | by apply (IH "")].
    + apply (IH (cur +:+ String c "")); [|done].
      rewrite any_char_app, Hcur. cbn. by rewrite Hc.
Qed.

Lemma split_ws_tokens (s t : string) :
  t ∈ Str.split_ws s → any_char Str.is_space t = false ∧ t ≠ "".
Proof. by apply split_ws_go_tokens. Qed.

Lemma element_after_String_Ok (elements : list string) (v : string) :
  element_after_String elements = Ok v →
  ∃ pre post, elements = pre ++ "String" :: v :: post ∧ "String" ∉ pre.
Proof.
  induction elements as [|e rest IH]; [done|]. cbn [element_after_String].
  destruct (decide (e = "String")) as [->|He].
  - destruct rest as [|v' post]; [done|]. intros [= ->].
    exists [], post. split; [done | apply not_elem_of_nil].
  - intros (pre & post & -> & Hpre)%IH. exists (e :: pre), post. split; [done|].
    intros [?|?]%elem_of_cons; [congruence | done].
Qed.

Lemma element_after_String_last (pre : list string) :
  "String" ∉ pre → element_after_String (pre ++ ["String"]) = Raise IndexError.
Proof.
  induction pre as [|e pre IH]; intros Hpre; [done|].
  cbn [app element_after_String]. destruct (decide (e = "String")) as [->|He].
  - exfalso. apply Hpre. by left.
  - apply IH. intros H. apply Hpre. by right.
Qed.

Lemma replace_char_removed (c : ascii) (s : string) :
  has_char c (Str.replace s (String c "") "") = false.
Proof.
  unfold Str.replace. induction s as [|x s IH]; [done|].
  rewrite replace_char_unfold. destruct (bool_decide (c = x)) eqn:E; [done|].
  cbn [has_char]. rewrite IH, orb_false_r.
  apply bool_decide_eq_false in E. apply bool_decide_eq_false. congruence.
Qed.

Lemma replace_char_any (P : ascii → bool) (c : ascii) (s : string) :
  any_char P s = false → any_char P (Str.replace s (String c "") "") = false.
Proof.
  unfold Str.replace. induction s as [|x s IH]; [done|]. cbn [any_char].
  intros [Hx Hs]%orb_false_iff. rewrite replace_char_unfold.
  destruct (bool_decide (c = x)); [by apply IH|].
  cbn [any_char]. by rewrite Hx, IH.
Qed.

(** ** The package of a holder file *)

Lemma all_space_no_char (c : ascii) (s : string) :
  Str.is_space c = false → all_char Str.is_space s = true → has_char c s = false.
Proof.
  intros Hc. induction s as [|x s IH]; [done|]. cbn [all_char has_char].
  intros [Hx Hs]%andb_true_iff. rewrite (IH Hs), orb_false_r.
  apply bool_decide_eq_false. intros ->. congruence.
Qed.

Lemma lstrip_all_space (s : string) :
  all_char Str.is_space s = true → Str.lstrip s = "".
Proof.
  induction s as [|x s IH]; [done|]. cbn [all_char Str.lstrip].
  intros [Hx Hs]%andb_true_iff. rewrite Hx. by apply IH.
Qed.

Lemma lstrip_no_space (s r : string) :
  any_char Str.is_space s = false → s ≠ "" → Str.lstrip (s +:+ r) = s +:+ r.
Proof.
  destruct s as [|x s]; [done|]. cbn [any_char String.append Str.lstrip].
  intros [Hx _]%orb_false_iff _. by rewrite Hx.
Qed.

Lemma rstrip_all_space (s : string) :
  all_char Str.is_space s = true → Str.rstrip s = "".
Proof.
  induction s as [|x s IH]; [done|]. cbn [all_char Str.rstrip].
  intros [Hx Hs]%andb_true_iff. by rewrite (IH Hs), Hx.
Qed.

Lemma rstrip_no_space (s : string) :
  any_char Str.is_space s = false → Str.rstrip s = s.
Proof.
  induction s as [|x s IH]; [done|]. cbn [any_char Str.rstrip].
  intros [Hx Hs]%orb_false_iff. rewrite (IH Hs), Hx. by destruct s.
Qed.

Lemma rstrip_app_space (s ws : string) :
  any_char Str.is_space s = false → all_char Str.is_space ws = true →
  Str.rstrip (s +:+ ws) = s.
Proof.
  intros Hs Hws. induction s as [|x s IH].
  - by apply rstrip_all_space.
  - cbn [any_char] in Hs. apply orb_false_iff in Hs as [Hx Hs].
    cbn [String.append Str.rstrip]. rewrite (IH Hs), Hx. by destruct s.
Qed.

Lemma strip_app_space (s ws : string) :
  any_char Str.is_space s = false → all_char Str.is_space ws = true →
  Str.strip (s +:+ ws) = s.
Proof.
  intros Hs Hws. unfold Str.strip. destruct (decide (s = "")) as [->|Hne].
  - cbn [String.append]. by rewrite lstrip_all_space.
  - rewrite lstrip_no_space; [|done|done]. by apply rstrip_app_space.
Qed.

Lemma NLS_package_lines_found (filepath : string) (pre post : list string)
    (name eol : string) :
  Forall (λ i, Str.startswith "package " i = false) pre →
  has_char ";" name = false → any_char Str.is_space name = false →
  all_char Str.is_space eol = true →
  NLS_package_lines filepath (pre ++ ("package " +:+ name +:+ ";" +:+ eol) :: post)
  = Ok name.
Proof.
  intros Hpre Hsemi Hname Heol. induction Hpre as [|i pre Hi _ IH].
  - cbn [app NLS_package_lines]. rewrite startswith_append, drop_append.
    change (";" +:+ eol) with (String ";" "" +:+ eol).
    rewrite !replace_char_app, (replace_char_absent _ _ name Hsemi).
    rewrite (replace_char_absent _ _ eol); [|by apply all_space_no_char].
    change (Str.replace (String ";" "") (String ";" "") "") with "".
    cbn [String.append]. by rewrite strip_app_space.
  - cbn [app NLS_package_lines]. by rewrite Hi.
Qed.

(** ** The rules that are built *)

Lemma patterns_of_lines_rules (fap : gmap string string) (p pkg : string)
    (lines : list string) (acc : list rule) :
  lines = [] ∨ fap !! p = Some pkg →
  (∀ line, line ∈ lines → ∃ v, line_to_variable line = Ok v) →
  ∃ new, patterns_of_lines fap p lines acc = Ok (acc ++ new)
    ∧ length new = length lines
    ∧ ∀ r, r ∈ new ↔ ∃ line v, line ∈ lines ∧ line_to_variable line = Ok v
                               ∧ r = rule_of p pkg v.
Proof.
  revert acc. induction lines as [|line lines IH]; intros acc Hpkg Hvalid.
  - exists []. split_and!; [by rewrite app_nil_r | done |].
    intros r. split; [by intros ?%elem_of_nil|].
    by intros (line & v & ?%elem_of_nil & _).
  - destruct Hpkg as [?|Hpkg]; [done|].
    destruct (Hvalid line) as [v Hv]; [by left|].
    destruct (IH (acc ++ [rule_of p pkg v])) as (new & Hrun & Hlen & Hin).
    { by right. } { intros l Hl. apply Hvalid. by right. }
    exists (rule_of p pkg v :: new). split_and!.
    + cbn [patterns_of_lines]. rewrite Hv. cbn [rbind]. rewrite Hpkg.
      unfold rule_of in Hrun. rewrite Hrun. by rewrite <- app_assoc.
    + cbn [length]. by rewrite Hlen.
    + intros r. rewrite elem_of_cons, Hin. split.
      * intros [->|(l & v' & Hl & Hv' & ->)].
        -- exists line, v. split_and!; [by left | done | done].
        -- exists l, v'. split_and!; [by right | done | done].
      * intros (l & v' & Hl & Hv' & ->). apply elem_of_cons in Hl as [->|Hl].
        -- left. congruence.
        -- right. by exists l, v'.
Qed.

Lemma patterns_of_items_rules (fap : gmap string string)
    (items : list (string * list string)) (acc : list rule) :
  (∀ p lines, (p, lines) ∈ items →
     (lines = [] ∨ is_Some (fap !! p))
     ∧ ∀ line, line ∈ lines → ∃ v, line_to_variable line = Ok v) →
  ∃ new, patterns_of_items fap items acc = Ok (acc ++ new)
    ∧ length new = sum_list_with (λ kv : string * list string, length kv.2) items
    ∧ ∀ r, r ∈ new ↔ ∃ p lines line pkg v,
              (p, lines) ∈ items ∧ line ∈ lines ∧ fap !! p = Some pkg
              ∧ line_to_variable line = Ok v ∧ r = rule_of p pkg v.
Proof.
  revert acc. induction items as [|[p lines] items IH]; intros acc Hall.
  - exists []. split_and!; [by rewrite app_nil_r | done |].
    intros r. split; [by intros ?%elem_of_nil|].
    by intros (? & ? & ? & ? & ? & ?%elem_of_nil & _).
  - destruct (Hall p lines) as [Hpkg Hvalid]; [by left|].
    assert (∃ pkg, lines = [] ∨ fap !! p = Some pkg) as [pkg Hpkg'].
    { destruct Hpkg as [->|[pkg Hpkg]]; [exists ""; by left | exists pkg; by right]. }
    destruct (patterns_of_lines_rules fap p pkg lines acc Hpkg' Hvalid)
      as (new1 & Hrun1 & Hlen1 & Hin1).
    destruct (IH (acc ++ new1)) as (new2 & Hrun2 & Hlen2 & Hin2).
    { intros q ls Hq. apply Hall. by right. }
    exists (new1 ++ new2). split_and!.
    + cbn [patterns_of_items]. rewrite Hrun1. cbn [rbind]. rewrite Hrun2.
      by rewrite <- app_assoc.
    + rewrite length_app, Hlen1, Hlen2. done.
    + intros r. rewrite elem_of_app, Hin1, Hin2. split.
      * intros [(line & v & Hl & Hv & ->)|(q & ls & line & pk & v & Hq & Hl & Hpk & Hv & ->)].
        -- destruct Hpkg' as [->|Hpk]; [by apply elem_of_nil in Hl|].
           exists p, lines, line, pkg, v. split_and!; [by left | done..].
        -- exists q, ls, line, pk, v. split_and!; [by right | done..].
      * intros (q & ls & line & pk & v & Hq & Hl & Hpk & Hv & ->).
        apply elem_of_cons in Hq as [[= -> ->]|Hq].
        -- left. destruct Hpkg' as [->|Hpk']; [by apply elem_of_nil in Hl|].
           exists line, v. split_and!; [done | done | congruence].
        -- right. by exists q, ls, line, pk, v.
Qed.

Lemma sorted_items_elem (fal : gmap string (list string)) (p : string)
    (lines : list string) :
  (p, lines) ∈ sorted_items fal ↔ fal !! p = Some lines.
Proof.
  unfold sorted_items, str_le.
  by rewrite (sorted_perm fst Str.compare), elem_of_map_to_list.
Qed.

Lemma patterns_of_lines_no_package (fap : gmap string string) (p line : string)
    (lines : list string) (acc : list rule) :
  fap !! p = None → (∃ v, line_to_variable line = Ok v) →
  patterns_of_lines fap p (line :: lines) acc = Raise (KeyError p).
Proof.
  intros Hp [v Hv]. cbn [patterns_of_lines]. rewrite Hv. cbn [rbind]. by rewrite Hp.
Qed.

Lemma patterns_of_items_no_package (fap : gmap string string)
    (items : list (string * list string)) (acc : list rule) :
  (∀ p lines line, (p, lines) ∈ items → line ∈ lines →
     ∃ v, line_to_variable line = Ok v) →
  (∃ p lines, (p, lines) ∈ items ∧ lines ≠ [] ∧ fap !! p = None) →
  ∃ p lines, (p, lines) ∈ items ∧ lines ≠ [] ∧ fap !! p = None
    ∧ patterns_of_items fap items acc = Raise (KeyError p).
Proof.
  revert acc. induction items as [|[p lines] items IH]; intros acc Hvalid Hbad.
  - by destruct Hbad as (? & ? & ?%elem_of_nil & _).
  - destruct lines as [|line lines].
    + destruct (IH acc) as (q & ls & Hq & Hne & Hnone & Hrun).
      { intros q ls l Hq Hl. apply (Hvalid q ls); [by right | done]. }
      { destruct Hbad as (q & ls & Hq & Hne & Hnone).
        apply elem_of_cons in Hq as [[= -> ->]|Hq]; [done | by exists q, ls]. }
      exists q, ls. split_and!; [by right | done | done | done].
    + destruct (fap !! p) as [pkg|] eqn:Hp.
      * destruct (patterns_of_lines_rules fap p pkg (line :: lines) acc)
          as (new & Hrun & _);
          [by right | intros l Hl; apply (Hvalid p (line :: lines)); [by left | done] |].
        destruct (IH (acc ++ new)) as (q & ls & Hq & Hne & Hnone & Hrun').
        { intros q ls l Hq Hl. apply (Hvalid q ls); [by right | done]. }
        { destruct Hbad as (q & ls & Hq & Hne & Hnone).
          apply elem_of_cons in Hq as [[= -> ->]|Hq]; [congruence | by exists q, ls]. }
        exists q, ls. split_and!; [by right | done | done |].
        cbn [patterns_of_items]. rewrite Hrun. done.
      * exists p, (line :: lines). split_and!; [by left | done | done |].
        cbn [patterns_of_items]. rewrite patterns_of_lines_no_package; [done | done |].
        apply (Hvalid p (line :: lines)); by left.
Qed.

(** ** Texts that hold no trigger *)

Lemma startswith_contains (sub s : string) :
  Str.startswith sub s = true → Str.contains sub s = true.
Proof. intros H. destruct s; cbn [Str.contains]; by rewrite H. Qed.

Lemma withoutdot_here_contains (V s : string) :
  withoutdot_here V s = true → Str.contains V s = true.
Proof.
  destruct s as [|c r]; [done|]. cbn [withoutdot_here].
  intros [[_ H]%andb_true_iff _]%andb_true_iff.
  rewrite contains_cons, (startswith_contains _ _ H). apply orb_true_r.
Qed.

Lemma atstart_here_contains (V s : string) :
  atstart_here V s = true → Str.contains V s = true.
Proof.
  destruct s as [|c r]; [done|]. cbn [atstart_here].
  intros [_ H]%andb_true_iff.
  rewrite contains_cons, (startswith_contains _ _ H). apply orb_true_r.
Qed.

Lemma pass_go_absent (V T s : string) :
  Str.contains V s = false → pass_go V T 0 s = s.
Proof.
  induction s as [|c r IH]; intros H; [done|]. rewrite pass_go_cons.
  destruct (withoutdot_here V (String c r)) eqn:E.
  - apply withoutdot_here_contains in E. congruence.
  - rewrite contains_cons in H. apply orb_false_iff in H as [_ H]. by rewrite IH.
Qed.

Lemma regex_replace_variable_safely_absent (content V T : string) :
  Str.contains V content = false → Literal.regex_replace_variable_safely content V T = content.
Proof.
  intros H. rewrite regex_replace_variable_safely_eq. cbv zeta.
  rewrite (pass_go_absent _ _ _ H).
  destruct (atstart_here V content) eqn:E; [|done].
  apply atstart_here_contains in E. congruence.
Qed.

Lemma replace_NLS_usage_qualified_only (c : string) (r : rule) :
  Str.contains (staticimportvariable r) c = false →
  Str.contains (staticimportstar r) c = false →
  Str.contains (staticimportstar r) (Str.replace c (FROM r) (TO r)) = false →
  Literal.replace_NLS_usage c [r] = Str.replace c (FROM r) (TO r).
Proof.
  intros Hv Hs Hs'. unfold Literal.replace_NLS_usage. cbn [foldl]. unfold Literal.usage_step.
  rewrite found_Lit, Hv, andb_false_r. cbv beta iota zeta.
  rewrite found_Lit, Hs. cbn [andb]. cbv beta iota zeta.
  rewrite (bool_decide_eq_true_2 (FROM r ∉ (∅ : gset string))) by apply not_elem_of_empty.
  cbn [andb]. destruct (Str.contains (FROM r) c) eqn:Hf.
  - unfold Literal.star_step. by rewrite found_Lit, Hs'.
  - rewrite (replace_absent _ _ _ Hf) in *. unfold Literal.star_step. by rewrite found_Lit, Hs.
Qed.

(** ** Files that are rewritten *)

Lemma replace_patterns_in_file_run (w : world) (filepath content newcontent : string)
    (patterns : list rule) :
  files w !! filepath = Some content →
  replace_NLS_usage content patterns = Ok newcontent →
  replace_patterns_in_file filepath patterns w
  = (Ok (bool_decide (newcontent ≠ content)), with_file w filepath newcontent).
Proof.
  intros Hfile Hnew. unfold replace_patterns_in_file.
  unfold mbind, M_bind, bind, mret, M_ret, ret, read_file, write_file, lift.
  rewrite Hfile, Hnew.
  destruct (decide (newcontent = content)) as [E|E].
  - rewrite bool_decide_eq_false_2 by (intros H; by apply H).
    rewrite E. unfold with_file. by rewrite world_insert_id.
  - by rewrite bool_decide_eq_true_2.
Qed.

(** When the engine raises, the file is not written. *)
Lemma replace_patterns_in_file_raises (w : world) (filepath content : string)
    (patterns : list rule) (e : exn) :
  files w !! filepath = Some content →
  replace_NLS_usage content patterns = Raise e →
  replace_patterns_in_file filepath patterns w = (Raise e, w).
Proof.
  intros Hfile Hnew. unfold replace_patterns_in_file.
  unfold mbind, M_bind, bind, read_file, lift. by rewrite Hfile, Hnew.
Qed.

Lemma replace_patterns_in_file_missing (w : world) (filepath : string)
    (patterns : list rule) :
  files w !! filepath = None →
  replace_patterns_in_file filepath patterns w = (Raise (FileNotFoundError filepath), w).
Proof.
  intros Hfile. unfold replace_patterns_in_file.
  unfold mbind, M_bind, bind, read_file. by rewrite Hfile.
Qed.

Lemma replace_patterns_in_filelist_cons (i : string) (rest : list string)
    (patterns : list rule) (w : world) :
  replace_patterns_in_filelist (i :: rest) patterns w
  = match replace_patterns_in_file i patterns w with
    | (Ok b, w1) =>
        match replace_patterns_in_filelist rest patterns w1 with
        | (Ok bs, w2) => (Ok (b :: bs), w2)
        | (Raise e, w2) => (Raise e, w2)
        end
    | (Raise e, w1) => (Raise e, w1)
    end.
Proof.
  unfold replace_patterns_in_filelist. cbn [mapM]. unfold mbind, M_bind, bind at 1.
  destruct (replace_patterns_in_file i patterns w) as [[b|e] w1]; [|done].
  unfold bind. by destruct (mapM (M := M) _ rest w1) as [[bs|e] w2].
Qed.

Lemma replace_patterns_in_filelist_stops (done_ rest : list string) (missing : string)
    (patterns : list rule) (w : world) :
  Forall plain_rule patterns →
  (∀ p, p ∈ done_ → is_Some (files w !! p)) →
  files w !! missing = None →
  ∃ flags w',
    replace_patterns_in_filelist done_ patterns w = (Ok flags, w')
    ∧ replace_patterns_in_filelist (done_ ++ missing :: rest) patterns w
      = (Raise (FileNotFoundError missing), w').
Proof.
  intros Hplain. revert w. induction done_ as [|p done_ IH]; intros w Hall Hmiss.
  - exists [], w. split; [done|]. cbn [app].
    by rewrite replace_patterns_in_filelist_cons, replace_patterns_in_file_missing.
  - destruct (Hall p) as [c Hc]; [by left|].
    destruct (IH (with_file w p (Literal.replace_NLS_usage c patterns)))
      as (flags & w' & H1 & H2).
    { intros q Hq. cbn [with_file files]. apply lookup_insert_is_Some'. right.
      apply Hall. by right. }
    { cbn [with_file files]. rewrite lookup_insert_ne; [done|]. intros ->. congruence. }
    eexists _, w'. cbn [app].
    rewrite !replace_patterns_in_filelist_cons.
    rewrite (replace_patterns_in_file_run _ _ _ _ _ Hc
               (replace_NLS_usage_plain c patterns Hplain)).
    by rewrite H1, H2.
Qed.

(** ** Blank lines at the end, and a second pass *)

Lemma split_app_nl (a b : string) :
  Str.split nl (a +:+ String nl b) = Str.split nl a ++ Str.split nl b.
Proof.
  induction a as [|c a IH]; cbn [String.append Str.split].
  - by rewrite decide_True.
  - destruct (decide (c = nl)); [by rewrite IH|].
    rewrite IH. destruct (Str.split nl a) as [|l ls] eqn:E; [by apply split_not_nil in E|].
    done.
Qed.

Lemma split_line_feeds (k : nat) : Str.split nl (line_feeds k) = replicate (S k) "".
Proof.
  induction k as [|k IH]; [done|]. cbn [line_feeds Str.split].
  by rewrite decide_True, IH.
Qed.

Lemma split_app_line_feeds (c : string) (k : nat) :
  Str.split nl (c +:+ line_feeds (S k)) = Str.split nl c ++ replicate (S k) "".
Proof. cbn [line_feeds]. by rewrite split_app_nl, split_line_feeds. Qed.

Lemma join_snoc (sep : string) (xs : list string) (x : string) :
  xs ≠ [] → Str.join sep (xs ++ [x]) = Str.join sep xs +:+ sep +:+ x.
Proof.
  induction xs as [|y xs IH]; [done|]. intros _. destruct xs as [|z xs]; [done|].
  change (Str.join sep ((y :: z :: xs) ++ [x]))
    with (y +:+ sep +:+ Str.join sep ((z :: xs) ++ [x])).
  rewrite IH by done.
  change (Str.join sep (y :: z :: xs)) with (y +:+ sep +:+ Str.join sep (z :: xs)).
  by rewrite !append_assoc.
Qed.

Lemma join_split (s : string) : Str.join (String nl "") (Str.split nl s) = s.
Proof.
  induction s as [|c s IH]; [done|]. cbn [Str.split].
  destruct (decide (c = nl)) as [->|Hc].
  - destruct (Str.split nl s) as [|l ls] eqn:E; [by apply split_not_nil in E|].
    change (Str.join (String nl "") ("" :: l :: ls))
      with ("" +:+ String nl "" +:+ Str.join (String nl "") (l :: ls)).
    by rewrite IH.
  - destruct (Str.split nl s) as [|l ls] eqn:E; [by apply split_not_nil in E|].
    rewrite <- IH. by destruct ls.
Qed.

Lemma cleanup_lines_not_nil (ls : list string) : ls ≠ [] → cleanup_lines ls ≠ [].
Proof.
  destruct ls as [|l ls]; [done|]. intros _.
  by destruct (cleanup_lines_first l ls) as [out ->].
Qed.

Lemma blank_empty : blank "".
Proof. done. Qed.

Lemma cleanup_empty_lines_blank_end (c : string) (k : nat) :
  last_line_not_blank c →
  cleanup_empty_lines (c +:+ line_feeds (S k))
  = cleanup_empty_lines c +:+ line_feeds (if decide (k = 0 ∨ k = 1) then 1 else 2).
Proof.
  intros Hlast. unfold cleanup_empty_lines at 1. rewrite split_app_line_feeds.
  assert (Hne : cleanup_lines (Str.split nl c) ≠ [])
    by apply cleanup_lines_not_nil, split_not_nil.
  assert (Hblank : Forall blank (replicate (S k) "")).
  { apply Forall_forall. by intros x [-> _]%elem_of_replicate. }
  destruct (decide (k = 0 ∨ k = 1)) as [[->| ->]|Hk].
  - cbn [replicate] in *.
    rewrite (cleanup_lines_run_end _ [""] Hlast Hblank); [|right; cbn; lia].
    cbn [take]. by rewrite join_snoc.
  - cbn [replicate].
    rewrite (cleanup_lines_two_at_end _ "" "" Hlast blank_empty blank_empty).
    by rewrite join_snoc.
  - rewrite (cleanup_lines_run_end _ _ Hlast Hblank);
      [|left; rewrite length_replicate; lia].
    destruct k as [|[|k]]; [lia | lia |]. cbn [replicate take].
    change [""; ""] with ([""] ++ [""]). rewrite app_assoc.
    rewrite join_snoc; [|by destruct (cleanup_lines _)].
    rewrite join_snoc by done. unfold cleanup_empty_lines.
    by rewrite !append_assoc.
Qed.

Lemma blank_runs_ok_prefix (c : nat) (l1 l2 : list string) :
  blank_runs_ok c (l1 ++ l2) → blank_runs_ok c l1.
Proof.
  revert c. induction l1 as [|l l1 IH]; intros c; [done|].
  cbn [app blank_runs_ok]. destruct (bool_decide (blank l)).
  - intros [H1 H2]. split; [done | by apply IH].
  - apply IH.
Qed.

Lemma no_three_blank_runs_ok (bs ls : list string) :
  length bs ≤ 2 → Forall blank bs → no_three_blank (bs ++ ls) →
  blank_runs_ok (length bs) ls.
Proof.
  revert bs. induction ls as [|l ls IH]; intros bs Hlen Hbs Hno; [done|].
  cbn [blank_runs_ok]. destruct (bool_decide (blank l)) eqn:Hl.
  - apply bool_decide_eq_true in Hl.
    assert (length bs < 2) as Hlt.
    { destruct bs as [|x [|y [|z bs]]]; cbn [length] in *; [lia | lia | | lia].
      exfalso. apply (Hno [] x y l ls eq_refl).
      apply Forall_cons in Hbs as [Hx Hbs]. apply Forall_cons in Hbs as [Hy _]. done. }
    split; [done|].
    replace (S (length bs)) with (length (bs ++ [l])) by (rewrite length_app; cbn; lia).
    apply IH.
    + rewrite length_app; cbn; lia.
    + apply Forall_app. split; [done | by constructor].
    + by rewrite <- app_assoc.
  - apply (IH []); [cbn; lia | done |].
    intros l1 a b c l2 Heq. apply (Hno (bs ++ l :: l1) a b c l2).
    cbn [app] in Heq. rewrite Heq. by rewrite <- app_assoc.
Qed.

Lemma cleanup_loop_fixed (n idx : nat) (pp p : option string) (ls : list string) :
  n = idx + length ls →
  blank_runs_ok (blanks_before pp p) ls →
  ¬ ends_two_blank (option_list p ++ ls) →
  cleanup_loop n idx pp p ls = ls.
Proof.
  revert idx pp p. induction ls as [|l ls IH]; intros idx pp p Hn Hok Hend; [done|].
  rewrite cleanup_loop_cons. cbn [length] in Hn.
  assert (Hkeep : negb (blank_before pp && blank_before p && bool_decide (blank l))
                  && (negb (idx =? n - 1)
                      || negb (blank_before p && bool_decide (blank l))) = true).
  { apply andb_true_iff. split.
    - cbn [blank_runs_ok] in Hok. destruct (bool_decide (blank l)); [|by rewrite andb_false_r].
      destruct Hok as [Hc _]. unfold blanks_before in Hc.
      destruct (blank_before p), (blank_before pp); cbn; [lia | done..].
    - destruct (Nat.eqb_spec idx (n - 1)) as [E|E]; [|done]. cbn [negb orb].
      assert (ls = []) as -> by (destruct ls; [done | cbn [length] in Hn; lia]).
      destruct p as [q|]; [|done]. cbn [blank_before].
      destruct (bool_decide (blank q)) eqn:Hq; [|done].
      destruct (bool_decide (blank l)) eqn:Hl; [|done].
      exfalso. apply Hend. exists [], q, l.
      split_and!; [done | by apply bool_decide_eq_true in Hq
                   | by apply bool_decide_eq_true in Hl]. }
  rewrite Hkeep. cbn [app]. f_equal. apply IH.
  - lia.
  - cbn [blank_runs_ok] in Hok. unfold blanks_before in *. cbn [blank_before].
    destruct (bool_decide (blank l)).
    + destruct Hok as [_ Hok]. eapply blank_runs_ok_mono; [|exact Hok].
      destruct (blank_before p), (blank_before pp); lia.
    + done.
  - intros (pre & a & b & Heq & Ha & Hb). apply Hend.
    exists (option_list p ++ pre), a, b. split_and!; [|done|done].
    cbn [option_list app] in Heq. rewrite <- app_assoc, <- Heq. done.
Qed.

Lemma cleanup_lines_fixed (ls : list string) :
  blank_runs_ok 0 ls → ¬ ends_two_blank ls → cleanup_lines ls = ls.
Proof.
  intros Hok Hend. unfold cleanup_lines. by apply cleanup_loop_fixed.
Qed.

Lemma ends_two_blank_snoc (ls : list string) (x : string) :
  ends_two_blank (ls ++ [x]) → blank x ∧ ∃ y, last ls = Some y ∧ blank y.
Proof.
  intros (pre & a & b & Heq & Ha & Hb).
  change [a; b] with ([a] ++ [b]) in Heq. rewrite app_assoc in Heq.
  apply app_inj_tail in Heq as [-> ->]. split; [done|].
  exists a. by rewrite last_snoc.
Qed.

Lemma cleanup_lines_second_pass (ls : list string) :
  blank_runs_ok 0 ls →
  cleanup_lines (cleanup_lines ls) = cleanup_lines ls.
Proof.
  intros Hok.
  assert (Hfixed : ¬ ends_two_blank ls → cleanup_lines (cleanup_lines ls) = cleanup_lines ls).
  { intros Hend. by rewrite !(cleanup_lines_fixed ls Hok Hend). }
  induction ls as [|b ls' _] using rev_ind; [done|].
  destruct (decide (blank b)) as [Hb|Hb].
  2:{ apply Hfixed. by intros [? _]%ends_two_blank_snoc. }
  induction ls' as [|a pre _] using rev_ind.
  { apply Hfixed. by intros [_ (y & ? & _)]%ends_two_blank_snoc. }
  destruct (decide (blank a)) as [Ha|Ha].
  2:{ apply Hfixed. intros [_ (y & Hy & Hby)]%ends_two_blank_snoc.
      rewrite last_snoc in Hy. by injection Hy as <-. }
  clear Hfixed. rewrite <- app_assoc in *. cbn [app] in *.
  assert (Hpre : ∀ x, last pre = Some x → ¬ blank x).
  { intros x Hx Hbx. apply last_Some in Hx as [pre' ->].
    apply blank_runs_ok_no_three in Hok.
    apply (Hok pre' x a b []); [by rewrite <- app_assoc | done]. }
  assert (Hokpre : blank_runs_ok 0 (pre ++ [a])).
  { apply (blank_runs_ok_prefix 0 _ [b]). by rewrite <- app_assoc. }
  assert (Hfix : cleanup_lines pre = pre).
  { apply cleanup_lines_fixed; [by apply (blank_runs_ok_prefix 0 _ [a])|].
    intros (pre' & x & y & -> & Hx & Hy). apply (Hpre y); [|done].
    change [x; y] with ([x] ++ [y]). by rewrite app_assoc, last_snoc. }
  rewrite (cleanup_lines_two_at_end pre a b Hpre Ha Hb), Hfix.
  apply cleanup_lines_fixed; [done|].
  intros [_ (y & Hy & Hby)]%ends_two_blank_snoc. by apply (Hpre y).
Qed.

Lemma cleanup_lines_three_passes (ls : list string) :
  cleanup_lines (cleanup_lines (cleanup_lines ls)) = cleanup_lines (cleanup_lines ls).
Proof.
  apply cleanup_lines_second_pass. apply (cleanup_loop_runs_ok _ 0 None None).
Qed.

(** ** What a run leaves alone *)

Lemma changes_only_refl (S : gset string) (w : world) : changes_only S w w.
Proof. by split_and!. Qed.

Lemma changes_only_trans (S : gset string) (w1 w2 w3 : world) :
  changes_only S w1 w2 → changes_only S w2 w3 → changes_only S w1 w3.
Proof.
  intros (D1 & F1 & R1) (D2 & F2 & R2). split_and!.
  - by rewrite D2.
  - intros p Hp. by rewrite F2, F1.
  - by etrans.
Qed.

Lemma changes_only_mono (S S' : gset string) (w w' : world) :
  S ⊆ S' → changes_only S w w' → changes_only S' w w'.
Proof.
  intros Hsub (D & F & R). split_and!; [done | | done].
  intros p Hp. apply F. intros Hin. apply Hp, Hsub, Hin.
Qed.

Lemma changes_only_with_file (w : world) (p c : string) :
  is_Some (files w !! p) → changes_only {[p]} w (with_file w p c).
Proof.
  intros Hp. split_and!; cbn [with_file files records].
  - apply dom_insert_lookup_L, Hp.
  - intros q Hq. apply lookup_insert_ne. intros ->. apply Hq. by apply elem_of_singleton.
  - done.
Qed.

Lemma changes_only_log (w : world) (S : gset string) (rs : list (level * string)) :
  changes_only S w (World (files w) (records w ++ rs)).
Proof. split_and!; [done | done | by apply prefix_app_r]. Qed.

Lemma rewrite_NLS_Messages_file_missing (w : world) (filepath : string)
    (variablelines : list string) :
  files w !! filepath = None →
  rewrite_NLS_Messages_file filepath variablelines w
  = (Raise (FileNotFoundError filepath), w).
Proof.
  intros H. unfold rewrite_NLS_Messages_file, remove_lines_from_file.
  unfold mbind, M_bind, bind, read_file. by rewrite H.
Qed.

Lemma rewrite_NLS_Messages_file_changes (w : world) (filepath : string)
    (variablelines : list string) :
  changes_only {[filepath]} w (rewrite_NLS_Messages_file filepath variablelines w).2.
Proof.
  destruct (files w !! filepath) as [content|] eqn:Hfile.
  2:{ rewrite rewrite_NLS_Messages_file_missing by done. apply changes_only_refl. }
  rewrite (rewrite_NLS_Messages_file_steps _ _ _ _ Hfile). cbv zeta.
  set (w1 := with_file w filepath (kept_lines variablelines content)).
  assert (H1 : changes_only {[filepath]} w w1) by by apply changes_only_with_file.
  assert (H2 : ∀ c, changes_only {[filepath]} w (with_file w1 filepath c)).
  { intros c. eapply changes_only_trans; [exact H1|].
    apply changes_only_with_file. cbn [w1 with_file files].
    rewrite lookup_insert_eq. by eexists. }
  destruct (replace_static_constructor_with_resolver _) as [r1|e].
  2:{ destruct e; cbn [snd]; try done.
      eapply changes_only_trans; [exact H1 | apply changes_only_log]. }
  destruct (add_import_to_string r1 NLS_import) as [r2|e]; [|done].
  destruct (add_to_end_of_last_class r2 TEMPLATE_GETSTRING) as [r3|e]; [|done].
  cbn [snd]. by destruct (_ || _).
Qed.

Lemma replace_patterns_in_file_changes (w : world) (filepath : string)
    (patterns : list rule) :
  changes_only {[filepath]} w (replace_patterns_in_file filepath patterns w).2.
Proof.
  destruct (files w !! filepath) as [content|] eqn:Hfile.
  - destruct (replace_NLS_usage content patterns) as [newcontent|e] eqn:Hnew.
    + rewrite (replace_patterns_in_file_run _ _ _ _ _ Hfile Hnew). cbn [snd].
      apply changes_only_with_file. by eexists.
    + rewrite (replace_patterns_in_file_raises _ _ _ _ _ Hfile Hnew).
      apply changes_only_refl.
  - rewrite replace_patterns_in_file_missing by done. apply changes_only_refl.
Qed.

Lemma mapM_changes {A B : Type} (S : gset string) (f : A → M B) (l : list A) :
  (∀ x w, x ∈ l → changes_only S w (f x w).2) →
  ∀ w, changes_only S w (mapM (M := M) f l w).2.
Proof.
  induction l as [|x l IH]; intros Hf w; [apply changes_only_refl|].
  cbn [mapM]. unfold mbind, M_bind, bind at 1.
  pose proof (Hf x w (list_elem_of_here _ _)) as Hx.
  destruct (f x w) as [[b|e] w1]; [|done]. cbn [snd] in Hx.
  unfold bind.
  pose proof (IH (λ y w' Hy, Hf y w' (list_elem_of_further _ _ _ Hy)) w1) as Hl.
  destruct (mapM (M := M) f l w1) as [[bs|e] w2]; cbn [snd] in *;
    by eapply changes_only_trans.
Qed.

Lemma replace_patterns_in_filelist_changes (filepaths : list string)
    (patterns : list rule) (w : world) :
  changes_only (list_to_set filepaths) w
    (replace_patterns_in_filelist filepaths patterns w).2.
Proof.
  unfold replace_patterns_in_filelist. apply mapM_changes. intros p w' Hp.
  eapply changes_only_mono; [|apply replace_patterns_in_file_changes].
  apply singleton_subseteq_l. by apply elem_of_list_to_set.
Qed.

Lemma replace_patterns_in_filelist_app (l1 l2 : list string) (patterns : list rule)
    (w : world) :
  replace_patterns_in_filelist (l1 ++ l2) patterns w
  = match replace_patterns_in_filelist l1 patterns w with
    | (Ok b1, w1) =>
        match replace_patterns_in_filelist l2 patterns w1 with
        | (Ok b2, w2) => (Ok (b1 ++ b2), w2)
        | (Raise e, w2) => (Raise e, w2)
        end
    | (Raise e, w1) => (Raise e, w1)
    end.
Proof.
  revert w. induction l1 as [|p l1 IH]; intros w.
  - cbn [app]. change (replace_patterns_in_filelist [] patterns w) with (Ok (@nil bool), w).
    cbv beta iota.
    by destruct (replace_patterns_in_filelist l2 patterns w) as [[b2|e] w2].
  - cbn [app]. rewrite !replace_patterns_in_filelist_cons.
    destruct (replace_patterns_in_file p patterns w) as [[b|e] w1]; [|done].
    rewrite IH.
    destruct (replace_patterns_in_filelist l1 patterns w1) as [[b1|e] w2]; [|done].
    by destruct (replace_patterns_in_filelist l2 patterns w2) as [[b2|e] w3].
Qed.

Lemma process_single_process_concat (sublists : list (list string))
    (patterns : list rule) (w : world) :
  process_single_process sublists patterns w
  = replace_patterns_in_filelist (concat sublists) patterns w.
Proof.
  unfold process_single_process. revert w.
  induction sublists as [|sub sublists IH]; intros w; [done|].
  cbn [concat]. rewrite replace_patterns_in_filelist_app.
  cbn [mapM]. unfold mbind, M_bind, bind at 1. unfold bind at 1.
  destruct (replace_patterns_in_filelist sub patterns w) as [[b1|e] w1]; [|done].
  specialize (IH w1). unfold mbind, M_bind, bind at 1 in IH.
  unfold bind at 1.
  destruct (mapM (M := M) _ sublists w1) as [[bs|e] w2].
  - cbn [mret M_ret ret] in *. rewrite <- IH. done.
  - by rewrite <- IH.
Qed.

(** ** The files dealt into sublists *)

Lemma bucket_insert {A : Type} (h : nat → list A) (x : A) (j0 : nat) (js : list nat) :
  NoDup js → j0 ∈ js →
  concat ((λ j, if decide (j0 = j) then x :: h j else h j) <$> js)
  ≡ₚ x :: concat (h <$> js).
Proof.
  induction 1 as [|j js Hj Hnd IH]; [by intros ?%elem_of_nil|].
  intros Hin. cbn [fmap list_fmap concat]. destruct (decide (j0 = j)) as [->|Hne].
  - assert (E : (λ j', if decide (j = j') then x :: h j' else h j') <$> js = h <$> js).
    { apply list_fmap_ext. intros i j' Hj'.
      destruct (decide (j = j')) as [->|]; [|done].
      exfalso. apply Hj. by eapply list_elem_of_lookup_2. }
    by rewrite E.
  - apply elem_of_cons in Hin as [?|Hin]; [done|].
    rewrite (IH Hin). by rewrite Permutation_middle.
Qed.

Lemma buckets_perm {A : Type} (f : A → nat) (k : nat) (xs : list A) :
  (∀ x, x ∈ xs → f x < k) →
  concat ((λ j, filter (λ x, f x = j) xs) <$> seq 0 k) ≡ₚ xs.
Proof.
  induction xs as [|x xs IH]; intros Hf.
  - clear Hf. induction (seq 0 k) as [|j js IHj]; [done|]. done.
  - trans (x :: concat ((λ j, filter (λ y, f y = j) xs) <$> seq 0 k)).
    + assert (E : (λ j, filter (λ y, f y = j) (x :: xs)) <$> seq 0 k
                  = (λ j, if decide (f x = j)
                          then x :: filter (λ y, f y = j) xs
                          else filter (λ y, f y = j) xs) <$> seq 0 k).
      { apply list_fmap_ext. intros i j _. rewrite filter_cons.
        by destruct (decide (f x = j)). }
      rewrite E. apply (bucket_insert (λ j, filter (λ y, f y = j) xs)).
      * apply NoDup_seq.
      * apply elem_of_seq. specialize (Hf x (list_elem_of_here _ _)). lia.
    + constructor. apply IH. intros y Hy. apply Hf. by right.
Qed.

Lemma fmap_concat_buckets {A B : Type} (g : A → B) (h : nat → list A) (js : list nat) :
  concat ((λ j, g <$> h j) <$> js) = g <$> concat (h <$> js).
Proof.
  induction js as [|j js IH]; [done|]. cbn [fmap list_fmap concat].
  by rewrite fmap_app, <- IH.
Qed.

Lemma imap_pair_snd_from {A : Type} (g : nat → nat) (l : list A) :
  (imap (λ n i, (g n, i)) l).*2 = l.
Proof.
  revert g. induction l as [|x l IH]; intros g; [done|].
  cbn [imap fmap list_fmap]. f_equal. apply (IH (g ∘ S)).
Qed.

Lemma imap_pair_snd {A : Type} (l : list A) : (imap (λ n i, (n, i)) l).*2 = l.
Proof. apply (imap_pair_snd_from id). Qed.

Lemma deal_perm (listcount : nat) (alljavafiles : list string) :
  0 < listcount → concat (deal listcount alljavafiles) ≡ₚ alljavafiles.
Proof.
  intros Hk. unfold deal.
  rewrite (fmap_concat_buckets snd
             (λ k, filter (λ ni : nat * string, ni.1 `mod` listcount = k)
                     (imap (λ n i, (n, i)) alljavafiles))).
  rewrite (buckets_perm (λ ni : nat * string, ni.1 `mod` listcount)).
  - by rewrite imap_pair_snd.
  - intros x _. apply Nat.mod_upper_bound. lia.
Qed.

Lemma deal_elem (listcount : nat) (alljavafiles : list string) (p : string) :
  p ∈ concat (deal listcount alljavafiles) → p ∈ alljavafiles.
Proof.
  destruct listcount as [|k]; [by intros ?%elem_of_nil|].
  by rewrite deal_perm by lia.
Qed.

Lemma bind_changes {A B : Type} (S : gset string) (x : M A) (f : A → M B) (w : world) :
  changes_only S w (x w).2 →
  (∀ a w1, changes_only S w1 (f a w1).2) →
  changes_only S w (bind x f w).2.
Proof.
  intros Hx Hf. unfold bind. destruct (x w) as [[a|e] w1]; cbn [snd] in *; [|done].
  eapply changes_only_trans; [exact Hx | apply Hf].
Qed.

Lemma fill_dict_changes {V : Type} (S : gset string) (f : string → M V)
    (l : list string) :
  (∀ i w, changes_only S w (f i w).2) →
  ∀ d w, changes_only S w (fill_dict f l d w).2.
Proof.
  intros Hf. induction l as [|i l IH]; intros d w; cbn [fill_dict].
  - apply changes_only_refl.
  - apply bind_changes; [apply Hf | intros v w1; apply IH].
Qed.

Lemma NLS_variable_lines_world (filepath : string) (w : world) :
  (NLS_variable_lines filepath w).2 = w.
Proof.
  unfold NLS_variable_lines, mbind, M_bind, bind, read_file.
  by destruct (files w !! filepath).
Qed.

Lemma NLS_package_world (filepath : string) (w : world) :
  (NLS_package filepath w).2 = w.
Proof.
  unfold NLS_package, mbind, M_bind, bind, read_file, lift.
  by destruct (files w !! filepath).
Qed.

Section MainFrame.
Context (get_paths_to_all_NLS_classes find_java_files : string → list string)
        (cpu_count : nat).

Lemma all_java_files_in_elem (module_path : string) (exclude_paths : list string)
    (p : string) :
  p ∈ all_java_files_in find_java_files module_path exclude_paths
  ↔ p ∈ find_java_files module_path ∧ p ∉ exclude_paths.
Proof.
  unfold all_java_files_in. rewrite list_elem_of_filter, not_elem_of_list_to_set. tauto.
Qed.

Lemma alljavafiles_elem (module_paths exclude_paths : list string) (p : string) :
  p ∈ concat ((λ module_path, all_java_files_in find_java_files module_path exclude_paths)
              <$> module_paths)
  ↔ p ∈ concat (find_java_files <$> module_paths) ∧ p ∉ exclude_paths.
Proof.
  induction module_paths as [|m ms IH]; cbn [fmap list_fmap concat].
  - split; [by intros ?%elem_of_nil | by intros [?%elem_of_nil _]].
  - rewrite !elem_of_app, IH, all_java_files_in_elem. tauto.
Qed.

Lemma rewrite_holders_changes (fal : gmap string (list string))
    (NLS_files : list string) (w : world) :
  changes_only (list_to_set NLS_files) w (rewrite_holders fal NLS_files w).2.
Proof.
  unfold rewrite_holders. apply mapM_changes. intros i w' Hi.
  unfold rewrite_holder. destruct (fal !! i) as [lines|]; [|apply changes_only_refl].
  eapply changes_only_mono; [|apply rewrite_NLS_Messages_file_changes].
  apply singleton_subseteq_l. by apply elem_of_list_to_set.
Qed.

Lemma process_single_process_changes (listcount : nat) (alljavafiles : list string)
    (patterns : list rule) (w : world) :
  changes_only (list_to_set alljavafiles) w
    (process_single_process (deal listcount alljavafiles) patterns w).2.
Proof.
  rewrite process_single_process_concat.
  eapply changes_only_mono; [|apply replace_patterns_in_filelist_changes].
  intros p Hp%elem_of_list_to_set. apply elem_of_list_to_set. by eapply deal_elem.
Qed.

Lemma main_changes (module_paths : list string) (w : world) :
  changes_only
    (list_to_set (concat (get_paths_to_all_NLS_classes <$> module_paths))
     ∪ list_to_set (concat (find_java_files <$> module_paths)))
    w (main get_paths_to_all_NLS_classes find_java_files cpu_count module_paths w).2.
Proof.
  unfold main. unfold mbind, M_bind.
  apply bind_changes.
  { apply fill_dict_changes. intros i w'. rewrite NLS_variable_lines_world.
    apply changes_only_refl. }
  intros filesandlines w1. apply bind_changes.
  { apply fill_dict_changes. intros i w'. rewrite NLS_package_world.
    apply changes_only_refl. }
  intros filesandpackages w2. apply bind_changes; [apply changes_only_refl|].
  intros patterns w3. apply bind_changes.
  { eapply changes_only_mono; [|apply process_single_process_changes].
    intros p Hp%elem_of_list_to_set%alljavafiles_elem.
    apply elem_of_union_r, elem_of_list_to_set. tauto. }
  intros changedusage w4. apply bind_changes.
  { eapply changes_only_mono; [|apply rewrite_holders_changes].
    apply union_subseteq_l. }
  intros changedmessage w5. apply changes_only_refl.
Qed.

End MainFrame.

(** ** The settings of JInto *)

Lemma no_line_feed_has_char (s : string) : has_char nl s = false → no_line_feed s.
Proof.
  induction s as [|c s IH]; [done|]. cbn [has_char no_line_feed].
  intros [Hc Hs]%orb_false_iff. split; [by apply bool_decide_eq_false in Hc | by apply IH].
Qed.

Lemma no_line_feed_join (sep : string) (ls : list string) :
  no_line_feed sep → Forall no_line_feed ls → no_line_feed (Str.join sep ls).
Proof.
  intros Hsep. induction 1 as [|l ls Hl Hls IH]; [done|].
  destruct ls as [|l' ls]; [done|].
  change (Str.join sep (l :: l' :: ls)) with (l +:+ sep +:+ Str.join sep (l' :: ls)).
  by rewrite !no_line_feed_app.
Qed.

Lemma no_line_feed_process_bundle_template (accessor properties : string) :
  no_line_feed accessor → no_line_feed properties →
  no_line_feed (Jinto.process_bundle_template accessor properties).
Proof.
  intros Ha Hp. unfold Jinto.process_bundle_template, Jinto.TEMPLATE_RESOURCE_BUNDLE_REFERENCE_TAG.
  rewrite !no_line_feed_app.
  split_and!; try done; by apply no_line_feed_has_char.
Qed.

Section ScanFacts.
Import Jinto.

Lemma scan_lines_cons (st : scan) (line : string) (lines : list string) :
  scan_lines st (line :: lines)
  = let st' := scan_line st line in
    match s_package st', s_properties st', s_classname st' with
    | Some _, Some _, Some _ => st'
    | _, _, _ => scan_lines st' lines
    end.
Proof. done. Qed.

Lemma scan_line_package (st : scan) (line : string) :
  s_package (scan_line st line) = None
  ↔ s_package st = None ∧ is_package_line line = false.
Proof.
  unfold scan_line, is_package_line. cbn [s_package].
  destruct (s_package st); [by split; [|intros []]|].
  destruct (Str.startswith _ _); split; (done || by intros []).
Qed.

Lemma scan_line_properties (st : scan) (line : string) :
  s_properties (scan_line st line) = None
  ↔ s_properties st = None ∧ is_bundle_line line = false.
Proof.
  unfold scan_line, is_bundle_line. cbn [s_properties].
  destruct (s_properties st); [by split; [|intros []]|].
  destruct (Str.contains _ _); [|done].
  split; [|by intros []]. by destruct (Str.find _ _).
Qed.

Lemma scan_line_classname (st : scan) (line : string) :
  s_classname (scan_line st line) = None
  ↔ s_classname st = None ∧ is_class_line line = false.
Proof.
  unfold scan_line, is_class_line. cbn [s_classname].
  destruct (s_classname st); [by split; [|intros []]|].
  destruct (Str.contains _ _); split; (done || by intros []).
Qed.

Lemma scan_lines_None (get : scan → option string) (test : string → bool)
    (st : scan) (lines : list string) :
  (∀ st line, get (scan_line st line) = None ↔ get st = None ∧ test line = false) →
  (∀ st, get st = s_package st ∨ get st = s_properties st ∨ get st = s_classname st) →
  get (scan_lines st lines) = None
  ↔ get st = None ∧ Forall (λ line, test line = false) lines.
Proof.
  intros Hstep Hget. revert st. induction lines as [|line lines IH]; intros st.
  - cbn [scan_lines]. split; [by intros ? | by intros []].
  - rewrite scan_lines_cons. cbv zeta. rewrite Forall_cons.
    destruct (s_package (scan_line st line)) as [p|] eqn:Ep;
      [destruct (s_properties (scan_line st line)) as [q|] eqn:Eq;
       [destruct (s_classname (scan_line st line)) as [c|] eqn:Ec|]|];
      try (rewrite IH, Hstep; tauto).
    split.
    + intros H. exfalso.
      destruct (Hget (scan_line st line)) as [E|[E|E]]; congruence.
    + intros (H1 & H2 & _). exfalso.
      assert (get (scan_line st line) = None) as H by (by apply Hstep).
      destruct (Hget (scan_line st line)) as [E|[E|E]]; congruence.
Qed.

Lemma scan_lines_package (st : scan) (lines : list string) :
  s_package (scan_lines st lines) = None
  ↔ s_package st = None ∧ Forall (λ line, is_package_line line = false) lines.
Proof. apply (scan_lines_None s_package); [apply scan_line_package | by left]. Qed.

Lemma scan_lines_properties (st : scan) (lines : list string) :
  s_properties (scan_lines st lines) = None
  ↔ s_properties st = None ∧ Forall (λ line, is_bundle_line line = false) lines.
Proof.
  apply (scan_lines_None s_properties); [apply scan_line_properties | by right; left].
Qed.

Lemma scan_lines_classname (st : scan) (lines : list string) :
  s_classname (scan_lines st lines) = None
  ↔ s_classname st = None ∧ Forall (λ line, is_class_line line = false) lines.
Proof.
  apply (scan_lines_None s_classname); [apply scan_line_classname | by right; right].
Qed.

End ScanFacts.

(** ** The digits of the test report *)

Lemma char_at_digits :
  forallb (λ i, match char_at CHARACTERS i with
               | Ok c => bool_decide (sxg_digit c = Some (Z.of_nat i))
               | Raise _ => false
               end) (seq 0 60) = true.
Proof. by vm_compute. Qed.

Lemma char_at_digit (i : Z) :
  (0 ≤ i < 60)%Z →
  ∃ c, char_at CHARACTERS (Z.to_nat i) = Ok c ∧ sxg_digit c = Some i.
Proof.
  intros Hi. pose proof char_at_digits as H.
  rewrite forallb_forall in H. specialize (H (Z.to_nat i)).
  destruct (char_at CHARACTERS (Z.to_nat i)) as [c|e].
  - exists c. split; [done|].
    rewrite Z2Nat.id in H by lia. eapply bool_decide_eq_true_1, H.
    apply in_seq. lia.
  - exfalso. assert (false = true); [|done]. apply H, in_seq. lia.
Qed.

Lemma numtosxg_loop_fuel (fuel fuel' : nat) (n : Z) (s : string) :
  (n < 2 ^ Z.of_nat fuel)%Z → (n < 2 ^ Z.of_nat fuel')%Z →
  numtosxg_loop fuel n s = numtosxg_loop fuel' n s.
Proof.
  revert fuel' n s. induction fuel as [|fuel IH]; intros fuel' n s H1 H2.
  - destruct fuel' as [|fuel']; [done|]. cbn [numtosxg_loop].
    change (2 ^ Z.of_nat 0)%Z with 1%Z in H1.
    by destruct (Z.ltb_spec 0 n); [lia|].
  - destruct fuel' as [|fuel'].
    + cbn [numtosxg_loop]. change (2 ^ Z.of_nat 0)%Z with 1%Z in H2.
      by destruct (Z.ltb_spec 0 n); [lia|].
    + cbn [numtosxg_loop]. destruct (Z.ltb_spec 0 n) as [Hn|Hn]; [|done].
      destruct (char_at CHARACTERS (Z.to_nat (n `mod` 60))) as [c|e]; [|done].
      cbn [rbind]. rewrite !Nat2Z.inj_succ, !Z.pow_succ_r in H1, H2 by lia.
      apply IH.
      * apply Z.div_lt_upper_bound; lia.
      * apply Z.div_lt_upper_bound; lia.
Qed.

Lemma sxg_value_from_app (d t : string) (acc : Z) :
  sxg_value_from acc (d +:+ t)
  = match sxg_value_from acc d with
    | Some v => sxg_value_from v t
    | None => None
    end.
Proof.
  revert acc. induction d as [|c d IH]; intros acc; [done|].
  cbn [String.append sxg_value_from]. by destruct (sxg_digit c).
Qed.

Lemma numtosxg_loop_value (fuel : nat) (n : Z) (s : string) :
  (0 ≤ n < 2 ^ Z.of_nat fuel)%Z →
  ∃ d, numtosxg_loop fuel n s = Ok (d +:+ s)
    ∧ (n = 0%Z → d = "")
    ∧ ∀ acc, sxg_value_from acc d = Some (acc * 60 ^ Z.of_nat (Str.len d) + n)%Z.
Proof.
  revert n s. induction fuel as [|fuel IH]; intros n s Hn.
  - change (2 ^ Z.of_nat 0)%Z with 1%Z in Hn. exists "". split_and!; [done | done |].
    intros acc. cbn. f_equal. lia.
  - cbn [numtosxg_loop]. destruct (Z.ltb_spec 0 n) as [Hpos|Hpos].
    2:{ exists "". split_and!; [done | done |]. intros acc. cbn. f_equal. lia. }
    destruct (char_at_digit (n `mod` 60)) as (c & Hc & Hd).
    { apply Z.mod_pos_bound. lia. }
    rewrite Hc. cbn [rbind].
    destruct (IH (n `div` 60)%Z (String c s)) as (d & Hrun & _ & Hval).
    { rewrite Nat2Z.inj_succ, Z.pow_succ_r in Hn by lia. split.
      - apply Z.div_pos; lia.
      - apply Z.div_lt_upper_bound; lia. }
    exists (d +:+ String c ""). split_and!.
    + rewrite Hrun. by rewrite append_assoc.
    + lia.
    + intros acc. rewrite sxg_value_from_app, Hval. cbn [sxg_value_from]. rewrite Hd.
      f_equal. rewrite len_append. change (Str.len (String c "")) with 1.
      rewrite Nat2Z.inj_add, Z.pow_add_r by lia. change (60 ^ Z.of_nat 1)%Z with 60%Z.
      pose proof (Z.div_mod n 60). lia.
Qed.

Lemma numtosxg_value (n : Z) :
  (0 ≤ n)%Z → ∃ s, numtosxg n = Ok s ∧ sxg_value s = Some n.
Proof.
  intros Hn. unfold numtosxg. destruct (Z.eqb_spec n 0) as [->|Hne].
  - by exists "0".
  - destruct (numtosxg_loop_value (S (Z.to_nat (Z.log2 n))) n "") as (d & Hrun & _ & Hval).
    { split; [done|]. rewrite Nat2Z.inj_succ, Z2Nat.id by apply Z.log2_nonneg.
      apply Z.log2_spec. lia. }
    exists d. rewrite Hrun, append_empty_r. split; [done|].
    unfold sxg_value. rewrite Hval. f_equal; lia.
Qed.

(** ** Further facts for the statements below *)

Lemma first_from_find (sub A B : string) :
  Str.find sub (A +:+ sub +:+ B) = Some (Str.len A) →
  ∀ a b, A +:+ sub +:+ B = a +:+ sub +:+ b → Str.len A ≤ Str.len a.
Proof.
  intros (a0 & b0 & _ & _ & Hmin)%find_Some_occurs a b Heq. by apply (Hmin a b).
Qed.

Lemma last_line_not_blank_fixed (c : string) :
  last_line_not_blank c →
  cleanup_empty_lines (cleanup_empty_lines c) = cleanup_empty_lines c
  ∧ last_line_not_blank (cleanup_empty_lines c).
Proof.
  intros Hlast. unfold last_line_not_blank in *.
  rewrite split_cleanup_empty_lines. unfold cleanup_empty_lines at 1.
  rewrite split_cleanup_empty_lines.
  destruct (Str.split nl c) as [|l ls _] eqn:E using rev_ind; [by apply split_not_nil in E|].
  rewrite last_snoc in Hlast. specialize (Hlast _ eq_refl).
  destruct (cleanup_lines_last_nonblank ls l Hlast) as [out Hout].
  split.
  - unfold cleanup_empty_lines. rewrite E. f_equal.
    apply cleanup_lines_fixed; [apply (cleanup_loop_runs_ok _ 0 None None)|].
    rewrite Hout. by intros [? _]%ends_two_blank_snoc.
  - rewrite Hout. intros a. rewrite last_snoc. by intros [= <-].
Qed.

Lemma concat_nils {A B : Type} (js : list B) :
  concat ((λ _, @nil A) <$> js) = [].
Proof. by induction js. Qed.

Lemma filter_ext_in {A : Type} (P Q : A → Prop) `{!∀ x, Decision (P x), !∀ x, Decision (Q x)}
    (l : list A) :
  (∀ x, x ∈ l → (P x ↔ Q x)) → filter P l = filter Q l.
Proof.
  induction l as [|x l IH]; intros Hext; [done|]. rewrite !filter_cons.
  rewrite IH by (intros y Hy; apply Hext; by right).
  destruct (decide (P x)) as [HP|HP], (decide (Q x)) as [HQ|HQ]; try done.
  - exfalso. apply HQ, (Hext x); [by left | done].
  - exfalso. apply HP, (Hext x); [by left | done].
Qed.

Lemma filter_index_none {A : Type} (off j : nat) (l : list A) :
  j < off → filter (λ ni : nat * A, ni.1 = j) (imap (λ n i, (off + n, i)) l) = [].
Proof.
  intros Hj. revert off Hj. induction l as [|x l IH]; intros off Hj; [done|].
  cbn [imap]. rewrite filter_cons. destruct (decide _) as [E|_]; [cbn in E; lia|].
  rewrite (imap_ext _ (λ n i, (S off + n, i))); [apply IH; lia|].
  intros n i _. cbn. f_equal. lia.
Qed.

Lemma buckets_in_order {A : Type} (l : list A) (off extra : nat) :
  concat ((λ j, (filter (λ ni : nat * A, ni.1 = j) (imap (λ n i, (off + n, i)) l)).*2)
          <$> seq off (length l + extra)) = l.
Proof.
  revert off. induction l as [|x l IH]; intros off.
  - cbn [imap]. apply concat_nils.
  - cbn [length Nat.add seq fmap list_fmap concat imap].
    rewrite filter_cons. destruct (decide _) as [_|E]; [|cbn in E; lia].
    rewrite (imap_ext _ (λ n i, (S off + n, i))) by (intros n i _; cbn; f_equal; lia).
    rewrite filter_index_none by lia. cbn [fmap list_fmap app]. f_equal.
    rewrite <- (IH (S off)) at 2. f_equal. apply list_fmap_ext. intros k j Hj.
    rewrite filter_cons. destruct (decide _) as [E|_]; [|done].
    cbn in E. apply list_elem_of_lookup_2, elem_of_seq in Hj. lia.
Qed.

Lemma deal_in_order (listcount : nat) (alljavafiles : list string) :
  length alljavafiles ≤ listcount → concat (deal listcount alljavafiles) = alljavafiles.
Proof.
  intros Hlen. unfold deal.
  trans (concat ((λ j, (filter (λ ni : nat * string, ni.1 = j)
                          (imap (λ n i, (0 + n, i)) alljavafiles)).*2)
                 <$> seq 0 (length alljavafiles + (listcount - length alljavafiles))));
    [|apply buckets_in_order].
  replace (length alljavafiles + (listcount - length alljavafiles)) with listcount by lia.
  f_equal. apply list_fmap_ext. intros k j _. f_equal. apply filter_ext_in.
  intros [n i] Hni. cbn [fst].
  apply elem_of_lookup_imap in Hni as (n' & i' & [= -> ->] & Hn').
  apply lookup_lt_Some in Hn'. by rewrite Nat.mod_small by lia.
Qed.

Lemma mapM_cons_run {A B : Type} (f : A → M B) (x : A) (l : list A) (w : world) :
  mapM (M := M) f (x :: l) w
  = match f x w with
    | (Ok b, w1) =>
        match mapM (M := M) f l w1 with
        | (Ok bs, w2) => (Ok (b :: bs), w2)
        | (Raise e, w2) => (Raise e, w2)
        end
    | (Raise e, w1) => (Raise e, w1)
    end.
Proof.
  cbn [mapM]. unfold mbind, M_bind, bind.
  by destruct (f x w) as [[b|e] w1].
Qed.

Lemma mapM_length {A B : Type} (f : A → M B) (l : list A) (w w' : world) (bs : list B) :
  mapM (M := M) f l w = (Ok bs, w') → length bs = length l.
Proof.
  revert w bs. induction l as [|x l IH]; intros w bs.
  - cbn [mapM]. unfold mret, M_ret, ret. by intros [= <- _].
  - rewrite mapM_cons_run. destruct (f x w) as [[b|e] w1]; [|done].
    destruct (mapM (M := M) f l w1) as [[bs'|e] w2] eqn:E; [|done].
    intros [= <- <-]. cbn [length]. f_equal. by eapply IH.
Qed.

Lemma bind_Ok {A B : Type} (x : M A) (f : A → M B) (w w' : world) (b : B) :
  bind x f w = (Ok b, w') → ∃ a w1, x w = (Ok a, w1) ∧ f a w1 = (Ok b, w').
Proof.
  unfold bind. destruct (x w) as [[a|e] w1]; [|done]. intros H. by exists a, w1.
Qed.

Lemma ends_two_blank_last (ls : list string) (x : string) :
  last ls = Some x → ¬ blank x → ¬ ends_two_blank ls.
Proof.
  intros Hlast Hx (pre & a & b & -> & _ & Hb).
  change [a; b] with ([a] ++ [b]) in Hlast. rewrite app_assoc, last_snoc in Hlast.
  by injection Hlast as ->.
Qed.

Lemma not_Exists_true {A : Type} (test : A → bool) (l : list A) :
  ¬ Exists (λ x, test x = true) l ↔ Forall (λ x, test x = false) l.
Proof.
  rewrite <- Forall_Exists_neg. apply Forall_proper; [|done].
  intros x. by destruct (test x).
Qed.

(** ** The static import of one variable *)

Lemma replace_NLS_usage_single_variable (r : rule) (c : string) :
  variablename r ≠ staticimportvariable r →
  FROM r ≠ variablename r → FROM r ≠ staticimportvariable r →
  staticimportstar r ≠ FROM r → staticimportstar r ≠ variablename r →
  staticimportstar r ≠ staticimportvariable r →
  Str.contains (staticimportvariable r) c = true →
  Literal.replace_NLS_usage c [r]
  = Str.replace
      (Str.replace
         (Literal.regex_replace_variable_safely
            (Str.replace c (staticimportvariable r) (classimport r))
            (variablename r) (TO r))
         (FROM r) (TO r))
      (staticimportstar r) (classimport r).
Proof.
  intros HVS HFV HFS HLF HLV HLS HS.
  unfold Literal.replace_NLS_usage. cbn [foldl]. unfold Literal.usage_step.
  rewrite !found_Lit.
  rewrite (bool_decide_eq_true_2 (staticimportvariable r ∉ (∅ : gset string)))
    by apply not_elem_of_empty.
  cbn [andb]. rewrite HS.
  rewrite (bool_decide_eq_true_2
             (variablename r ∉ ({[staticimportvariable r]} ∪ ∅ : gset string)))
    by (apply not_replaced_yet; [done | apply not_elem_of_empty]).
  rewrite found_Lit.
  rewrite (bool_decide_eq_false_2
             (variablename r ∉ ({[variablename r]} ∪ ({[staticimportvariable r]} ∪ ∅)
                                : gset string)))
    by apply replaced_now.
  rewrite andb_false_r.
  rewrite (bool_decide_eq_true_2
             (FROM r ∉ ({[variablename r]} ∪ ({[staticimportvariable r]} ∪ ∅)
                        : gset string)))
    by (repeat (apply not_replaced_yet; [done|]); apply not_elem_of_empty).
  cbn [andb].
  set (c3 := Literal.regex_replace_variable_safely _ _ _).
  assert (Hc4 : (if Str.contains (FROM r) c3
                 then (Str.replace c3 (FROM r) (TO r),
                       ({[FROM r]} ∪ ({[variablename r]}
                          ∪ ({[staticimportvariable r]} ∪ ∅)) : gset string))
                 else (c3, ({[variablename r]} ∪ ({[staticimportvariable r]} ∪ ∅)
                            : gset string))).1
                = Str.replace c3 (FROM r) (TO r)).
  { destruct (Str.contains (FROM r) c3) eqn:HF; [done|].
    by rewrite (replace_absent _ _ _ HF). }
  destruct (if Str.contains (FROM r) c3 then _ else _) as [c4 R4] eqn:E4.
  assert (HR4 : staticimportstar r ∉ R4).
  { destruct (Str.contains (FROM r) c3); injection E4 as _ <-;
      repeat (apply not_replaced_yet; [done|]); apply not_elem_of_empty. }
  cbn [fst] in Hc4. subst c4. unfold Literal.star_step. rewrite found_Lit.
  rewrite (bool_decide_eq_true_2 _ HR4), andb_true_r.
  destruct (Str.contains (staticimportstar r) (Str.replace c3 (FROM r) (TO r)))
    eqn:HL; [done|].
  cbn [fst]. by rewrite (replace_absent _ _ _ HL).
Qed.

Lemma variable_import_rewritten (A B C : string) :
  ∃ A' B' C',
    Literal.replace_NLS_usage (A +:+ variable_import_line +:+ B +:+ usage_text +:+ C) [FOO_a_rule]
    = A' +:+ import_line_after +:+ B' +:+ usage_text_after +:+ C'.
Proof.
  rewrite replace_NLS_usage_single_variable; try done.
  2: { apply contains_spec. by exists A, (";" +:+ B +:+ usage_text +:+ C). }
  change (staticimportvariable FOO_a_rule) with "import static foo.Bah.FOO_a".
  change (staticimportstar FOO_a_rule) with "import static foo.Bah.*".
  change (classimport FOO_a_rule) with "import foo.Bah".
  change (variablename FOO_a_rule) with "FOO_a".
  change (FROM FOO_a_rule) with "Bah.FOO_a".
  change (TO FOO_a_rule) with (TEMPLATE_MESSAGE_TOSTRING "Bah" "FOO_a").
  set (T := TEMPLATE_MESSAGE_TOSTRING "Bah" "FOO_a").
  (* the static import of the variable *)
  change (Str.replace ?s "import static foo.Bah.FOO_a" "import foo.Bah")
    with (Str.replace_go "import static foo.Bah.FOO_a" "import foo.Bah" 0 s).
  destruct (replace_go_before "import static foo.Bah.FOO_a" "import foo.Bah"
              variable_import_line (B +:+ usage_text +:+ C) A 0) as [A1 ->]; [done | lia |].
  change (variable_import_line +:+ B +:+ usage_text +:+ C)
    with ("import static foo.Bah.FOO_a" +:+ ";" +:+ B +:+ usage_text +:+ C).
  rewrite replace_go_hit by done.
  rewrite (replace_go_inside "import static foo.Bah.FOO_a" "import foo.Bah" ";") by done.
  destruct (replace_go_before "import static foo.Bah.FOO_a" "import foo.Bah"
              usage_text C B 0) as [B1 ->]; [done | lia |].
  rewrite (replace_go_inside "import static foo.Bah.FOO_a" "import foo.Bah" usage_text)
    by done.
  set (C1 := Str.replace_go "import static foo.Bah.FOO_a" "import foo.Bah" 0 C).
  change (A1 +:+ "import foo.Bah" +:+ ";" +:+ B1 +:+ usage_text +:+ C1)
    with (A1 +:+ import_line_after +:+ B1 +:+ usage_text +:+ C1).
  (* the variable *)
  rewrite regex_replace_variable_safely_eq. cbv zeta.
  change (usage_text +:+ C1) with ("x =" +:+ String " " ("FOO_a" +:+ String ";" C1)).
  destruct (pass_go_two "FOO_a" T import_line_after "x =" " " ";" A1 B1 C1)
    as (A2 & B2 & C2 & ->); [done.. | not_in_list | not_in_list |].
  assert (∃ A3,
    (if atstart_here "FOO_a"
          (A2 +:+ import_line_after +:+ B2 +:+ "x =" +:+ String " " (T +:+ String ";" C2))
     then T +:+ Str.drop (Str.len "FOO_a" + 1)
            (A2 +:+ import_line_after +:+ B2 +:+ "x =" +:+ String " " (T +:+ String ";" C2))
     else A2 +:+ import_line_after +:+ B2 +:+ "x =" +:+ String " " (T +:+ String ";" C2))
    = A3 +:+ import_line_after +:+ B2 +:+ usage_text_after +:+ C2) as [A3 ->].
  { destruct (atstart_here _ _) eqn:Hhere; [|by exists A2].
    by apply atstart_before. }
  (* the qualified references *)
  change (Str.replace ?s "Bah.FOO_a" T) with (Str.replace_go "Bah.FOO_a" T 0 s).
  destruct (replace_go_two "Bah.FOO_a" T import_line_after usage_text_after A3 B2 C2)
    as (A4 & B4 & C4 & ->); [done..|].
  (* the static-star import *)
  change (Str.replace ?s "import static foo.Bah.*" "import foo.Bah")
    with (Str.replace_go "import static foo.Bah.*" "import foo.Bah" 0 s).
  destruct (replace_go_two "import static foo.Bah.*" "import foo.Bah"
              import_line_after usage_text_after A4 B4 C4)
    as (A5 & B5 & C5 & ->); [done..|].
  by exists A5, B5, C5.
Qed.
(** ** The rules of the scenarios stand for themselves *)

Lemma FOO_a_rule_plain : Forall plain_rule [FOO_a_rule].
Proof. repeat constructor; by vm_compute. Qed.

Lemma getString_rule_plain : Forall plain_rule [getString_rule].
Proof. repeat constructor; by vm_compute. Qed.

(** ** A declaration line without the element [String] *)

Lemma element_after_String_cases (elements : list string) :
  "String" ∈ elements →
  (∃ v, element_after_String elements = Ok v)
  ∨ element_after_String elements = Raise IndexError.
Proof.
  induction elements as [|e es IH]; [by intros ?%elem_of_nil|].
  intros Hin. cbn [element_after_String].
  destruct (decide (e = "String")) as [->|Hne].
  - destruct es as [|v es]; [by right | left; by exists v].
  - apply elem_of_cons in Hin as [?|Hin]; [done | by apply IH].
Qed.

Lemma line_to_variable_cases (line : string) :
  line_to_variable line ≠ Raise IndexError →
  (("String" ∉ Str.split_ws line)
   ∧ line_to_variable line = Raise (ValueError no_String_args))
  ∨ (("String" ∈ Str.split_ws line) ∧ ∃ v, line_to_variable line = Ok v).
Proof.
  intros Hno. destruct (decide ("String" ∈ Str.split_ws line)) as [Hin|Hnot].
  - right. split; [done|]. unfold line_to_variable in *.
    destruct (element_after_String_cases _ Hin) as [[v Hv]|Hv]; rewrite Hv in *.
    + by eexists.
    + done.
  - left. split; [done|]. unfold line_to_variable.
    by rewrite (element_after_String_missing _ Hnot).
Qed.

(** The rules of one file whose package is known: the first line without
    the element [String] ends the loop with the [ValueError] of
    [line_to_variable]. *)
Lemma patterns_of_lines_outcome (fap : gmap string string) (p : string)
    (lines : list string) (acc : list rule) :
  lines = [] ∨ is_Some (fap !! p) →
  (∀ line, line ∈ lines → line_to_variable line ≠ Raise IndexError) →
  (Exists (λ line, "String" ∉ Str.split_ws line) lines
   ∧ patterns_of_lines fap p lines acc = Raise (ValueError no_String_args))
  ∨ (Forall (λ line, "String" ∈ Str.split_ws line) lines
     ∧ ∃ new, patterns_of_lines fap p lines acc = Ok new).
Proof.
  revert acc. induction lines as [|line lines IH]; intros acc Hpkg Hno.
  - right. split; [constructor | by exists acc].
  - destruct Hpkg as [?|[pkg Hpkg]]; [done|].
    destruct (line_to_variable_cases line) as [[Hbad Hv]|[Hgood [v Hv]]].
    { apply Hno. by left. }
    + left. split; [by left|]. cbn [patterns_of_lines]. by rewrite Hv.
    + cbn [patterns_of_lines]. rewrite Hv. cbn [rbind]. rewrite Hpkg.
      destruct (IH (acc ++ [Rule (TEMPLATE_MESSAGE_VARIABLE (filepath_to_classname p) v)
                                 (TEMPLATE_MESSAGE_TOSTRING (filepath_to_classname p) v)
                                 (filepath_to_classname p) v pkg]))
        as [[Hex Hr]|[Hall Hr]].
      { right. by exists pkg. } { intros l Hl. apply Hno. by right. }
      * left. split; [by right | done].
      * right. split; [by constructor | done].
Qed.

Lemma patterns_of_items_invalid (fap : gmap string string)
    (items : list (string * list string)) (acc : list rule) :
  (∀ p lines, (p, lines) ∈ items →
     (lines = [] ∨ is_Some (fap !! p))
     ∧ ∀ line, line ∈ lines → line_to_variable line ≠ Raise IndexError) →
  (∃ p lines line, (p, lines) ∈ items ∧ line ∈ lines ∧ "String" ∉ Str.split_ws line) →
  patterns_of_items fap items acc = Raise (ValueError no_String_args).
Proof.
  revert acc. induction items as [|[p lines] items IH];
    intros acc Hall (q & ls & line & Hq & Hline & Hbad).
  - by apply elem_of_nil in Hq.
  - destruct (Hall p lines) as [Hpkg Hno]; [by left|].
    cbn [patterns_of_items].
    destruct (patterns_of_lines_outcome fap p lines acc Hpkg Hno)
      as [[_ ->]|[Hgood [new ->]]]; [done|].
    cbn [rbind]. apply IH.
    + intros p' lines' Hp'. apply Hall. by right.
    + apply elem_of_cons in Hq as [[= -> ->]|Hq].
      * exfalso. apply Hbad. rewrite Forall_forall in Hgood. by apply Hgood.
      * by exists q, ls, line.
Qed.

(** [build_replacement_patterns] passes the [ValueError] of
    [line_to_variable] on, whichever file and line it comes from. *)
Lemma build_replacement_patterns_invalid_line (fal : gmap string (list string))
    (fap : gmap string string) :
  (∀ p lines, fal !! p = Some lines →
     (lines = [] ∨ is_Some (fap !! p))
     ∧ ∀ line, line ∈ lines → line_to_variable line ≠ Raise IndexError) →
  (∃ p lines line, fal !! p = Some lines ∧ line ∈ lines
                   ∧ "String" ∉ Str.split_ws line) →
  build_replacement_patterns fal fap = Raise (ValueError no_String_args).
Proof.
  intros Hall (p & lines & line & Hp & Hline & Hbad).
  unfold build_replacement_patterns, collect_patterns.
  rewrite patterns_of_items_invalid; [done | |].
  - intros q ls Hq%sorted_items_elem. by apply Hall.
  - exists p, lines, line. by rewrite sorted_items_elem.
Qed.

(** ** The two dicts of [main] *)

Lemma fill_dict_pure {V : Type} (f : string → M V) (g : string → V)
    (l : list string) (w : world) :
  (∀ i, i ∈ l → f i w = (Ok (g i), w)) →
  ∀ d, ∃ d', fill_dict f l d w = (Ok d', w)
    ∧ (∀ i, i ∈ l → d' !! i = Some (g i))
    ∧ (∀ i, i ∉ l → d' !! i = d !! i).
Proof.
  induction l as [|i l IH]; intros Hf d.
  - exists d. split_and!; [done | by intros i ?%elem_of_nil | done].
  - cbn [fill_dict]. unfold mbind, M_bind, bind at 1.
    rewrite (Hf i) by by left.
    destruct (IH (λ j Hj, Hf j (list_elem_of_further _ _ _ Hj)) (<[i := g i]> d))
      as (d' & -> & Hin & Hout).
    exists d'. split_and!; [done | |].
    + intros j Hj. destruct (decide (j ∈ l)) as [Hl|Hl]; [by apply Hin|].
      apply elem_of_cons in Hj as [->|Hj]; [|done].
      rewrite (Hout i Hl). apply lookup_insert_eq.
    + intros j Hj. apply not_elem_of_cons in Hj as [Hne Hj].
      rewrite (Hout j Hj). by apply lookup_insert_ne.
Qed.

Lemma NLS_variable_lines_run (w : world) (filepath content : string) :
  files w !! filepath = Some content →
  NLS_variable_lines filepath w
  = (Ok (filter (λ i, is_variable_line i = true) (lines_no_nl content)), w).
Proof.
  intros H. unfold NLS_variable_lines, mbind, M_bind, bind, read_file. by rewrite H.
Qed.

Section MainToken.
Context (get_paths_to_all_NLS_classes find_java_files : string → list string)
        (cpu_count : nat).

(** A declaration line without the element [String] in a holder file ends
    [main] with the [ValueError] of [line_to_variable], before any file is
    written. *)
Lemma main_raises_without_String (module_paths : list string) (w : world) :
  let NLS_files := concat (get_paths_to_all_NLS_classes <$> module_paths) in
  (∀ i, i ∈ NLS_files →
     ∃ content, files w !! i = Some content ∧ has_package_line content
       ∧ ∀ line, line ∈ lines_no_nl content → is_variable_line line = true →
                 line_to_variable line ≠ Raise IndexError) →
  (∃ i content line, i ∈ NLS_files ∧ files w !! i = Some content
      ∧ line ∈ lines_no_nl content ∧ is_variable_line line = true
      ∧ "String" ∉ Str.split_ws line) →
  main get_paths_to_all_NLS_classes find_java_files cpu_count module_paths w
  = (Raise (ValueError no_String_args), w).
Proof.
  intros NLS_files Hall (i0 & content0 & line0 & Hi0 & Hc0 & Hl0 & Hv0 & Hbad).
  unfold main. fold NLS_files.
  pose (lines_of := λ i, match files w !! i with
                         | Some content =>
                             filter (λ l, is_variable_line l = true) (lines_no_nl content)
                         | None => []
                         end).
  pose (package_of := λ i, match (NLS_package i w).1 with Ok p => p | Raise _ => "" end).
  assert (∀ i, i ∈ NLS_files → NLS_variable_lines i w = (Ok (lines_of i), w)) as Hlines.
  { intros i Hi. destruct (Hall i Hi) as (content & Hc & _).
    rewrite (NLS_variable_lines_run w i content Hc). unfold lines_of. by rewrite Hc. }
  assert (∀ i, i ∈ NLS_files → NLS_package i w = (Ok (package_of i), w)) as Hpackages.
  { intros i Hi. destruct (Hall i Hi) as (content & Hc & Hpkg & _).
    destruct (NLS_package_present w i content Hc Hpkg) as [p Hp].
    unfold package_of. by rewrite Hp. }
  destruct (fill_dict_pure NLS_variable_lines lines_of NLS_files w Hlines ∅)
    as (fal & Hfal & Hfal_in & Hfal_out).
  destruct (fill_dict_pure NLS_package package_of NLS_files w Hpackages ∅)
    as (fap & Hfap & Hfap_in & Hfap_out).
  unfold mbind, M_bind, bind at 1. rewrite Hfal.
  unfold bind at 1. rewrite Hfap. unfold bind at 1, lift.
  rewrite build_replacement_patterns_invalid_line; [done | |].
  - intros p lines Hp.
    destruct (decide (p ∈ NLS_files)) as [Hin|Hout].
    2:{ rewrite (Hfal_out p Hout) in Hp. by rewrite lookup_empty in Hp. }
    rewrite (Hfal_in p Hin) in Hp. injection Hp as <-.
    destruct (Hall p Hin) as (content & Hc & _ & Hno). split.
    + right. rewrite (Hfap_in p Hin). by eexists.
    + unfold lines_of. rewrite Hc. intros line [Hv Hl]%list_elem_of_filter.
      by apply Hno.
  - exists i0, (lines_of i0), line0. split_and!; [by apply Hfal_in | | done].
    unfold lines_of. rewrite Hc0. by apply list_elem_of_filter.
Qed.
End MainToken.

(** ** What a substitution cannot make *)








(** ** A content without static import: only qualified references are
    rewritten *)




(** ** A name with the brackets of an array *)

Lemma for_each_app {A S : Type} (body : S → A → result S) (st : S) (l1 l2 : list A) :
  for_each body st (l1 ++ l2)
  = rbind (for_each body st l1) (λ st', for_each body st' l2).
Proof.
  revert st. induction l1 as [|x l1 IH]; intros st; [done|].
  cbn [app for_each]. destruct (body st x) as [st'|e]; [|done]. cbn [rbind]. apply IH.
Qed.

(** An opening bracket that is followed by a closing one and the end of
    the pattern starts a set that is not closed. *)
Lemma compile_brackets (s : string) :
  no_operator_but_dot s = true →
  re_compile (Str.replace (s +:+ "[]") "." "\.") = Raise re_error.
Proof.
  intros Hs. rewrite escape_dots_eq, escape_dots_app.
  change (escape_dots "[]") with "[]".
  unfold re_compile, Re.compile. rewrite parse_escaped by done.
  rewrite (parse_fuel _ 2 "[]"); [done | | done].
  rewrite len_append. change (Str.len "[]") with 2. lia.
Qed.

Lemma replace_NLS_usage_brackets (c : string) (before after : list rule) (r : rule)
    (q : string) :
  Forall plain_rule before →
  FROM r = q +:+ "[]" →
  no_operator_but_dot (package r) = true → no_operator_but_dot q = true →
  replace_NLS_usage c (before ++ r :: after) = Raise re_error.
Proof.
  intros Hbefore HF HP Hq. unfold replace_NLS_usage.
  rewrite for_each_app.
  rewrite (for_each_plain usage_step Literal.usage_step) by (done || apply usage_step_plain).
  cbn [rbind for_each].
  destruct (foldl Literal.usage_step (c, ∅) before) as [content replaced].
  unfold usage_step, uses_static_variable_import_text, staticimportvariable.
  rewrite HF, <- !append_assoc, compile_brackets; [done|].
  by rewrite !no_operator_but_dot_app, HP, Hq.
Qed.

(** A name with an operator that is no error: the dollar of [FOO$] stands
    for the end of the text, and the pattern finds [FOO] before a last line
    feed although the name does not occur. *)
Example regex_replace_variable_safely_dollar :
  Str.contains "FOO$" ("x = FOO" +:+ String nl "") = false
  ∧ regex_replace_variable_safely ("x = FOO" +:+ String nl "") "FOO$" "T"
    = Ok ("x = T" +:+ String nl "").
Proof. split; by vm_compute. Qed.
(** ** The claim about the safe variable substitution *)

(** C1 asks that [regex_replace_variable_safely] replaces a stand-alone
    occurrence of the variable name at the very start of the content, as in
    the content made of the name followed by [ used in code], and keeps
    every character around a replaced name.  The code does neither: for
    every name without a space and without an operator of [re] and every
    accessor string the result still begins with the name and the space, for
    the name [FOO] the content comes back unchanged; and when the second
    pattern does match, the name standing at index 1, it takes the character
    before the name away with it, be it the dot of a qualified name.
    Occurrences inside the content are replaced as the claim says: for a
    name without operator the first loop is the pass [pass_go] from left to
    right, which keeps the characters around each match, and the second loop
    replaces, at most once, the first character together with a name that
    stands right after it. *)
Theorem regex_replace_variable_safely_misses_start :
  (∀ V T : string,
     V ≠ "" → has_char " " V = false → no_operator V = true →
     ∃ rest, regex_replace_variable_safely (V +:+ " used in code") V T
             = Ok (V +:+ String " " rest))
  ∧ (∀ T : string,
       regex_replace_variable_safely "FOO used in code" "FOO" T
       = Ok "FOO used in code")
  ∧ regex_replace_variable_safely ".FOO used in code" "FOO" "T" = Ok "T used in code"
  ∧ regex_replace_variable_safely "x = FOO; y = Bah.FOO;" "FOO" "T"
    = Ok "x = T; y = Bah.FOO;"
  ∧ (∀ content V T : string,
       no_operator V = true →
       regex_replace_variable_safely content V T
       = Ok (let content1 := pass_go V T 0 content in
             if atstart_here V content1
             then T +:+ Str.drop (Str.len V + 1) content1 else content1)).
Proof.
  split_and!.
  - intros V T Hne Hspace Hplain.
    rewrite regex_replace_variable_safely_plain by done.
    destruct (regex_replace_variable_safely_leading V T (V +:+ " used in code"))
      as [rest ->]; [done | done | by exists "used in code" |].
    by exists rest.
  - intros T. rewrite regex_replace_variable_safely_plain by done.
    f_equal; by vm_compute.
  - by vm_compute.
  - by vm_compute.
  - intros content V T Hplain. rewrite regex_replace_variable_safely_plain by done.
    f_equal. apply regex_replace_variable_safely_eq.
Qed.

Lemma regex_replace_variable_safely_misses_start_witness :
  ∃ rest,
    regex_replace_variable_safely ("FOO_a" +:+ " used in code") "FOO_a"
      (TEMPLATE_MESSAGE_TOSTRING "Bah" "FOO_a")
    = Ok ("FOO_a" +:+ String " " rest).
Proof.
  destruct regex_replace_variable_safely_misses_start as (Hstart & _).
  apply Hstart; by vm_compute.
Defined.

(** ** The claims about the rewrite engine *)

(** C9, the claim as stated fails.  The names of a rule are pasted into the
    patterns of the import matchers, and only dots and stars are escaped.
    The declaration [public static String FOO[];] gives the variable name
    [FOO[]], whose matcher does not compile: [replace_NLS_usage] raises
    [re.error] on a content that holds none of the three literals.  And a
    class name that holds a set, [Ba[h]], gives a star-import matcher that
    finds [import static foo.Bah.*] although the literal with [Ba[h]] does
    not occur: the bare name [FOO] is rewritten. *)
Lemma replace_NLS_usage_changes_without_signal :
  (build_replacement_patterns FOO_array_lines Bah_package = Ok [FOO_array_rule]
   ∧ ¬ occurs (staticimportvariable FOO_array_rule) "x = 1;"
   ∧ ¬ occurs (staticimportstar FOO_array_rule) "x = 1;"
   ∧ ¬ occurs (FROM FOO_array_rule) "x = 1;"
   ∧ replace_NLS_usage "x = 1;" [FOO_array_rule] = Raise re_error)
  ∧ (¬ occurs (staticimportvariable set_rule) star_usage
     ∧ ¬ occurs (staticimportstar set_rule) star_usage
     ∧ ¬ occurs (FROM set_rule) star_usage
     ∧ replace_NLS_usage star_usage [set_rule]
       = Ok ("import static foo.Bah.*; x = " +:+ TO set_rule +:+ ";")
     ∧ replace_NLS_usage star_usage [set_rule] ≠ Ok star_usage).
Proof.
  split; split_and!; try (apply contains_false); by vm_compute.
Qed.

(** C9, amended: for every content [c] and every list [ps] of rules whose
    names stand for themselves in the patterns (no operator of [re] in the
    variable name, none but dots in the package, the class name and the
    fromPattern), such that for no rule of [ps] the static-variable-import
    literal, the static-star-import literal or the fromPattern occurs in
    [c], [replace_NLS_usage c ps] returns [c]: bare occurrences of a
    variable name alone, without an import or a qualified reference as
    detection signal, trigger no rewriting. *)
Theorem replace_NLS_usage_frame (c : string) (ps : list rule) :
  Forall plain_rule ps →
  (∀ r, r ∈ ps →
     ¬ occurs (staticimportvariable r) c
     ∧ ¬ occurs (staticimportstar r) c
     ∧ ¬ occurs (FROM r) c) →
  replace_NLS_usage c ps = Ok c.
Proof.
  intros Hplain H. rewrite replace_NLS_usage_plain by done. f_equal.
  apply replace_NLS_usage_silent, Forall_forall. exact H.
Qed.

Lemma replace_NLS_usage_frame_witness :
  replace_NLS_usage "x = FOO_a; y = FOO_a;" [FOO_a_rule] = Ok "x = FOO_a; y = FOO_a;".
Proof.
  apply replace_NLS_usage_frame.
  - repeat constructor; by vm_compute.
  - intros r ->%list_elem_of_singleton.
    repeat split; apply contains_false; vm_compute; reflexivity.
Defined.




(** C4: the rule built from the declaration of [FOO_a] in class [Bah] of
    package [foo] rewrites every content that holds the line
    [import static foo.Bah.*;] and, after it, the usage [x = FOO_a;]:
    whatever stands before, between and after them, the result holds the
    import line as [import foo.Bah;] and the usage as
    [x = Bah.getString("FOO_a");].  For the file of the scenario nothing else
    changes, and a run of [main] over the holder file and the using file
    builds this rule from the holder file and leaves the using file in this
    state. *)
Theorem end_to_end_star_import :
  build_replacement_patterns FOO_a_lines Bah_package = Ok [FOO_a_rule]
  ∧ (∀ A B C : string,
       ∃ A' B' C',
         replace_NLS_usage (A +:+ import_line +:+ B +:+ usage_text +:+ C) [FOO_a_rule]
         = Ok (A' +:+ import_line_after +:+ B' +:+ usage_text_after +:+ C'))
  ∧ replace_NLS_usage usage_before [FOO_a_rule] = Ok usage_after
  ∧ fst (NLS_variable_lines "/p/src/foo/Bah.java" small_project)
    = Ok [declaration "FOO_a"]
  ∧ fst (NLS_package "/p/src/foo/Bah.java" small_project) = Ok "foo"
  ∧ (let run := main small_project_holders small_project_sources 2 ["/p"] small_project in
     fst run = Ok ([true], [true])
     ∧ files (snd run) !! "/p/src/bar/Use.java" = Some usage_after).
Proof.
  split; [by vm_compute|].
  split.
  { intros A B C. destruct (star_import_rewritten A B C) as (A' & B' & C' & H).
    exists A', B', C'. rewrite replace_NLS_usage_plain by exact FOO_a_rule_plain.
    by rewrite H. }
  split_and!; by vm_compute.
Qed.

(** ** The claim about the settings generator *)

(** C8, the claim as stated fails: the text [resourceBundleName=] followed
    by the quoted bundle name does not occur in the generated settings; the
    template writes a backslash before every equals sign of the XML. *)
Lemma settings_plain_tag_absent :
  fst (Jinto.extract_accessor_and_properties "/ws/x/src/net/disy/x/Messages.java"
         accessor_world)
  = Ok ("net.disy.x.Messages", "net.disy.x.messages")
  ∧ count reference_tag_plain
      (Jinto.generate_settings_data [("net.disy.x.Messages", "net.disy.x.messages")]) = 0.
Proof. split; by vm_compute. Qed.

(** C8, amended: for one accessor file that declares package [net.disy.x],
    class [Messages] and bundle [net.disy.x.messages], the generated settings
    hold exactly one [resourceBundleReference] opening tag for the bundle
    [net.disy.x.messages], its equals sign written with a backslash before
    it, and the tag is followed, after the two characters backslash and n, by
    the accessor tag for [net.disy.x.Messages]. *)
Theorem settings_one_reference :
  fst (Jinto.extract_accessor_and_properties "/ws/x/src/net/disy/x/Messages.java"
         accessor_world)
  = Ok ("net.disy.x.Messages", "net.disy.x.messages")
  ∧ (let data :=
       Jinto.generate_settings_data [("net.disy.x.Messages", "net.disy.x.messages")] in
     count reference_tag_escaped data = 1
     ∧ count "<resourceBundleReference" data = 1
     ∧ count (reference_tag_escaped +:+ "\n" +:+ accessor_tag_escaped) data = 1).
Proof. split; [by vm_compute | split_and!; by vm_compute]. Qed.

(** ** The claims about missing structural elements *)

(** C10: when the content of a holder file, after the declaration lines are
    removed, has no [static {] block, [rewrite_NLS_Messages_file] logs a
    warning and returns [False], also when the first step has removed lines
    and written the file back: the file keeps the removal, the flag of the
    first step is dropped, and none of the later steps is applied. *)
Theorem rewrite_NLS_Messages_file_no_static_block (w : world)
    (filepath : string) (variablelines : list string) (content : string) :
  files w !! filepath = Some content →
  ¬ occurs "static {" (kept_lines variablelines content) →
  remove_lines_from_file filepath variablelines w
  = (Ok (bool_decide (Exists (λ i, i ∈ (list_to_set variablelines : gset string))
                             (lines_no_nl content))),
     World (<[filepath := kept_lines variablelines content]> (files w)) (records w))
  ∧ rewrite_NLS_Messages_file filepath variablelines w
    = (Ok false,
       World (<[filepath := kept_lines variablelines content]> (files w))
             (records w ++ [(WARNING, "No static block found in file " +:+ filepath)])).
Proof.
  intros Hfile Hstatic. split.
  - by apply remove_lines_from_file_run.
  - by apply rewrite_without_static_block.
Qed.

Lemma rewrite_NLS_Messages_file_no_static_block_witness :
  remove_lines_from_file "/p/src/foo/Bah.java" [declaration "FOO_a"] no_static_world
  = (Ok true, World {[ "/p/src/foo/Bah.java" := holder_without_static_kept ]} [])
  ∧ rewrite_NLS_Messages_file "/p/src/foo/Bah.java" [declaration "FOO_a"] no_static_world
    = (Ok false,
       World {[ "/p/src/foo/Bah.java" := holder_without_static_kept ]}
             [(WARNING, "No static block found in file /p/src/foo/Bah.java")]).
Proof.
  assert (Hfile : files no_static_world !! "/p/src/foo/Bah.java"
                  = Some holder_without_static) by (by vm_compute).
  assert (Hstatic : ¬ occurs "static {"
                      (kept_lines [declaration "FOO_a"] holder_without_static))
    by (apply contains_false; by vm_compute).
  destruct (rewrite_NLS_Messages_file_no_static_block no_static_world
              "/p/src/foo/Bah.java" [declaration "FOO_a"] holder_without_static
              Hfile Hstatic) as [H1 H2].
  split.
  - rewrite H1. by vm_compute.
  - rewrite H2. by vm_compute.
Defined.

(** C6, the claim as stated fails: when the first holder file has no package
    line, [main] ends with the [ValueError] of [NLS_package]; nothing is
    logged and no file is rewritten, the second holder file and the file that
    uses the holder included. *)
Lemma missing_package_aborts_run :
  ¬ has_package_line (holder_file false "Bah")
  ∧ main project_holders project_sources 2 ["/p"] (project false)
    = (Raise (ValueError ["File %s has no package definition!"; "/p/src/foo/Bah.java"]),
       project false).
Proof.
  split; [exact holder_without_package | by vm_compute].
Qed.

(** C6, amended: a holder file without [static {] block is reported by a
    logged warning and skipped, and the holder files after it are still
    processed; a file without package line makes [NLS_package] raise
    [ValueError], and a declaration line without the token [String] makes
    [line_to_variable] raise [ValueError], which
    [build_replacement_patterns] passes on, whichever file and line it comes
    from; [main] catches neither: a holder file without package line, or
    with such a declaration line, ends the run with that exception before
    any file is written and without a log record. *)
Theorem missing_element_outcomes :
  (∀ (fal : gmap string (list string)) (i : string) (rest lines : list string)
     (content : string) (w : world),
     fal !! i = Some lines →
     files w !! i = Some content →
     ¬ occurs "static {" (kept_lines lines content) →
     rewrite_holders fal (i :: rest) w
     = match rewrite_holders fal rest
               (World (<[i := kept_lines lines content]> (files w))
                      (records w ++ [(WARNING, "No static block found in file " +:+ i)])) with
       | (Ok changed, w') => (Ok (false :: changed), w')
       | (Raise e, w') => (Raise e, w')
       end)
  ∧ (∀ (w : world) (filepath content : string),
       files w !! filepath = Some content →
       ¬ has_package_line content →
       NLS_package filepath w
       = (Raise (ValueError ["File %s has no package definition!"; filepath]), w))
  ∧ (∀ line : string,
       "String" ∉ Str.split_ws line →
       line_to_variable line = Raise (ValueError ["invalid line: did not contain String"]))
  ∧ (∀ (filesandlines : gmap string (list string))
       (filesandpackages : gmap string string),
       (∀ p lines, filesandlines !! p = Some lines →
          (lines = [] ∨ is_Some (filesandpackages !! p))
          ∧ ∀ line, line ∈ lines → line_to_variable line ≠ Raise IndexError) →
       (∃ p lines line, filesandlines !! p = Some lines ∧ line ∈ lines
                        ∧ "String" ∉ Str.split_ws line) →
       build_replacement_patterns filesandlines filesandpackages
       = Raise (ValueError ["invalid line: did not contain String"]))
  ∧ (∀ (get_paths_to_all_NLS_classes find_java_files : string → list string)
       (cpu_count : nat) (module_paths : list string) (w : world),
       (∀ i, i ∈ concat (get_paths_to_all_NLS_classes <$> module_paths) →
             is_Some (files w !! i)) →
       (∃ i content, i ∈ concat (get_paths_to_all_NLS_classes <$> module_paths)
                     ∧ files w !! i = Some content ∧ ¬ has_package_line content) →
       ∃ i, i ∈ concat (get_paths_to_all_NLS_classes <$> module_paths)
         ∧ main get_paths_to_all_NLS_classes find_java_files cpu_count module_paths w
           = (Raise (ValueError ["File %s has no package definition!"; i]), w))
  ∧ (∀ (get_paths_to_all_NLS_classes find_java_files : string → list string)
       (cpu_count : nat) (module_paths : list string) (w : world),
       (∀ i, i ∈ concat (get_paths_to_all_NLS_classes <$> module_paths) →
          ∃ content, files w !! i = Some content ∧ has_package_line content
            ∧ ∀ line, line ∈ lines_no_nl content → is_variable_line line = true →
                      line_to_variable line ≠ Raise IndexError) →
       (∃ i content line,
          i ∈ concat (get_paths_to_all_NLS_classes <$> module_paths)
          ∧ files w !! i = Some content ∧ line ∈ lines_no_nl content
          ∧ is_variable_line line = true ∧ "String" ∉ Str.split_ws line) →
       main get_paths_to_all_NLS_classes find_java_files cpu_count module_paths w
       = (Raise (ValueError ["invalid line: did not contain String"]), w)).
Proof.
  split_and!.
  - intros fal i rest lines content w H1 H2 H3.
    exact (rewrite_holders_skips fal i rest lines content w H1 H2 H3).
  - intros w filepath content H1 H2.
    exact (NLS_package_missing w filepath content H1 H2).
  - intros line H. unfold line_to_variable.
    by rewrite (element_after_String_missing _ H).
  - intros fal fap H1 H2. exact (build_replacement_patterns_invalid_line fal fap H1 H2).
  - intros get find cpu module_paths w H1 H2.
    exact (main_raises_without_package get find cpu module_paths w H1 H2).
  - intros get find cpu module_paths w H1 H2.
    exact (main_raises_without_String get find cpu module_paths w H1 H2).
Qed.

Lemma missing_element_outcomes_witness :
  rewrite_holders {[ "/p/src/foo/Bah.java" := [declaration "FOO_a"] ]}
    ["/p/src/foo/Bah.java"] no_static_world
  = (Ok [false],
     World {[ "/p/src/foo/Bah.java" := holder_without_static_kept ]}
           [(WARNING, "No static block found in file /p/src/foo/Bah.java")])
  ∧ NLS_package "/p/src/foo/Bah.java" (project false)
    = (Raise (ValueError ["File %s has no package definition!"; "/p/src/foo/Bah.java"]),
       project false)
  ∧ line_to_variable "  public static StringBuilder sb;"
    = Raise (ValueError ["invalid line: did not contain String"])
  ∧ build_replacement_patterns
      {[ "src/foo/Bah.java" := [declaration "FOO_a"; "  public static StringBuilder sb;"] ]}
      Bah_package
    = Raise (ValueError ["invalid line: did not contain String"])
  ∧ (∃ i, i ∈ concat (project_holders <$> ["/p"])
      ∧ main project_holders project_sources 2 ["/p"] (project false)
        = (Raise (ValueError ["File %s has no package definition!"; i]),
           project false))
  ∧ main builder_holders project_sources 2 ["/p"] builder_world
    = (Raise (ValueError ["invalid line: did not contain String"]), builder_world).
Proof.
  destruct missing_element_outcomes
    as (Hstatic & Hpackage & Htoken & Hbuild & Hmain & Hmain').
  assert (Hsb : "String" ∉ Str.split_ws "  public static StringBuilder sb;").
  { vm_compute. intros Hi.
    repeat (apply elem_of_cons in Hi as [Hi|Hi]; [discriminate|]).
    by apply elem_of_nil in Hi. }
  split_and!.
  - rewrite (Hstatic _ "/p/src/foo/Bah.java" [] [declaration "FOO_a"]
               holder_without_static no_static_world).
    + by vm_compute.
    + by vm_compute.
    + by vm_compute.
    + apply contains_false. by vm_compute.
  - rewrite (Hpackage (project false) "/p/src/foo/Bah.java" (holder_file false "Bah")).
    + done.
    + by vm_compute.
    + exact holder_without_package.
  - exact (Htoken _ Hsb).
  - apply Hbuild.
    + intros p lines [<- <-]%lookup_singleton_Some. split.
      * right. unfold Bah_package. rewrite lookup_singleton_eq. by eexists.
      * intros line Hline.
        repeat (apply elem_of_cons in Hline as [->|Hline]; [by vm_compute|]).
        by apply elem_of_nil in Hline.
    + exists "src/foo/Bah.java",
        [declaration "FOO_a"; "  public static StringBuilder sb;"],
        "  public static StringBuilder sb;".
      split_and!; [apply lookup_singleton_eq | by right; left | exact Hsb].
  - apply Hmain.
    + apply project_holders_exist.
    + exists "/p/src/foo/Bah.java", (holder_file false "Bah").
      split_and!; [by left | by vm_compute | exact holder_without_package].
  - apply Hmain'.
    + intros i ->%list_elem_of_singleton. exists builder_file.
      split_and!; [by vm_compute | by_evaluation |].
      intros line Hline _. vm_compute in Hline.
      repeat (apply elem_of_cons in Hline as [->|Hline]; [by vm_compute|]).
      by apply elem_of_nil in Hline.
    + exists "/p/src/foo/Texts.java", builder_file,
        ("  public static StringBuilder buffer;" +:+ String nl "").
      split_and!; [by left | by vm_compute | | by vm_compute |].
      * apply (bool_decide_unpack _). by vm_compute.
      * vm_compute. intros Hi.
        repeat (apply elem_of_cons in Hi as [Hi|Hi]; [discriminate|]).
        by apply elem_of_nil in Hi.
Defined.

(** ** The claim about the order of the rules *)

(** C2: [build_replacement_patterns] returns its rules sorted ascending by
    (length of the variable name, variable name, length of the class name,
    fromPattern) and then reversed: the longest variable names come first,
    ties are broken by the variable name, then by the longest class name,
    then by the fromPattern, all descending; in particular a rule with a
    longer variable name, as [FOO_aa] against [FOO_a], stands before the
    rule with the shorter one. *)
Theorem build_replacement_patterns_order (filesandlines : gmap string (list string))
    (filesandpackages : gmap string string) (rules : list rule) :
  build_replacement_patterns filesandlines filesandpackages = Ok rules →
  (∃ patterns,
     collect_patterns filesandlines filesandpackages = Ok patterns
     ∧ rules = reverse (sorted sort_key key_le patterns)
     ∧ StronglySorted (λ a b, key_le (sort_key a) (sort_key b) = true)
         (sorted sort_key key_le patterns)
     ∧ rules ≡ₚ patterns)
  ∧ StronglySorted may_precede rules
  ∧ (∀ r1 r2, r1 ∈ rules → r2 ∈ rules →
       Str.len (variablename r2) < Str.len (variablename r1) →
       ∃ l1 l2 l3, rules = l1 ++ r1 :: l2 ++ r2 :: l3).
Proof.
  intros (patterns & Hcollect & ->)%build_replacement_patterns_Ok.
  split_and!.
  - exists patterns. split_and!; [done | done | |].
    + apply (sorted_ascending sort_key key_compare).
    + by rewrite reverse_Permutation, (sorted_perm sort_key key_compare).
  - apply rules_descending.
  - intros r1 r2 H1 H2 Hlen.
    apply (strongly_sorted_before may_precede); [apply rules_descending | done.. | |].
    + intros ->. lia.
    + unfold may_precede. lia.
Qed.

Lemma build_replacement_patterns_order_witness :
  StronglySorted may_precede [FOO_aa_rule; FOO_a_rule]
  ∧ ∃ l1 l2 l3, [FOO_aa_rule; FOO_a_rule] = l1 ++ FOO_aa_rule :: l2 ++ FOO_a_rule :: l3.
Proof.
  assert (Hbuild : build_replacement_patterns FOO_a_aa_lines Bah_package
                   = Ok [FOO_aa_rule; FOO_a_rule]) by (by vm_compute).
  destruct (build_replacement_patterns_order _ _ _ Hbuild) as (_ & Hsorted & Hbefore).
  split; [exact Hsorted|].
  apply Hbefore; [by left | by right; left | by vm_compute].
Defined.

(** ** The claim about the declaration lines *)

(** C7, the claim as stated fails: the line that declares a field of type
    [StringBuilder] is among the lines that [NLS_variable_lines] returns,
    yet [String] is not one of its words. *)
Lemma NLS_variable_lines_takes_part_of_a_word :
  fst (NLS_variable_lines "/p/src/foo/Texts.java" builder_world)
  = Ok [ "  public static StringBuilder buffer;" +:+ String nl "";
         "  public static String FOO_a;" +:+ String nl "" ]
  ∧ words ("  public static StringBuilder buffer;" +:+ String nl "")
    = ["public"; "static"; "StringBuilder"; "buffer"]
  ∧ declared_by_whole_words ("  public static StringBuilder buffer;" +:+ String nl "")
    = false.
Proof. split_and!; by vm_compute. Qed.

(** C7, amended: [NLS_variable_lines] returns, in the order of the file, the
    lines of the file in which the texts [public], [static] and [String]
    occur one after the other in this order, as parts of words or as whole
    words, and in which no opening parenthesis occurs. *)
Theorem NLS_variable_lines_selects (w : world) (filepath content : string) :
  files w !! filepath = Some content →
  ∃ lines,
    NLS_variable_lines filepath w = (Ok lines, w)
    ∧ lines = filter (λ i, is_variable_line i = true) (lines_no_nl content)
    ∧ sublist lines (lines_no_nl content)
    ∧ ∀ i, i ∈ lines_no_nl content →
        (i ∈ lines ↔ public_static_String_in_order i ∧ ¬ occurs "(" i).
Proof.
  intros Hfile. eexists. split_and!.
  - unfold NLS_variable_lines, mbind, M_bind, bind, read_file. by rewrite Hfile.
  - done.
  - apply sublist_filter.
  - intros i Hi. rewrite list_elem_of_filter.
    rewrite (is_variable_line_spec i (lines_no_nl_shape _ _ Hi)). tauto.
Qed.

Lemma NLS_variable_lines_selects_witness :
  ∃ lines,
    NLS_variable_lines "/p/src/foo/Texts.java" builder_world = (Ok lines, builder_world)
    ∧ lines = filter (λ i, is_variable_line i = true) (lines_no_nl builder_file)
    ∧ sublist lines (lines_no_nl builder_file)
    ∧ ∀ i, i ∈ lines_no_nl builder_file →
        (i ∈ lines ↔ public_static_String_in_order i ∧ ¬ occurs "(" i).
Proof.
  apply (NLS_variable_lines_selects builder_world "/p/src/foo/Texts.java" builder_file).
  by vm_compute.
Defined.

(** ** The claim about blank lines *)




(** * Further properties of the code *)

(** ** The files of a run *)

(** X1: the files that [main] hands to the usage pass are the Java files
    that the search finds under the module paths, without the holder files:
    [all_java_files_in] leaves out every excluded path and nothing else.  So
    the usage pass, [process_single_process] over the dealt sublists, leaves
    the content of every holder file as it is. *)
Theorem usage_pass_spares_holder_files (find_java_files : string → list string)
    (module_paths NLS_files : list string) (listcount : nat)
    (patterns : list rule) (w : world) :
  let alljavafiles :=
    concat ((λ module_path, all_java_files_in find_java_files module_path NLS_files)
            <$> module_paths) in
  (∀ p, p ∈ alljavafiles
        ↔ p ∈ concat (find_java_files <$> module_paths) ∧ p ∉ NLS_files)
  ∧ ∀ p, p ∈ NLS_files →
      files (process_single_process (deal listcount alljavafiles) patterns w).2 !! p
      = files w !! p.
Proof.
  intros alljavafiles. split; [intros p; apply (alljavafiles_elem find_java_files)|].
  intros p Hp.
  destruct (process_single_process_changes listcount alljavafiles patterns w)
    as (_ & Hother & _).
  apply Hother. rewrite not_elem_of_list_to_set. unfold alljavafiles.
  rewrite (alljavafiles_elem find_java_files). tauto.
Qed.

(** X2: a file read line by line without newline translation and written
    back is the same text, whatever its line ends are: when none of the lines
    of the file is among the lines to remove, [remove_lines_from_file]
    returns [False] and the file and all else are as before. *)
Theorem remove_lines_from_file_nothing_listed (w : world) (filepath content : string)
    (lines : list string) :
  files w !! filepath = Some content →
  (∀ i, i ∈ lines_no_nl content → i ∉ lines) →
  Str.join "" (lines_no_nl content) = content
  ∧ remove_lines_from_file filepath lines w = (Ok false, w).
Proof.
  intros Hfile Hnone. split; [apply join_lines_no_nl|].
  rewrite (remove_lines_from_file_run _ _ _ _ Hfile). f_equal.
  - f_equal. apply bool_decide_eq_false.
    intros (i & Hi & Hin%elem_of_list_to_set)%Exists_exists. by apply (Hnone i).
  - unfold kept_lines. rewrite filter_all, join_lines_no_nl; [by apply world_insert_id|].
    apply Forall_forall. intros i Hi. rewrite not_elem_of_list_to_set. by apply Hnone.
Qed.

Lemma remove_lines_from_file_nothing_listed_witness :
  Str.join "" (lines_no_nl crlf_file) = crlf_file
  ∧ remove_lines_from_file "f.java" ["c" +:+ String nl ""] crlf_world
    = (Ok false, crlf_world).
Proof.
  apply (remove_lines_from_file_nothing_listed crlf_world "f.java" crlf_file).
  - by vm_compute.
  - apply Forall_forall. by_evaluation.
Defined.

(** ** The pattern extractor *)

(** X3: the class name of a file is the name of the file without its
    directories and without its last extension: for a path that ends in a
    name, a dot and an extension, where the name holds no slash and a
    character other than a dot, and the extension no slash and no dot,
    [filepath_to_classname] returns the name, with or without directories
    before it. *)
Theorem filepath_to_classname_of_java_file (dir name ext : string) :
  has_char "/" name = false → all_char is_dot name = false →
  has_char "/" ext = false → has_char "." ext = false →
  filepath_to_classname (dir +:+ "/" +:+ name +:+ "." +:+ ext) = name
  ∧ filepath_to_classname (name +:+ "." +:+ ext) = name.
Proof.
  intros Hname Hdots Hext Hdot. unfold filepath_to_classname.
  assert (Hbase : has_char "/" (name +:+ "." +:+ ext) = false).
  { rewrite !has_char_app, Hname, Hext. done. }
  rewrite (basename_of_path _ _ Hbase), (basename_of_name _ Hbase).
  by rewrite splitext_root_ext.
Qed.

Lemma filepath_to_classname_of_java_file_witness :
  filepath_to_classname ("/p/src/foo" +:+ "/" +:+ "Bah.Messages" +:+ "." +:+ "java")
  = "Bah.Messages"
  ∧ filepath_to_classname ("Bah.Messages" +:+ "." +:+ "java") = "Bah.Messages".
Proof.
  apply (filepath_to_classname_of_java_file "/p/src/foo" "Bah.Messages" "java");
    by vm_compute.
Defined.

(** X4: the edge cases of [filepath_to_classname]: a file name without a
    dot is the class name as it is; a file name that begins with its only
    dot, a hidden file, keeps the dot and all that follows; and a path that
    ends in a slash has the empty class name. *)
Theorem filepath_to_classname_without_extension (dir name : string) :
  has_char "/" name = false → has_char "." name = false →
  filepath_to_classname (dir +:+ "/" +:+ name) = name
  ∧ filepath_to_classname (dir +:+ "/" +:+ "." +:+ name) = "." +:+ name
  ∧ filepath_to_classname (dir +:+ "/") = "".
Proof.
  intros Hname Hdot. unfold filepath_to_classname. split_and!.
  - by rewrite (basename_of_path _ _ Hname), splitext_root_no_dot.
  - rewrite (basename_of_path dir ("." +:+ name)) by done.
    by apply splitext_root_hidden.
  - change (dir +:+ "/") with (dir +:+ "/" +:+ "").
    by rewrite (basename_of_path dir "").
Qed.

Lemma filepath_to_classname_without_extension_witness :
  filepath_to_classname ("/p/src" +:+ "/" +:+ "Makefile") = "Makefile"
  ∧ filepath_to_classname ("/p/src" +:+ "/" +:+ "." +:+ "Makefile") = "." +:+ "Makefile"
  ∧ filepath_to_classname ("/p/src" +:+ "/") = "".
Proof.
  apply (filepath_to_classname_without_extension "/p/src" "Makefile"); by vm_compute.
Defined.

(** X5: when [line_to_variable] returns a variable, it is the element of
    [line.split()] that follows the first element [String], with every
    semicolon taken out: the variable holds no semicolon and no white
    space. *)
Theorem line_to_variable_result (line v : string) :
  line_to_variable line = Ok v →
  (∃ pre e post,
     Str.split_ws line = pre ++ "String" :: e :: post
     ∧ ("String" ∉ pre)
     ∧ v = Str.replace e ";" "")
  ∧ has_char ";" v = false
  ∧ any_char Str.is_space v = false.
Proof.
  unfold line_to_variable.
  destruct (element_after_String (Str.split_ws line)) as [e|] eqn:E; [|done].
  cbn [rbind]. intros [= <-].
  destruct (element_after_String_Ok _ _ E) as (pre & post & Hsplit & Hpre).
  split_and!.
  - by exists pre, e, post.
  - apply replace_char_removed.
  - apply replace_char_any. apply (split_ws_tokens line).
    rewrite Hsplit. apply elem_of_app. right. right. by left.
Qed.

Lemma line_to_variable_result_witness :
  (∃ pre e post,
     Str.split_ws ("  public static String FOO_a;" +:+ String nl "")
     = pre ++ "String" :: e :: post
     ∧ ("String" ∉ pre)
     ∧ "FOO_a" = Str.replace e ";" "")
  ∧ has_char ";" "FOO_a" = false
  ∧ any_char Str.is_space "FOO_a" = false.
Proof.
  apply (line_to_variable_result ("  public static String FOO_a;" +:+ String nl "")).
  by vm_compute.
Defined.

(** X6: a line whose last element is the first [String] has no element
    after it: [line_to_variable] raises [IndexError], not the [ValueError] of
    a line without [String], and [build_replacement_patterns] passes it on. *)
Theorem line_to_variable_String_last (line : string) (pre : list string) :
  Str.split_ws line = pre ++ ["String"] → "String" ∉ pre →
  line_to_variable line = Raise IndexError
  ∧ ∀ (filepath : string) (lines : list string) (filesandpackages : gmap string string),
      build_replacement_patterns {[ filepath := line :: lines ]} filesandpackages
      = Raise IndexError.
Proof.
  intros Hsplit Hpre.
  assert (Hline : line_to_variable line = Raise IndexError).
  { unfold line_to_variable. by rewrite Hsplit, element_after_String_last. }
  split; [done|]. intros filepath lines fap.
  unfold build_replacement_patterns, collect_patterns, sorted_items.
  rewrite map_to_list_singleton. cbn [sorted insert_sorted patterns_of_items patterns_of_lines].
  by rewrite Hline.
Qed.

Lemma line_to_variable_String_last_witness :
  is_variable_line ("  public static String" +:+ String nl "") = true
  ∧ line_to_variable ("  public static String" +:+ String nl "") = Raise IndexError
  ∧ ∀ (filepath : string) (lines : list string) (filesandpackages : gmap string string),
      build_replacement_patterns
        {[ filepath := ("  public static String" +:+ String nl "") :: lines ]}
        filesandpackages
      = Raise IndexError.
Proof.
  split; [by vm_compute|].
  apply (line_to_variable_String_last _ ["public"; "static"]); [by vm_compute|].
  not_in_list.
Defined.

(** X7: [NLS_package] returns the name that stands between [package] and the
    semicolon on the first line of the file that begins with [package] and a
    space, when the name holds no semicolon and no white space and only white
    space follows the semicolon. *)
Theorem NLS_package_reads_name (w : world) (filepath content : string)
    (pre post : list string) (name eol : string) :
  files w !! filepath = Some content →
  lines_no_nl content = pre ++ ("package " +:+ name +:+ ";" +:+ eol) :: post →
  Forall (λ i, Str.startswith "package " i = false) pre →
  has_char ";" name = false → any_char Str.is_space name = false →
  all_char Str.is_space eol = true →
  NLS_package filepath w = (Ok name, w).
Proof.
  intros Hfile Hlines Hpre Hsemi Hname Heol.
  unfold NLS_package, mbind, M_bind, bind, read_file, lift. rewrite Hfile, Hlines.
  by rewrite NLS_package_lines_found.
Qed.

Lemma NLS_package_reads_name_witness :
  NLS_package "/p/src/foo/Bah.java" small_project = (Ok "foo", small_project).
Proof.
  apply (NLS_package_reads_name small_project "/p/src/foo/Bah.java"
           (holder_file true "Bah") [] (drop 1 (lines_no_nl (holder_file true "Bah")))
           "foo" (String nl ""));
    by vm_compute.
Defined.

(** ** The replacement-rule builder *)

(** X8: when every declaration line of every file has an element after
    [String], and every file that has declaration lines has a package,
    [build_replacement_patterns] returns rules: one rule for each
    declaration line, and the rules are exactly the tuples made from a file,
    one of its lines and the package of the file.  A file without
    declaration lines needs no package. *)
Theorem build_replacement_patterns_one_rule_per_line
    (filesandlines : gmap string (list string)) (filesandpackages : gmap string string) :
  (∀ p lines, filesandlines !! p = Some lines →
     (lines = [] ∨ is_Some (filesandpackages !! p))
     ∧ ∀ line, line ∈ lines → ∃ v, line_to_variable line = Ok v) →
  ∃ rules,
    build_replacement_patterns filesandlines filesandpackages = Ok rules
    ∧ length rules
      = sum_list_with (λ kv : string * list string, length kv.2)
          (map_to_list filesandlines)
    ∧ ∀ r, r ∈ rules ↔
        ∃ p lines line pkg v,
          filesandlines !! p = Some lines ∧ line ∈ lines
          ∧ filesandpackages !! p = Some pkg ∧ line_to_variable line = Ok v
          ∧ r = rule_of p pkg v.
Proof.
  intros Hall.
  destruct (patterns_of_items_rules filesandpackages (sorted_items filesandlines) [])
    as (new & Hrun & Hlen & Hin).
  { intros p lines Hp%sorted_items_elem. by apply Hall. }
  exists (reverse (sorted sort_key key_le new)). split_and!.
  - unfold build_replacement_patterns, collect_patterns. by rewrite Hrun.
  - rewrite length_reverse. unfold key_le.
    rewrite (Permutation_length (sorted_perm sort_key key_compare new)).
    rewrite Hlen. unfold sorted_items, str_le.
    by rewrite (sorted_perm fst Str.compare).
  - intros r. rewrite elem_of_reverse, (sorted_perm sort_key key_compare), Hin.
    split; intros (p & lines & line & pkg & v & Hp & Hrest);
      exists p, lines, line, pkg, v; (split; [|done]); by apply sorted_items_elem.
Qed.

Lemma build_replacement_patterns_one_rule_per_line_witness :
  ∃ rules,
    build_replacement_patterns FOO_a_aa_lines Bah_package = Ok rules
    ∧ length rules
      = sum_list_with (λ kv : string * list string, length kv.2)
          (map_to_list FOO_a_aa_lines)
    ∧ ∀ r, r ∈ rules ↔
        ∃ p lines line pkg v,
          FOO_a_aa_lines !! p = Some lines ∧ line ∈ lines
          ∧ Bah_package !! p = Some pkg ∧ line_to_variable line = Ok v
          ∧ r = rule_of p pkg v.
Proof.
  apply (build_replacement_patterns_one_rule_per_line FOO_a_aa_lines Bah_package).
  unfold FOO_a_aa_lines, Bah_package.
  intros p lines [<- <-]%lookup_singleton_Some. split.
  - right. eexists. by vm_compute.
  - intros line Hline.
    repeat (apply elem_of_cons in Hline as [->|Hline]; [by eexists; vm_compute|]).
    by apply elem_of_nil in Hline.
Defined.

(** X9: the package of a file is looked up only after the variable of one
    of its lines has been read: when every declaration line has an element
    after [String] and some file with declaration lines has no package,
    [build_replacement_patterns] raises [KeyError] with the path of such a
    file. *)
Theorem build_replacement_patterns_missing_package
    (filesandlines : gmap string (list string)) (filesandpackages : gmap string string) :
  (∀ p lines line, filesandlines !! p = Some lines → line ∈ lines →
     ∃ v, line_to_variable line = Ok v) →
  (∃ p lines, filesandlines !! p = Some lines ∧ lines ≠ []
              ∧ filesandpackages !! p = None) →
  ∃ p lines,
    filesandlines !! p = Some lines ∧ lines ≠ [] ∧ filesandpackages !! p = None
    ∧ build_replacement_patterns filesandlines filesandpackages = Raise (KeyError p).
Proof.
  intros Hvalid (p & lines & Hp & Hne & Hnone).
  destruct (patterns_of_items_no_package filesandpackages (sorted_items filesandlines) [])
    as (q & ls & Hq & Hqne & Hqnone & Hrun).
  { intros q ls l Hq%sorted_items_elem Hl. by apply (Hvalid q ls). }
  { exists p, lines. split_and!; [by apply sorted_items_elem | done | done]. }
  exists q, ls. split_and!; [by apply sorted_items_elem | done | done |].
  unfold build_replacement_patterns, collect_patterns. by rewrite Hrun.
Qed.

Lemma build_replacement_patterns_missing_package_witness :
  ∃ p lines,
    FOO_a_lines !! p = Some lines ∧ lines ≠ [] ∧ (∅ : gmap string string) !! p = None
    ∧ build_replacement_patterns FOO_a_lines ∅ = Raise (KeyError p).
Proof.
  apply (build_replacement_patterns_missing_package FOO_a_lines ∅).
  - unfold FOO_a_lines. intros p lines line [<- <-]%lookup_singleton_Some Hline.
    apply list_elem_of_singleton in Hline as ->. by eexists; vm_compute.
  - exists "src/foo/Bah.java", [declaration "FOO_a"]. by vm_compute.
Defined.

(** ** The rewrite engine *)

(** X10: a content in which the variable name does not occur is returned by
    [regex_replace_variable_safely] as it is, whatever the accessor string,
    when the name holds no operator of [re]: both patterns compile and
    neither loop finds a match. *)
Theorem regex_replace_variable_safely_name_absent (content variablename TO : string) :
  no_operator variablename = true →
  ¬ occurs variablename content →
  regex_replace_variable_safely content variablename TO = Ok content.
Proof.
  intros Hplain H%contains_false.
  rewrite regex_replace_variable_safely_plain by done. f_equal.
  by apply regex_replace_variable_safely_absent.
Qed.

Lemma regex_replace_variable_safely_name_absent_witness :
  regex_replace_variable_safely "x = FOO_b; y = FOO;" "FOO_a"
    (TEMPLATE_MESSAGE_TOSTRING "Bah" "FOO_a")
  = Ok "x = FOO_b; y = FOO;".
Proof.
  apply regex_replace_variable_safely_name_absent; [by vm_compute|].
  apply contains_false. by vm_compute.
Defined.

(** X11: a content that holds no static import of the variable or of the
    class, and in which the replacement of the qualified references makes
    none, is rewritten by one rule whose names stand for themselves in the
    patterns to the content with every occurrence of the fromPattern
    replaced by the toPattern, as [str.replace] does it; bare names are left
    alone. *)
Theorem replace_NLS_usage_qualified_references (content : string) (r : rule) :
  plain_rule r →
  ¬ occurs (staticimportvariable r) content →
  ¬ occurs (staticimportstar r) content →
  ¬ occurs (staticimportstar r) (Str.replace content (FROM r) (TO r)) →
  replace_NLS_usage content [r] = Ok (Str.replace content (FROM r) (TO r)).
Proof.
  intros Hplain H1%contains_false H2%contains_false H3%contains_false.
  rewrite replace_NLS_usage_plain by (constructor; [done | constructor]). f_equal.
  by apply replace_NLS_usage_qualified_only.
Qed.

Lemma replace_NLS_usage_qualified_references_witness :
  replace_NLS_usage "x = Bah.FOO_a; y = FOO_a; z = Bah.FOO_a;" [FOO_a_rule]
  = Ok ("x = " +:+ TEMPLATE_MESSAGE_TOSTRING "Bah" "FOO_a" +:+ "; y = FOO_a; z = "
        +:+ TEMPLATE_MESSAGE_TOSTRING "Bah" "FOO_a" +:+ ";").
Proof.
  rewrite (replace_NLS_usage_qualified_references
             "x = Bah.FOO_a; y = FOO_a; z = Bah.FOO_a;" FOO_a_rule).
  - by vm_compute.
  - repeat split; by vm_compute.
  - apply contains_false. by vm_compute.
  - apply contains_false. by vm_compute.
  - apply contains_false. by vm_compute.
Defined.

(** ** The file rewriter *)

(** X12: [replace_patterns_in_file] writes the file only after
    [replace_NLS_usage] has returned.  With the content that the engine
    returns, the file is left with that content and the flag says whether it
    differs from the content read; when the engine raises, as for a rule
    whose import pattern does not compile, the exception is passed on and
    the file is as it was.  For rules whose names stand for themselves in
    the patterns, a file in which none of them finds its static imports or
    its fromPattern gives [False] and nothing has changed. *)
Theorem replace_patterns_in_file_effect (w : world) (filepath content : string)
    (patterns : list rule) :
  files w !! filepath = Some content →
  (∀ newcontent,
     replace_NLS_usage content patterns = Ok newcontent →
     replace_patterns_in_file filepath patterns w
     = (Ok (bool_decide (newcontent ≠ content)), with_file w filepath newcontent))
  ∧ (∀ e,
       replace_NLS_usage content patterns = Raise e →
       replace_patterns_in_file filepath patterns w = (Raise e, w))
  ∧ (Forall plain_rule patterns →
     (∀ r, r ∈ patterns → silent content r) →
     replace_patterns_in_file filepath patterns w = (Ok false, w)).
Proof.
  intros Hfile. split_and!.
  - intros newcontent Hnew. by apply replace_patterns_in_file_run.
  - intros e He. by apply (replace_patterns_in_file_raises _ _ content).
  - intros Hplain Hsilent.
    rewrite (replace_patterns_in_file_run _ _ content content _ Hfile).
    + unfold with_file. rewrite world_insert_id by done.
      by rewrite bool_decide_eq_false_2 by (intros H; by apply H).
    + rewrite replace_NLS_usage_plain by done. f_equal.
      apply replace_NLS_usage_silent. by apply Forall_forall.
Qed.

Lemma replace_patterns_in_file_effect_witness :
  replace_patterns_in_file "/p/src/bar/Use.java" [FOO_a_rule] small_project
  = (Ok true, with_file small_project "/p/src/bar/Use.java" usage_after)
  ∧ replace_patterns_in_file "/p/src/bar/Use.java" [FOO_array_rule] small_project
    = (Raise re_error, small_project)
  ∧ replace_patterns_in_file "/p/src/bar/Use.java" [rule_of "src/foo/Baz.java" "foo" "FOO_a"]
      small_project
    = (Ok false, small_project).
Proof.
  split_and!.
  - rewrite (proj1 (replace_patterns_in_file_effect small_project "/p/src/bar/Use.java"
                      usage_before [FOO_a_rule] eq_refl) usage_after).
    + by vm_compute.
    + by vm_compute.
  - apply (replace_patterns_in_file_effect small_project "/p/src/bar/Use.java"
             usage_before [FOO_array_rule] eq_refl).
    by vm_compute.
  - apply (replace_patterns_in_file_effect small_project "/p/src/bar/Use.java"
             usage_before [rule_of "src/foo/Baz.java" "foo" "FOO_a"] eq_refl).
    + repeat constructor; by vm_compute.
    + intros r ->%list_elem_of_singleton.
      repeat split; apply contains_false; by vm_compute.
Defined.

(** X13: with rules whose names stand for themselves in the patterns,
    [replace_patterns_in_filelist] stops at the first file that does not
    exist: it raises [FileNotFoundError] for it, no flag is returned for the
    files that were handled before, and those files stay as they were
    rewritten. *)
Theorem replace_patterns_in_filelist_stops_at_missing_file
    (handled rest : list string) (missing : string) (patterns : list rule) (w : world) :
  Forall plain_rule patterns →
  (∀ p, p ∈ handled → is_Some (files w !! p)) →
  files w !! missing = None →
  ∃ flags w',
    replace_patterns_in_filelist handled patterns w = (Ok flags, w')
    ∧ replace_patterns_in_filelist (handled ++ missing :: rest) patterns w
      = (Raise (FileNotFoundError missing), w').
Proof. apply replace_patterns_in_filelist_stops. Qed.

Lemma replace_patterns_in_filelist_stops_at_missing_file_witness :
  ∃ flags w',
    replace_patterns_in_filelist ["/p/src/bar/Use.java"] [FOO_a_rule] small_project
    = (Ok flags, w')
    ∧ replace_patterns_in_filelist
        (["/p/src/bar/Use.java"] ++ "/p/src/bar/None.java" :: ["/p/src/foo/Bah.java"])
        [FOO_a_rule] small_project
      = (Raise (FileNotFoundError "/p/src/bar/None.java"), w').
Proof.
  apply (replace_patterns_in_filelist_stops_at_missing_file
           ["/p/src/bar/Use.java"] ["/p/src/foo/Bah.java"] "/p/src/bar/None.java").
  - exact FOO_a_rule_plain.
  - intros p ->%list_elem_of_singleton. eexists. by vm_compute.
  - by vm_compute.
Defined.

(** ** The message-holder transformer *)

(** X14: [replace_static_constructor_with_resolver] puts the declaration of
    the resolver in the place of the first [static {] and of all that follows
    up to the first closing brace after it; what stands before and after is
    kept, be it a brace that closes a block inside the static block or a
    second static block. *)
Theorem replace_static_constructor_with_resolver_first_block (A B C : string) :
  ¬ occurs "static {" A → ¬ occurs "}" B →
  replace_static_constructor_with_resolver (A +:+ "static {" +:+ B +:+ "}" +:+ C)
  = Ok (A +:+ resolver_declaration +:+ C).
Proof. apply replace_static_constructor_block. Qed.

Lemma replace_static_constructor_with_resolver_first_block_witness :
  replace_static_constructor_with_resolver
    ("class A {" +:+ "static {" +:+ " if (x) { y(); " +:+ "}" +:+ " } static { } }")
  = Ok ("class A {" +:+ resolver_declaration +:+ " } static { } }").
Proof.
  apply replace_static_constructor_with_resolver_first_block;
    apply contains_false; by vm_compute.
Defined.

(** X15: a static block that is never closed counts as no static block: when
    no closing brace follows the first [static {] of the content that is left
    after the removal of the declaration lines, [rewrite_NLS_Messages_file]
    logs the warning that no static block was found and returns [False]; the
    file keeps the removal. *)
Theorem rewrite_NLS_Messages_file_unclosed_static_block (w : world)
    (filepath : string) (variablelines : list string) (content A B : string) :
  files w !! filepath = Some content →
  kept_lines variablelines content = A +:+ "static {" +:+ B →
  ¬ occurs "static {" A → ¬ occurs "}" B →
  rewrite_NLS_Messages_file filepath variablelines w
  = (Ok false,
     World (<[filepath := kept_lines variablelines content]> (files w))
           (records w ++ [(WARNING, "No static block found in file " +:+ filepath)])).
Proof.
  intros Hfile Hkept HA HB. rewrite (rewrite_NLS_Messages_file_steps _ _ _ _ Hfile).
  cbv zeta. by rewrite Hkept, replace_static_constructor_unclosed.
Qed.

Lemma rewrite_NLS_Messages_file_unclosed_static_block_witness :
  rewrite_NLS_Messages_file "/p/src/foo/Bah.java" [declaration "FOO_a"]
    (holder_world holder_unclosed)
  = (Ok false,
     World (<["/p/src/foo/Bah.java" := kept_lines [declaration "FOO_a"] holder_unclosed]>
              (files (holder_world holder_unclosed)))
           (records (holder_world holder_unclosed)
            ++ [(WARNING, "No static block found in file " +:+ "/p/src/foo/Bah.java")])).
Proof.
  apply (rewrite_NLS_Messages_file_unclosed_static_block (holder_world holder_unclosed)
           "/p/src/foo/Bah.java" [declaration "FOO_a"] holder_unclosed
           (text [ "package foo;"; ""; "import org.eclipse.osgi.util.NLS;"; "";
                   "public class Bah extends NLS {"; "  " ])
           (text [ ""; "    NLS.initializeMessages(BUNDLE_NAME, Bah.class);"; "" ])).
  - by vm_compute.
  - by vm_compute.
  - apply contains_false. by vm_compute.
  - apply contains_false. by vm_compute.
Defined.

(** X16: [add_import_to_string] puts the three import lines of the resolver
    and an empty line directly before the first occurrence of the existing
    import; the text before and the text from the occurrence on are kept. *)
Theorem add_import_to_string_before_first (A B existing_import : string) :
  (∀ a b, A +:+ existing_import +:+ B = a +:+ existing_import +:+ b →
          Str.len A ≤ Str.len a) →
  add_import_to_string (A +:+ existing_import +:+ B) existing_import
  = Ok (A +:+ resolver_imports +:+ existing_import +:+ B).
Proof. apply add_import_to_string_first. Qed.

Lemma add_import_to_string_before_first_witness :
  add_import_to_string
    (text ["package some.package;"; ""; ""] +:+ "import some.other"
     +:+ text [";"; ""; "import some.other;"])
    "import some.other"
  = Ok (text ["package some.package;"; ""; ""] +:+ resolver_imports
        +:+ "import some.other" +:+ text [";"; ""; "import some.other;"]).
Proof.
  apply add_import_to_string_before_first. apply first_from_find. by vm_compute.
Defined.

(** X17: when the existing import does not occur, [add_import_to_string]
    raises [NameError]: its handler names the variable [filepath], which is
    not bound, so the error it means to log is never logged.
    [add_import_before] passes the exception on and leaves the file as it is;
    for a file that holds the import of the NLS class it writes the file with
    the import lines of the resolver before the first such import. *)
Theorem add_import_before_effect (w : world) (filepath content : string) :
  files w !! filepath = Some content →
  (¬ occurs NLS_import content →
   add_import_to_string content NLS_import = Raise (NameError "filepath")
   ∧ add_import_before filepath w = (Raise (NameError "filepath"), w))
  ∧ (∀ A B, content = A +:+ NLS_import +:+ B → ¬ occurs NLS_import A →
     add_import_before filepath w
     = (Ok tt, with_file w filepath (A +:+ resolver_imports +:+ NLS_import +:+ B))).
Proof.
  intros Hfile. unfold add_import_before, mbind, M_bind, bind, read_file, lift, write_file.
  rewrite Hfile. fold NLS_import. split.
  - intros Habs. by rewrite (add_import_to_string_absent _ _ Habs).
  - intros A B -> HA%contains_false. rewrite add_import_to_string_first; [done|].
    apply first_from_find. by apply find_absent_before.
Qed.

Lemma add_import_before_effect_witness :
  add_import_before "/p/src/foo/Bah.java" (holder_world holder_without_import)
  = (Raise (NameError "filepath"), holder_world holder_without_import)
  ∧ add_import_before "/p/src/foo/Bah.java"
      (holder_world ("package foo;" +:+ NLS_import +:+ ";"))
    = (Ok tt,
       with_file (holder_world ("package foo;" +:+ NLS_import +:+ ";"))
         "/p/src/foo/Bah.java" ("package foo;" +:+ resolver_imports +:+ NLS_import +:+ ";")).
Proof.
  split.
  - apply (add_import_before_effect (holder_world holder_without_import)
             "/p/src/foo/Bah.java" holder_without_import eq_refl).
    apply contains_false. by vm_compute.
  - apply (add_import_before_effect (holder_world ("package foo;" +:+ NLS_import +:+ ";"))
             "/p/src/foo/Bah.java" ("package foo;" +:+ NLS_import +:+ ";") eq_refl);
      [done | apply contains_false; by vm_compute].
Defined.

(** X18: [add_to_end_of_last_class] puts the block directly before the last
    line feed that is followed by a closing brace, and keeps the rest; a
    content without a closing brace at the start of a line makes it raise
    [ValueError]. *)
Theorem add_to_end_of_last_class_before_last_brace (block : string) :
  (∀ A B, ¬ occurs closing_brace B →
     add_to_end_of_last_class (A +:+ closing_brace +:+ B) block
     = Ok (A +:+ block +:+ closing_brace +:+ B))
  ∧ (∀ content, ¬ occurs closing_brace content →
       add_to_end_of_last_class content block
       = Raise (ValueError ["substring not found"])).
Proof.
  split.
  - intros A B. apply add_to_end_of_last_class_last.
  - intros content. apply add_to_end_of_last_class_absent.
Qed.

Lemma add_to_end_of_last_class_before_last_brace_witness :
  add_to_end_of_last_class
    (text ["class A {"; "  class B {"; "  }"] +:+ closing_brace +:+ String nl " ")
    TEMPLATE_GETSTRING
  = Ok (text ["class A {"; "  class B {"; "  }"] +:+ TEMPLATE_GETSTRING
        +:+ closing_brace +:+ String nl " ")
  ∧ add_to_end_of_last_class holder_on_one_line TEMPLATE_GETSTRING
    = Raise (ValueError ["substring not found"]).
Proof.
  destruct (add_to_end_of_last_class_before_last_brace TEMPLATE_GETSTRING) as [H1 H2].
  split; [apply H1 | apply H2]; apply contains_false; by vm_compute.
Defined.

(** X19: only the missing static block is caught.  When the static block
    has been replaced and the import of the NLS class is missing,
    [rewrite_NLS_Messages_file] ends with the [NameError] of
    [add_import_to_string]; when the import is there and no closing brace
    stands at the start of a line, it ends with the [ValueError] of
    [add_to_end_of_last_class].  In both cases nothing is logged and the file
    is left as the removal of the declaration lines has written it. *)
Theorem rewrite_NLS_Messages_file_later_errors_escape (w : world) (filepath : string)
    (variablelines : list string) (content rewritten : string) :
  files w !! filepath = Some content →
  replace_static_constructor_with_resolver (kept_lines variablelines content)
  = Ok rewritten →
  (¬ occurs NLS_import rewritten →
   rewrite_NLS_Messages_file filepath variablelines w
   = (Raise (NameError "filepath"),
      with_file w filepath (kept_lines variablelines content)))
  ∧ (∀ imported, add_import_to_string rewritten NLS_import = Ok imported →
     ¬ occurs closing_brace imported →
     rewrite_NLS_Messages_file filepath variablelines w
     = (Raise (ValueError ["substring not found"]),
        with_file w filepath (kept_lines variablelines content))).
Proof.
  intros Hfile Hstatic. rewrite (rewrite_NLS_Messages_file_steps _ _ _ _ Hfile).
  cbv zeta. rewrite Hstatic. split.
  - intros Habs. by rewrite (add_import_to_string_absent _ _ Habs).
  - intros imported -> Habs. by rewrite (add_to_end_of_last_class_absent _ _ Habs).
Qed.

Lemma rewrite_NLS_Messages_file_later_errors_escape_witness :
  rewrite_NLS_Messages_file "/p/src/foo/Bah.java" [declaration "FOO_a"]
    (holder_world holder_without_import)
  = (Raise (NameError "filepath"),
     with_file (holder_world holder_without_import) "/p/src/foo/Bah.java"
       (kept_lines [declaration "FOO_a"] holder_without_import))
  ∧ rewrite_NLS_Messages_file "/p/src/foo/Bah.java" []
      (holder_world holder_on_one_line)
    = (Raise (ValueError ["substring not found"]),
       with_file (holder_world holder_on_one_line) "/p/src/foo/Bah.java"
         (kept_lines [] holder_on_one_line)).
Proof.
  split.
  - eapply (rewrite_NLS_Messages_file_later_errors_escape
              (holder_world holder_without_import) "/p/src/foo/Bah.java"
              [declaration "FOO_a"] holder_without_import).
    + by vm_compute.
    + by vm_compute.
    + apply contains_false. by vm_compute.
  - eapply (rewrite_NLS_Messages_file_later_errors_escape
              (holder_world holder_on_one_line) "/p/src/foo/Bah.java"
              [] holder_on_one_line).
    + by vm_compute.
    + by vm_compute.
    + by vm_compute.
    + apply contains_false. by vm_compute.
Defined.

(** X20: blank lines at the end of a content whose last line is not blank.
    One line feed added to the content is kept by [cleanup_empty_lines]; of
    two, one is taken away; three or more are cut down to two.  So an empty
    line at the end of a file, after a line that ends in a line feed, is
    removed, and only longer runs leave one. *)
Theorem cleanup_empty_lines_line_feeds_at_end (content : string) :
  last_line_not_blank content →
  cleanup_empty_lines (content +:+ line_feeds 1)
  = cleanup_empty_lines content +:+ line_feeds 1
  ∧ cleanup_empty_lines (content +:+ line_feeds 2)
    = cleanup_empty_lines content +:+ line_feeds 1
  ∧ ∀ k, 3 ≤ k →
      cleanup_empty_lines (content +:+ line_feeds k)
      = cleanup_empty_lines content +:+ line_feeds 2.
Proof.
  intros Hlast. split_and!.
  - by rewrite (cleanup_empty_lines_blank_end content 0 Hlast).
  - by rewrite (cleanup_empty_lines_blank_end content 1 Hlast).
  - intros [|k] Hk; [lia|]. rewrite (cleanup_empty_lines_blank_end content k Hlast).
    destruct (decide (k = 0 ∨ k = 1)); [lia | done].
Qed.

Lemma cleanup_empty_lines_line_feeds_at_end_witness :
  cleanup_empty_lines ("}" +:+ line_feeds 1) = cleanup_empty_lines "}" +:+ line_feeds 1
  ∧ cleanup_empty_lines ("}" +:+ line_feeds 2) = cleanup_empty_lines "}" +:+ line_feeds 1
  ∧ ∀ k, 3 ≤ k →
      cleanup_empty_lines ("}" +:+ line_feeds k) = cleanup_empty_lines "}" +:+ line_feeds 2.
Proof.
  apply (cleanup_empty_lines_line_feeds_at_end "}").
  intros a [= <-]. by vm_compute.
Defined.

(** X21: [cleanup_empty_lines] changes nothing in a content that has no
    three blank lines in a row and does not end in two blank lines.  A second
    pass can still change what the first has left, a third pass never
    does: after a line that is not blank and three line feeds the first pass
    leaves two line feeds and the second one. *)
Theorem cleanup_empty_lines_passes :
  (∀ content,
     no_three_blank (Str.split nl content) → ¬ ends_two_blank (Str.split nl content) →
     cleanup_empty_lines content = content)
  ∧ (∀ content,
       cleanup_empty_lines (cleanup_empty_lines (cleanup_empty_lines content))
       = cleanup_empty_lines (cleanup_empty_lines content))
  ∧ (∀ content,
       last_line_not_blank content →
       cleanup_empty_lines (content +:+ line_feeds 3)
       = cleanup_empty_lines content +:+ line_feeds 2
       ∧ cleanup_empty_lines (cleanup_empty_lines (content +:+ line_feeds 3))
         = cleanup_empty_lines content +:+ line_feeds 1).
Proof.
  split_and!.
  - intros content Hno Hend. unfold cleanup_empty_lines.
    rewrite cleanup_lines_fixed; [apply join_split | | done].
    apply (no_three_blank_runs_ok []); [cbn; lia | done | done].
  - intros content. set (once := cleanup_empty_lines content).
    unfold cleanup_empty_lines at 1. rewrite split_cleanup_empty_lines.
    rewrite cleanup_lines_second_pass; [done|].
    unfold once. rewrite split_cleanup_empty_lines.
    apply (cleanup_loop_runs_ok _ 0 None None).
  - intros content Hlast.
    assert (H3 : cleanup_empty_lines (content +:+ line_feeds 3)
                 = cleanup_empty_lines content +:+ line_feeds 2).
    { by rewrite (cleanup_empty_lines_blank_end content 2 Hlast). }
    split; [done|]. rewrite H3.
    destruct (last_line_not_blank_fixed content Hlast) as [Hfix Hlast'].
    by rewrite (cleanup_empty_lines_blank_end _ 1 Hlast'), Hfix.
Qed.

Lemma cleanup_empty_lines_passes_witness :
  cleanup_empty_lines (text ["a"; ""; ""; "b"]) = text ["a"; ""; ""; "b"]
  ∧ cleanup_empty_lines ("}" +:+ line_feeds 3) = cleanup_empty_lines "}" +:+ line_feeds 2
  ∧ cleanup_empty_lines (cleanup_empty_lines ("}" +:+ line_feeds 3))
    = cleanup_empty_lines "}" +:+ line_feeds 1.
Proof.
  destruct cleanup_empty_lines_passes as (Hfixed & _ & Htwice).
  split.
  - apply Hfixed.
    + apply blank_runs_ok_no_three. vm_compute. repeat split; lia.
    + apply (ends_two_blank_last _ "b"); by vm_compute.
  - apply Htwice. intros a [= <-]. by vm_compute.
Defined.

(** ** What a run changes *)

(** X22: [rewrite_NLS_Messages_file] creates no file and deletes none,
    leaves the content of every file other than the holder file as it is, and
    only adds to the log, whether it returns or raises; for a path without a
    file it raises [FileNotFoundError] and nothing has changed. *)
Theorem rewrite_NLS_Messages_file_changes_only_its_file (w : world) (filepath : string)
    (variablelines : list string) :
  changes_only {[filepath]} w (rewrite_NLS_Messages_file filepath variablelines w).2
  ∧ (files w !! filepath = None →
     rewrite_NLS_Messages_file filepath variablelines w
     = (Raise (FileNotFoundError filepath), w)).
Proof.
  split; [apply rewrite_NLS_Messages_file_changes
         | apply rewrite_NLS_Messages_file_missing].
Qed.

(** X23: a run of [main], in single-process mode, creates no file and
    deletes none, only adds to the log, and leaves the content of every file
    as it is that is neither a holder file nor a Java file found under the
    module paths, whether the run returns or raises. *)
Theorem main_changes_only_project_files
    (get_paths_to_all_NLS_classes find_java_files : string → list string)
    (cpu_count : nat) (module_paths : list string) (w : world) :
  changes_only
    (list_to_set (concat (get_paths_to_all_NLS_classes <$> module_paths))
     ∪ list_to_set (concat (find_java_files <$> module_paths)))
    w (main get_paths_to_all_NLS_classes find_java_files cpu_count module_paths w).2.
Proof. apply main_changes. Qed.

(** X24: the files are dealt into [listcount] sublists, and every file comes
    into exactly one of them: the sublists, one after the other, are the
    files in another order, and in the same order when there are no more
    files than sublists.  [process_single_process] handles the sublists one
    after the other as one list of files. *)
Theorem deal_every_file_once (listcount : nat) (alljavafiles : list string) :
  0 < listcount →
  length (deal listcount alljavafiles) = listcount
  ∧ concat (deal listcount alljavafiles) ≡ₚ alljavafiles
  ∧ (length alljavafiles ≤ listcount →
     concat (deal listcount alljavafiles) = alljavafiles)
  ∧ ∀ patterns w,
      process_single_process (deal listcount alljavafiles) patterns w
      = replace_patterns_in_filelist (concat (deal listcount alljavafiles)) patterns w.
Proof.
  intros Hk. split_and!.
  - unfold deal. by rewrite length_fmap, length_seq.
  - by apply deal_perm.
  - apply deal_in_order.
  - intros patterns w. apply process_single_process_concat.
Qed.

Lemma deal_every_file_once_witness :
  deal 2 ["A.java"; "B.java"; "C.java"] = [["A.java"; "C.java"]; ["B.java"]]
  ∧ concat (deal 2 ["A.java"; "B.java"; "C.java"]) ≡ₚ ["A.java"; "B.java"; "C.java"]
  ∧ concat (deal 12 ["A.java"; "B.java"; "C.java"]) = ["A.java"; "B.java"; "C.java"].
Proof.
  split; [by vm_compute|]. split.
  - apply (deal_every_file_once 2 ["A.java"; "B.java"; "C.java"]). lia.
  - by vm_compute.
Defined.

(** X25: when [main] returns, in single-process mode on a machine with at
    least one processor, it returns one flag for each Java file that is not a
    holder file and one flag for each holder file. *)
Theorem main_returns_a_flag_per_file
    (get_paths_to_all_NLS_classes find_java_files : string → list string)
    (cpu_count : nat) (module_paths : list string) (w w' : world)
    (changedusage changedmessage : list bool) :
  0 < cpu_count →
  main get_paths_to_all_NLS_classes find_java_files cpu_count module_paths w
  = (Ok (changedusage, changedmessage), w') →
  let NLS_files := concat (get_paths_to_all_NLS_classes <$> module_paths) in
  length changedusage
  = length (concat ((λ module_path, all_java_files_in find_java_files module_path NLS_files)
                    <$> module_paths))
  ∧ length changedmessage = length NLS_files.
Proof.
  intros Hcpu Hmain NLS_files. unfold main, mbind, M_bind in Hmain.
  apply bind_Ok in Hmain as (fal & w1 & _ & Hmain).
  apply bind_Ok in Hmain as (fap & w2 & _ & Hmain).
  apply bind_Ok in Hmain as (patterns & w3 & _ & Hmain).
  apply bind_Ok in Hmain as (cu & w4 & Hcu & Hmain).
  apply bind_Ok in Hmain as (cm & w5 & Hcm & Hmain).
  unfold mret, M_ret, ret in Hmain. injection Hmain as <- <- <-. split.
  - rewrite process_single_process_concat in Hcu.
    apply mapM_length in Hcu. rewrite Hcu.
    apply Permutation_length, deal_perm. lia.
  - by apply mapM_length in Hcm.
Qed.

Lemma main_returns_a_flag_per_file_witness :
  length [true]
  = length (concat ((λ module_path,
                       all_java_files_in small_project_sources module_path
                         (concat (small_project_holders <$> ["/p"])))
                    <$> ["/p"]))
  ∧ length [true] = length (concat (small_project_holders <$> ["/p"])).
Proof.
  apply (main_returns_a_flag_per_file small_project_holders small_project_sources 2
           ["/p"] small_project
           (main small_project_holders small_project_sources 2 ["/p"] small_project).2);
    [lia|].
  rewrite (surjective_pairing (main _ _ _ _ _)) at 1. f_equal; by vm_compute.
Defined.

(** ** The settings generator *)

(** X26: the settings that [generate_settings_data] makes hold exactly two
    line feeds, however many accessors there are: when no name holds a line
    feed, the data is the key of the accessor configuration, an equals sign,
    an XML text that holds no line feed, a line feed, the version entry and a
    line feed; the line breaks of the XML are written as a backslash and the
    letter n. *)
Theorem generate_settings_data_two_lines
    (accessors_and_properties : list (string * string)) :
  Forall (λ ap, no_line_feed ap.1 ∧ no_line_feed ap.2) accessors_and_properties →
  ∃ xml,
    no_line_feed xml
    ∧ Jinto.generate_settings_data accessors_and_properties
      = "de.guhsoft.jinto.core.accessorConfiguration=" +:+ xml +:+ String nl ""
        +:+ "eclipse.preferences.version=1" +:+ String nl "".
Proof.
  intros Hnames. unfold Jinto.generate_settings_data.
  set (references := Str.join "\n" _).
  assert (Href : no_line_feed references).
  { apply no_line_feed_join; [by apply no_line_feed_has_char|].
    apply Forall_fmap. eapply Forall_impl; [exact Hnames|].
    intros [accessor properties] [Ha Hp]. by apply no_line_feed_process_bundle_template. }
  exists ("<?xml version\=" +:+ Jinto.q +:+ "1.0" +:+ Jinto.q +:+ " encoding\="
          +:+ Jinto.q +:+ "UTF-8" +:+ Jinto.q +:+ "?>\n<root>\n" +:+ references
          +:+ "\n</root>").
  split.
  - rewrite !no_line_feed_app. split_and!; try done; by apply no_line_feed_has_char.
  - unfold Jinto.TEMPLATE. by rewrite !append_assoc.
Qed.

Lemma generate_settings_data_two_lines_witness :
  ∃ xml,
    no_line_feed xml
    ∧ Jinto.generate_settings_data [("Ac", "Ap"); ("Bc", "Bp")]
      = "de.guhsoft.jinto.core.accessorConfiguration=" +:+ xml +:+ String nl ""
        +:+ "eclipse.preferences.version=1" +:+ String nl "".
Proof.
  apply (generate_settings_data_two_lines [("Ac", "Ap"); ("Bc", "Bp")]).
  apply Forall_forall. intros ap Hap.
  repeat (apply elem_of_cons in Hap as [->|Hap];
          [split; by apply no_line_feed_has_char|]).
  by apply elem_of_nil in Hap.
Defined.

(** X27: what [extract_accessor_and_properties] makes of a file depends on
    three kinds of lines: a line whose text without the white space around it
    begins with [package], a line that holds the declaration of the bundle
    name, and a line that holds [public class ].  With no line of the first
    kind it raises the [ValueError] of the package, whatever else is there;
    with one of the first and none of the second kind that of the properties;
    with the first two and none of the third kind that of the class; with all
    three it returns an accessor and a bundle.  The file is only read. *)
Theorem extract_accessor_and_properties_outcomes (w : world) (filepath content : string) :
  files w !! filepath = Some content →
  let has (test : string → bool) :=
    Exists (λ line, test line = true) (lines_text content) in
  (¬ has is_package_line →
   Jinto.extract_accessor_and_properties filepath w
   = (Raise (ValueError ["File %s misses package identifier: %s."; filepath]), w))
  ∧ (has is_package_line → ¬ has is_bundle_line →
     Jinto.extract_accessor_and_properties filepath w
     = (Raise (ValueError ["File %s misses properties identifier: %s."; filepath]), w))
  ∧ (has is_package_line → has is_bundle_line → ¬ has is_class_line →
     Jinto.extract_accessor_and_properties filepath w
     = (Raise (ValueError ["File %s misses class identifier: %s."; filepath]), w))
  ∧ (has is_package_line → has is_bundle_line → has is_class_line →
     ∃ accessor properties,
       Jinto.extract_accessor_and_properties filepath w = (Ok (accessor, properties), w)).
Proof.
  intros Hfile has. unfold Jinto.extract_accessor_and_properties.
  unfold mbind, M_bind, bind, read_file. rewrite Hfile.
  set (st := Jinto.scan_lines _ _).
  assert (Hp : Jinto.s_package st = None ↔ ¬ has is_package_line).
  { unfold st, has. rewrite scan_lines_package, not_Exists_true. cbn. tauto. }
  assert (Hb : Jinto.s_properties st = None ↔ ¬ has is_bundle_line).
  { unfold st, has. rewrite scan_lines_properties, not_Exists_true. cbn. tauto. }
  assert (Hc : Jinto.s_classname st = None ↔ ¬ has is_class_line).
  { unfold st, has. rewrite scan_lines_classname, not_Exists_true. cbn. tauto. }
  destruct (Jinto.s_package st) as [p|], (Jinto.s_properties st) as [b|],
    (Jinto.s_classname st) as [c|]; split_and!; intros; try done;
    try (exfalso; tauto); try by eexists _, _.
  all: exfalso; intuition congruence.
Qed.

Lemma extract_accessor_and_properties_outcomes_witness :
  (∃ accessor properties,
     Jinto.extract_accessor_and_properties "/ws/x/src/net/disy/x/Messages.java"
       accessor_world
     = (Ok (accessor, properties), accessor_world))
  ∧ Jinto.extract_accessor_and_properties "/p/src/foo/Bah.java"
      (holder_world holder_without_import)
    = (Raise (ValueError ["File %s misses properties identifier: %s.";
                          "/p/src/foo/Bah.java"]),
       holder_world holder_without_import).
Proof.
  split.
  - apply (extract_accessor_and_properties_outcomes accessor_world
             "/ws/x/src/net/disy/x/Messages.java" accessor_file eq_refl);
      by_evaluation.
  - apply (extract_accessor_and_properties_outcomes (holder_world holder_without_import)
             "/p/src/foo/Bah.java" holder_without_import eq_refl);
      by_evaluation.
Defined.

(** ** The number of the test report *)

(** X28: [numtosxg] writes a number that is not negative with the sixty
    digits of [CHARACTERS], the most significant first: the digits of the
    result, read as a number to the base 60, give the number back, so
    different numbers have different results; the index into [CHARACTERS] is
    always in range, and the loop ends.  A negative number gives the empty
    string. *)
Theorem numtosxg_digits :
  (∀ n, (0 ≤ n)%Z → ∃ s, numtosxg n = Ok s ∧ sxg_value s = Some n)
  ∧ (∀ n m, (0 ≤ n)%Z → (0 ≤ m)%Z → numtosxg n = numtosxg m → n = m)
  ∧ (∀ n, (n < 0)%Z → numtosxg n = Ok "").
Proof.
  split_and!.
  - apply numtosxg_value.
  - intros n m Hn Hm Heq.
    destruct (numtosxg_value n Hn) as (s & Hs & Hv).
    destruct (numtosxg_value m Hm) as (s' & Hs' & Hv').
    rewrite Hs, Hs' in Heq. injection Heq as <-. congruence.
  - intros n Hn. unfold numtosxg.
    destruct (Z.eqb_spec n 0) as [->|_]; [lia|]. cbn [numtosxg_loop].
    by destruct (Z.ltb_spec 0 n); [lia|].
Qed.

Lemma numtosxg_digits_witness :
  numtosxg 0 = Ok "0" ∧ numtosxg 59 = Ok "z" ∧ numtosxg 60 = Ok "10"
  ∧ (∃ s, numtosxg 2026 = Ok s ∧ sxg_value s = Some 2026%Z)
  ∧ numtosxg (-1) = Ok "".
Proof.
  destruct numtosxg_digits as (Hvalue & _ & Hneg).
  split_and!; [by vm_compute | by vm_compute | by vm_compute | by apply Hvalue |].
  by apply Hneg.
Defined.

(** ** The static import of one variable *)

(** X29: a file that imports the variable itself with a static import and
    uses its bare name is rewritten like one with a static-star import: in
    any surrounding text the import line becomes the import of the class and
    the bare use becomes the [getString] call on the class; with nothing else
    in the file the result is exactly these two lines. *)
Theorem replace_NLS_usage_static_variable_import :
  (∀ A B C : string, ∃ A' B' C',
      replace_NLS_usage (A +:+ variable_import_line +:+ B +:+ usage_text +:+ C)
        [FOO_a_rule]
      = Ok (A' +:+ import_line_after +:+ B' +:+ usage_text_after +:+ C'))
  ∧ replace_NLS_usage (variable_import_line +:+ String nl usage_text) [FOO_a_rule]
    = Ok (import_line_after +:+ String nl usage_text_after).
Proof.
  split; [|by vm_compute].
  intros A B C. destruct (variable_import_rewritten A B C) as (A' & B' & C' & H).
  exists A', B', C'. rewrite replace_NLS_usage_plain by exact FOO_a_rule_plain.
  by rewrite H.
Qed.

(** ** A variable declared with array brackets *)

(** X30: a declaration that puts the brackets of an array after the name,
    as in [public static String FOO[];], gives a variable name that ends in
    the two brackets.  The static-import matcher of its rule does not
    compile, the opening bracket starts a set that is never closed: when the
    rules before it are rules whose names stand for themselves,
    [replace_NLS_usage] raises [re.error] for every content, and
    [replace_patterns_in_file] passes the exception on and leaves the file
    as it was. *)
Theorem replace_NLS_usage_array_brackets (c : string) (before after : list rule)
    (r : rule) (q : string) :
  Forall plain_rule before →
  FROM r = q +:+ "[]" →
  no_operator_but_dot (package r) = true → no_operator_but_dot q = true →
  replace_NLS_usage c (before ++ r :: after) = Raise re_error
  ∧ ∀ (w : world) (filepath : string),
      files w !! filepath = Some c →
      replace_patterns_in_file filepath (before ++ r :: after) w = (Raise re_error, w).
Proof.
  intros Hbefore HF HP Hq.
  pose proof (replace_NLS_usage_brackets c before after r q Hbefore HF HP Hq) as Hraise.
  split; [done|]. intros w filepath Hfile.
  by apply (replace_patterns_in_file_raises _ _ c).
Qed.

Lemma replace_NLS_usage_array_brackets_witness :
  line_to_variable (declaration "FOO[]") = Ok "FOO[]"
  ∧ replace_NLS_usage usage_before ([FOO_a_rule] ++ FOO_array_rule :: []) = Raise re_error
  ∧ replace_patterns_in_file "/p/src/bar/Use.java" ([FOO_a_rule] ++ FOO_array_rule :: [])
      small_project
    = (Raise re_error, small_project).
Proof.
  destruct (replace_NLS_usage_array_brackets usage_before [FOO_a_rule] [] FOO_array_rule
              "Bah.FOO" FOO_a_rule_plain eq_refl eq_refl eq_refl) as [H1 H2].
  split_and!; [by vm_compute | exact H1 | by apply H2].
Defined.
